(** * Marketing-site data loaders of course-discovery

    A shallow embedding of
    [course_discovery/apps/course_metadata/data_loaders/marketing_site.py]:
    the paginated ingestion loop of [AbstractMarketingSiteDataLoader], the
    XSeries loader and the Course loader, over an explicit catalog state
    (the tables the loaders read and write, and the log).

    Python values that come out of [response.json()] are modelled by [json];
    Python exceptions by [exn]; a method that reads or writes the catalog is
    a function [Catalog -> Catalog * result A], so that what was written
    before an exception stays written, as it does under Django's autocommit. *)

From Stdlib Require Import ZArith List String Ascii Bool Lia PeanoNat DecimalString DecimalPos.
Import ListNotations.

Set Implicit Arguments.
Set Warnings "-register-all".

Local Open Scope string_scope.
Local Open Scope list_scope.
Local Open Scope Z_scope.

(** ** Python values and exceptions *)

(** The values [json.loads] produces.  Numbers are the integers: the fields
    the loaders read are integral (timestamps, week counts, flags). *)
Inductive json : Type :=
| JNull
| JBool (b : bool)
| JNum (n : Z)
| JStr (s : string)
| JList (l : list json)
| JDict (d : list (string * json)).

Inductive exn : Type :=
| KeyError (k : string)
| TypeError
| ValueError
| AttributeError
| UnboundLocalError (name : string)
| InvalidKeyError
| DoesNotExist
| MultipleObjectsReturned
| PyException (msg : string).

Inductive result (A : Type) : Type :=
| Ok (a : A)
| Raise (e : exn).
Arguments Ok {A} a.
Arguments Raise {A} e.

Definition rbind {A B} (r : result A) (k : A -> result B) : result B :=
  match r with
  | Ok a => k a
  | Raise e => Raise e
  end.

Declare Scope res_scope.
Delimit Scope res_scope with res.
Notation "'let?' x ':=' r 'in' k" := (rbind r (fun x => k))
  (at level 10, x name, r at level 100, k at level 200) : res_scope.

(** ** Strings, as [str] has them *)

Module PyStr.

Definition code (c : ascii) : Z := Z.of_nat (nat_of_ascii c).

(** [str.isspace] on the ASCII range: TAB..CR, FS..US and the space.
    Strings are kept UTF-8 encoded, so the non-ASCII Unicode spaces are
    multi-byte sequences and are left alone. *)
Definition is_space (c : ascii) : bool :=
  ((9 <=? code c) && (code c <=? 13)) || ((28 <=? code c) && (code c <=? 32)).

Fixpoint mem_char (c : ascii) (chars : string) : bool :=
  match chars with
  | EmptyString => false
  | String c' rest => Ascii.eqb c c' || mem_char c rest
  end.

Fixpoint drop_while (p : ascii -> bool) (s : list ascii) : list ascii :=
  match s with
  | [] => []
  | c :: rest => if p c then drop_while p rest else s
  end.

Definition lstrip_by (p : ascii -> bool) (s : string) : string :=
  string_of_list_ascii (drop_while p (list_ascii_of_string s)).

Definition rstrip_by (p : ascii -> bool) (s : string) : string :=
  string_of_list_ascii (rev (drop_while p (rev (list_ascii_of_string s)))).

(** [s.lstrip(chars)]: drops leading characters while they belong to the
    SET of characters of [chars]. *)
Definition lstrip (chars : string) (s : string) : string :=
  lstrip_by (fun c => mem_char c chars) s.

(** [s.strip()] *)
Definition strip (s : string) : string :=
  rstrip_by is_space (lstrip_by is_space s).

(** [prefix p s]: [s.startswith(p)]. *)
Fixpoint startswith (p s : string) : bool :=
  match p, s with
  | EmptyString, _ => true
  | String a p', String b s' => Ascii.eqb a b && startswith p' s'
  | String _ _, EmptyString => false
  end.

(** Removal of a literal prefix (what [str.removeprefix] does). *)
Fixpoint removeprefix (p s : string) : string :=
  match p, s with
  | EmptyString, _ => s
  | String a p', String b s' =>
      if Ascii.eqb a b && startswith p' s' then removeprefix p' s' else s
  | String _ _, EmptyString => s
  end.

(** [s.split(sep)] for a one-character separator, kept as a non-empty
    list: [last_segment] is [s.split(sep)[-1]]. *)
Fixpoint split_on (sep : ascii) (cur : list ascii) (s : list ascii) : list string :=
  match s with
  | [] => [string_of_list_ascii (rev cur)]
  | c :: rest =>
      if Ascii.eqb c sep
      then string_of_list_ascii (rev cur) :: split_on sep [] rest
      else split_on sep (c :: cur) rest
  end.

Definition split (sep : ascii) (s : string) : list string :=
  split_on sep [] (list_ascii_of_string s).

Definition last_segment (sep : ascii) (s : string) : string :=
  last (split sep s) EmptyString.

Definition lower_char (c : ascii) : ascii :=
  if (65 <=? code c) && (code c <=? 90)
  then ascii_of_nat (nat_of_ascii c + 32)
  else c.

Fixpoint lower (s : string) : string :=
  match s with
  | EmptyString => EmptyString
  | String c rest => String (lower_char c) (lower rest)
  end.

(** The [__iexact] lookup: equality up to ASCII case. *)
Definition iexact (a b : string) : bool := String.eqb (lower a) (lower b).

Definition digit (c : ascii) : option Z :=
  if (48 <=? code c) && (code c <=? 57) then Some (code c - 48) else None.

Fixpoint digits (acc : Z) (s : list ascii) : option Z :=
  match s with
  | [] => Some acc
  | c :: rest =>
      match digit c with
      | Some d => digits (10 * acc + d) rest
      | None => None
      end
  end.

(** [int(s)] for a string: surrounding whitespace, an optional sign, and
    at least one ASCII decimal digit. *)
Definition to_int (s : string) : result Z :=
  match list_ascii_of_string (strip s) with
  | [] => Raise ValueError
  | c :: rest =>
      if Ascii.eqb c "-" then
        match rest with
        | [] => Raise ValueError
        | _ => match digits 0 rest with Some n => Ok (- n) | None => Raise ValueError end
        end
      else if Ascii.eqb c "+" then
        match rest with
        | [] => Raise ValueError
        | _ => match digits 0 rest with Some n => Ok n | None => Raise ValueError end
        end
      else match digits 0 (c :: rest) with Some n => Ok n | None => Raise ValueError end
  end.

End PyStr.

(** ** Operations on parsed JSON *)

Fixpoint assoc (k : string) (d : list (string * json)) : option json :=
  match d with
  | [] => None
  | (k', v) :: rest => if String.eqb k k' then Some v else assoc k rest
  end.

(** [bool(v)] *)
Definition truthy (v : json) : bool :=
  match v with
  | JNull => false
  | JBool b => b
  | JNum n => negb (n =? 0)
  | JStr s => negb (String.eqb s "")
  | JList l => match l with [] => false | _ => true end
  | JDict d => match d with [] => false | _ => true end
  end.

(** [v[k]] with a string key *)
Definition getitem (v : json) (k : string) : result json :=
  match v with
  | JDict d => match assoc k d with Some x => Ok x | None => Raise (KeyError k) end
  | _ => Raise TypeError
  end.

(** [v.get(k, default)] *)
Definition get_default (v : json) (k : string) (default : json) : result json :=
  match v with
  | JDict d => match assoc k d with Some x => Ok x | None => Ok default end
  | _ => Raise AttributeError
  end.

(** [v.get(k)] *)
Definition get (v : json) (k : string) : result json := get_default v k JNull.

(** [int(v)] *)
Definition py_int (v : json) : result Z :=
  match v with
  | JNum n => Ok n
  | JBool b => Ok (if b then 1 else 0)
  | JStr s => PyStr.to_int s
  | _ => Raise TypeError
  end.

(** [for x in v]: the items a [for] loop or a comprehension visits. *)
Definition iterate (v : json) : result (list json) :=
  match v with
  | JList l => Ok l
  | JDict d => Ok (map (fun kv => JStr (fst kv)) d)
  | JStr s => Ok (map (fun c => JStr (String c EmptyString)) (list_ascii_of_string s))
  | _ => Raise TypeError
  end.

(** [range(a, b)] *)
Definition py_range (a b : Z) : list Z :=
  map (fun i => a + Z.of_nat i) (seq 0 (Z.to_nat (b - a))).

Fixpoint json_eqb (a b : json) : bool :=
  match a, b with
  | JNull, JNull => true
  | JBool x, JBool y => Bool.eqb x y
  | JNum x, JNum y => x =? y
  | JStr x, JStr y => String.eqb x y
  | JList x, JList y =>
      (fix all2 (x y : list json) : bool :=
         match x, y with
         | [], [] => true
         | a' :: x', b' :: y' => json_eqb a' b' && all2 x' y'
         | _, _ => false
         end) x y
  | JDict x, JDict y =>
      (fix all2 (x y : list (string * json)) : bool :=
         match x, y with
         | [], [] => true
         | (k, a') :: x', (k', b') :: y' => String.eqb k k' && json_eqb a' b' && all2 x' y'
         | _, _ => false
         end) x y
  | _, _ => false
  end.

(** ** The catalog: the tables the loaders read and write *)

Inductive CourseRunStatus : Type := Published | Unpublished.
Inductive CourseRunPacing : Type := Self | Instructor.

(** A UTC [datetime], in whole seconds since the epoch. *)
Definition datetime : Type := Z.

Module Course.
(** The attributes [process_node] passes as [defaults]. *)
Record fields : Type := {
  key : string;
  title : string;
  number : json;
  full_description : string;
  video : option nat;
  short_description : string;
  level_type : option json;
  card_image_url : json
}.
Record t : Type := { pk : nat; partner : nat; attrs : fields }.
End Course.

Module CourseRun.
(** The attributes [create_course_run] passes as [defaults]. *)
Record fields : Type := {
  key : string;
  course : nat;
  uuid : json;
  title_override : string;
  language : option string;
  slug : string;
  card_image_url : json;
  status : CourseRunStatus;
  start : option datetime;
  pacing_type : CourseRunPacing;
  hidden : bool;
  weeks_to_complete : option Z;
  mobile_available : json
}.
Record t : Type := { pk : nat; attrs : fields }.
End CourseRun.

Module Program.
(** The attributes the XSeries loader writes. *)
Record fields : Type := {
  subtitle : json;
  card_image_url : json;
  overview : string;
  video : option nat;
  credit_redemption_overview : json
}.
Record t : Type := { pk : nat; marketing_slug : string; partner : nat; attrs : fields }.
End Program.

(** Organization, Subject and Person rows, as far as the Course loader
    looks at them: it filters them on [uuid] and links them by primary key. *)
Record Entity : Type := { entity_pk : nat; entity_uuid : string }.

Inductive LogLevel : Type := LInfo | LError | LException.
Record LogEntry : Type := { log_level : LogLevel; log_format : string; log_args : list json }.

Record Catalog (Media : Type) : Type := {
  courses : list Course.t;
  course_runs : list CourseRun.t;
  programs : list Program.t;
  organizations : list Entity;
  subjects : list Entity;
  people : list Entity;
  language_tags : list string;
  level_types : list json;
  media : Media;
  course_subjects : list (nat * nat);
  course_authoring_organizations : list (nat * nat);
  course_run_staff : list (nat * nat);
  course_run_transcript_languages : list (nat * string);
  log : list LogEntry
}.

Section CatalogUpdate.
Context {Media : Type}.
Implicit Type c : Catalog Media.

Definition with_courses (x : list Course.t) c : Catalog Media :=
  {| courses := x; course_runs := course_runs c; programs := programs c;
     organizations := organizations c; subjects := subjects c; people := people c;
     language_tags := language_tags c; level_types := level_types c; media := media c;
     course_subjects := course_subjects c;
     course_authoring_organizations := course_authoring_organizations c;
     course_run_staff := course_run_staff c;
     course_run_transcript_languages := course_run_transcript_languages c;
     log := log c |}.

Definition with_course_runs (x : list CourseRun.t) c : Catalog Media :=
  {| courses := courses c; course_runs := x; programs := programs c;
     organizations := organizations c; subjects := subjects c; people := people c;
     language_tags := language_tags c; level_types := level_types c; media := media c;
     course_subjects := course_subjects c;
     course_authoring_organizations := course_authoring_organizations c;
     course_run_staff := course_run_staff c;
     course_run_transcript_languages := course_run_transcript_languages c;
     log := log c |}.

Definition with_programs (x : list Program.t) c : Catalog Media :=
  {| courses := courses c; course_runs := course_runs c; programs := x;
     organizations := organizations c; subjects := subjects c; people := people c;
     language_tags := language_tags c; level_types := level_types c; media := media c;
     course_subjects := course_subjects c;
     course_authoring_organizations := course_authoring_organizations c;
     course_run_staff := course_run_staff c;
     course_run_transcript_languages := course_run_transcript_languages c;
     log := log c |}.

Definition with_level_types (x : list json) c : Catalog Media :=
  {| courses := courses c; course_runs := course_runs c; programs := programs c;
     organizations := organizations c; subjects := subjects c; people := people c;
     language_tags := language_tags c; level_types := x; media := media c;
     course_subjects := course_subjects c;
     course_authoring_organizations := course_authoring_organizations c;
     course_run_staff := course_run_staff c;
     course_run_transcript_languages := course_run_transcript_languages c;
     log := log c |}.

Definition with_media (x : Media) c : Catalog Media :=
  {| courses := courses c; course_runs := course_runs c; programs := programs c;
     organizations := organizations c; subjects := subjects c; people := people c;
     language_tags := language_tags c; level_types := level_types c; media := x;
     course_subjects := course_subjects c;
     course_authoring_organizations := course_authoring_organizations c;
     course_run_staff := course_run_staff c;
     course_run_transcript_languages := course_run_transcript_languages c;
     log := log c |}.

Definition with_course_subjects (x : list (nat * nat)) c : Catalog Media :=
  {| courses := courses c; course_runs := course_runs c; programs := programs c;
     organizations := organizations c; subjects := subjects c; people := people c;
     language_tags := language_tags c; level_types := level_types c; media := media c;
     course_subjects := x;
     course_authoring_organizations := course_authoring_organizations c;
     course_run_staff := course_run_staff c;
     course_run_transcript_languages := course_run_transcript_languages c;
     log := log c |}.

Definition with_course_authoring_organizations (x : list (nat * nat)) c : Catalog Media :=
  {| courses := courses c; course_runs := course_runs c; programs := programs c;
     organizations := organizations c; subjects := subjects c; people := people c;
     language_tags := language_tags c; level_types := level_types c; media := media c;
     course_subjects := course_subjects c;
     course_authoring_organizations := x;
     course_run_staff := course_run_staff c;
     course_run_transcript_languages := course_run_transcript_languages c;
     log := log c |}.

Definition with_course_run_staff (x : list (nat * nat)) c : Catalog Media :=
  {| courses := courses c; course_runs := course_runs c; programs := programs c;
     organizations := organizations c; subjects := subjects c; people := people c;
     language_tags := language_tags c; level_types := level_types c; media := media c;
     course_subjects := course_subjects c;
     course_authoring_organizations := course_authoring_organizations c;
     course_run_staff := x;
     course_run_transcript_languages := course_run_transcript_languages c;
     log := log c |}.

Definition with_course_run_transcript_languages (x : list (nat * string)) c : Catalog Media :=
  {| courses := courses c; course_runs := course_runs c; programs := programs c;
     organizations := organizations c; subjects := subjects c; people := people c;
     language_tags := language_tags c; level_types := level_types c; media := media c;
     course_subjects := course_subjects c;
     course_authoring_organizations := course_authoring_organizations c;
     course_run_staff := course_run_staff c;
     course_run_transcript_languages := x;
     log := log c |}.

Definition with_log (x : list LogEntry) c : Catalog Media :=
  {| courses := courses c; course_runs := course_runs c; programs := programs c;
     organizations := organizations c; subjects := subjects c; people := people c;
     language_tags := language_tags c; level_types := level_types c; media := media c;
     course_subjects := course_subjects c;
     course_authoring_organizations := course_authoring_organizations c;
     course_run_staff := course_run_staff c;
     course_run_transcript_languages := course_run_transcript_languages c;
     log := x |}.

(** *** Methods over the catalog: state passing with exceptions *)

Definition M (A : Type) : Type := Catalog Media -> Catalog Media * result A.

Definition ret {A} (a : A) : M A := fun c => (c, Ok a).
Definition raise {A} (e : exn) : M A := fun c => (c, Raise e).
Definition lift {A} (r : result A) : M A := fun c => (c, r).

Definition bind {A B} (m : M A) (k : A -> M B) : M B :=
  fun c =>
    match m c with
    | (c', Ok a) => k a c'
    | (c', Raise e) => (c', Raise e)
    end.

(** [try: m except: handler] with a bare [except]. *)
Definition try_except {A} (m : M A) (handler : exn -> M A) : M A :=
  fun c =>
    match m c with
    | (c', Ok a) => (c', Ok a)
    | (c', Raise e) => handler e c'
    end.

Definition logger (lvl : LogLevel) (fmt : string) (args : list json) : M unit :=
  fun c => (with_log (log c ++ [{| log_level := lvl; log_format := fmt; log_args := args |}]) c, Ok tt).

End CatalogUpdate.

Declare Scope loader_scope.
Delimit Scope loader_scope with loader.
Notation "x <- m ;; k" := (bind m (fun x => k))
  (at level 61, m at next level, right associativity) : loader_scope.
Notation "m ;; k" := (bind m (fun _ => k))
  (at level 61, right associativity) : loader_scope.

(** *** Methods that also ask the marketing site for pages

    Such a method yields, next to its outcome on the catalog, the pages
    it requested, in the order of the requests. *)

Definition Pager (Media A : Type) : Type :=
  Catalog Media -> list Z * (Catalog Media * result A).

Definition requested_pages {Media A} (out : list Z * (Catalog Media * result A)) : list Z :=
  fst out.

Definition pager_ret {Media A} (a : A) : Pager Media A := fun c => ([], (c, Ok a)).

Definition pager_bind {Media A B} (m : Pager Media A) (k : A -> Pager Media B)
  : Pager Media B :=
  fun c =>
    match m c with
    | (pages, (c', Ok a)) => let '(pages', out) := k a c' in (pages ++ pages', out)
    | (pages, (c', Raise e)) => (pages, (c', Raise e))
    end.

(** A method over the catalog requests nothing. *)
Definition quiet {Media A} (m : M (Media := Media) A) : Pager Media A := fun c => ([], m c).

(** [executor.submit(call)]: the call is made; what it returns or raises
    is kept in its future and raised only by [future.result()]. *)
Definition submit {Media A} (call : Pager Media A) : Pager Media (result A) :=
  fun c => let '(pages, (c', r)) := call c in (pages, (c', Ok r)).

Declare Scope pager_scope.
Delimit Scope pager_scope with pager.
Notation "x <- m ;; k" := (pager_bind m (fun x => k))
  (at level 61, m at next level, right associativity) : pager_scope.
Notation "m ;; k" := (pager_bind m (fun _ => k))
  (at level 61, right associativity) : pager_scope.

(** *** Many-to-many relations, as through tables *)

Definition m2m_clear {B} (owner : nat) (t : list (nat * B)) : list (nat * B) :=
  filter (fun p => negb (Nat.eqb (fst p) owner)) t.

(** [related.add] of the rows [xs]: links that are already there are not added again. *)
Fixpoint m2m_add {B} (eqb : B -> B -> bool) (owner : nat) (xs : list B)
    (t : list (nat * B)) : list (nat * B) :=
  match xs with
  | [] => t
  | x :: rest =>
      m2m_add eqb owner rest
        (if existsb (fun p => Nat.eqb (fst p) owner && eqb (snd p) x) t
         then t else t ++ [(owner, x)])
  end.

(** The members of [owner]'s relation set. *)
Definition m2m_members {B} (owner : nat) (t : list (nat * B)) : list B :=
  map snd (filter (fun p => Nat.eqb (fst p) owner) t).

(** A fresh primary key. *)
Definition next_pk (pks : list nat) : nat := S (fold_right Nat.max O pks).

(** ** Query strings: [urlparse(url).query] and [parse_qs] *)

Module Url.

Fixpoint take_until (stop : ascii) (s : list ascii) : list ascii :=
  match s with
  | [] => []
  | c :: rest => if Ascii.eqb c stop then [] else c :: take_until stop rest
  end.

Fixpoint after_first (stop : ascii) (s : list ascii) : list ascii :=
  match s with
  | [] => []
  | c :: rest => if Ascii.eqb c stop then rest else after_first stop rest
  end.

(** [urlparse(url).query]: the fragment is cut off at the first [#], the
    query is what follows the first [?] of the rest. *)
Definition query (url : string) : list ascii :=
  after_first "?" (take_until "#" (list_ascii_of_string url)).

Fixpoint split_any (seps : string) (cur : list ascii) (s : list ascii) : list (list ascii) :=
  match s with
  | [] => [rev cur]
  | c :: rest =>
      if PyStr.mem_char c seps
      then rev cur :: split_any seps [] rest
      else split_any seps (c :: cur) rest
  end.

Definition hex (c : ascii) : option nat :=
  let n := nat_of_ascii c in
  if (48 <=? n)%nat && (n <=? 57)%nat then Some (n - 48)%nat
  else if (65 <=? n)%nat && (n <=? 70)%nat then Some (n - 55)%nat
  else if (97 <=? n)%nat && (n <=? 102)%nat then Some (n - 87)%nat
  else None.

(** [unquote(s.replace('+', ' '))] *)
Fixpoint unquote_plus (s : list ascii) : list ascii :=
  match s with
  | [] => []
  | c :: rest =>
      if Ascii.eqb c "+" then " "%char :: unquote_plus rest
      else if Ascii.eqb c "%" then
        match rest with
        | h :: (l :: rest') as tail =>
            match hex h, hex l with
            | Some a, Some b => ascii_of_nat (16 * a + b) :: unquote_plus rest'
            | _, _ => c :: unquote_plus tail
            end
        | _ => c :: unquote_plus rest
        end
      else c :: unquote_plus rest
  end.

(** One [name=value] field of [parse_qs]; a field without [=] or with an
    empty value is skipped ([keep_blank_values] is off). *)
Definition field (nv : list ascii) : option (string * string) :=
  if existsb (Ascii.eqb "=") nv then
    match after_first "=" nv with
    | [] => None
    | v => Some (string_of_list_ascii (unquote_plus (take_until "=" nv)),
                 string_of_list_ascii (unquote_plus v))
    end
  else None.

Fixpoint fields (l : list (list ascii)) : list (string * string) :=
  match l with
  | [] => []
  | nv :: rest =>
      match field nv with
      | Some f => f :: fields rest
      | None => fields rest
      end
  end.

(** The pairs [parse_qs] groups by name, in order; fields are separated
    by [&] or [;]. *)
Definition parse_qsl (qs : list ascii) : list (string * string) :=
  fields (split_any "&;" [] qs).

(** [parse_qs(qs)[name][0]] *)
Fixpoint first_value (name : string) (l : list (string * string)) : result string :=
  match l with
  | [] => Raise (KeyError name)
  | (k, v) :: rest => if String.eqb k name then Ok v else first_value name rest
  end.

End Url.

(** ** The response of the marketing site to one page request *)

Record Response : Type := {
  status_code : Z;
  url : string;
  content : string;
  json_body : result json   (* [response.json()] *)
}.

Definition str_of_Z (z : Z) : string := NilZero.string_of_int (Z.to_int z).
Definition newline : string := String (ascii_of_nat 10) EmptyString.

Local Open Scope loader_scope.

Module AbstractMarketingSiteDataLoader.

(** [_get_nested_url]: the nested [url] of a field, where Drupal may
    have put an empty array for an empty object. *)
Definition _get_nested_url (field : json) : result json :=
  get (if truthy field then field else JDict []) "url".

(** [int(parse_qs(urlparse(url).query)['page'][0])].  The links of the
    marketing site are strings; any other value is refused here. *)
Definition _extract_page (u : json) : result Z :=
  match u with
  | JStr s =>
      (let? v := Url.first_value "page" (Url.parse_qsl (Url.query s)) in
       PyStr.to_int v)%res
  | _ => Raise TypeError
  end.

Definition initial_page : Z := 0.

(** The pages [ingest] schedules after page 0, from the first page's
    JSON: [range] over the page numbers of [first] and [last], each
    plus one. *)
Definition pagerange (data : json) : result (list Z) :=
  (let? first := getitem data "first" in
   let? last := getitem data "last" in
   let? f := _extract_page first in
   let? l := _extract_page last in
   Ok (py_range (f + 1) (l + 1)))%res.

Section Loader.

(** What the class takes from its subclass, from [AbstractDataLoader]
    and from the network: [process_node], [clean_strings], and the
    authenticated session answering the request for a page. *)
Variable Media : Type.
Variable clean_strings : json -> result json.
Variable api_client_get : Z -> result Response.
Variable is_threadsafe : bool.
Variable process_node : json -> M (Media := Media) unit.

Local Abbreviation M := (@M Media).

(** [_request]: the page number is the one part of the URL that varies
    from one request to the next, so the session is asked by page. *)
Definition _request (page : Z) : Pager Media Response :=
  fun c => ([page], (c, api_client_get page)).

Definition _check_status_code (response : Response) : M unit :=
  if status_code response =? 200 then ret tt
  else
    let msg := ("Failed to retrieve data from " ++ url response ++ newline
                ++ "Status Code: " ++ str_of_Z (status_code response) ++ newline
                ++ "Body: " ++ content response)%string in
    logger LError msg [] ;; raise (PyException msg).

(** The loop of [_process_response].  [url] is the local variable of
    that name: it is bound by the first statement of the [try] body
    and read by the handler, and it keeps its value from one
    iteration to the next. *)
Fixpoint process_nodes (url : option json) (nodes : list json) : M unit :=
  match nodes with
  | [] => ret tt
  | node :: rest =>
      match getitem node "url" with
      | Ok u =>
          try_except
            (cleaned <- lift (clean_strings node) ;; process_node cleaned)
            (fun _ => logger LException "Failed to load %s." [u]) ;;
          process_nodes (Some u) rest
      | Raise _ =>
          match url with
          | Some u => logger LException "Failed to load %s." [u] ;; process_nodes url rest
          | None => raise (UnboundLocalError "url")
          end
      end
  end.

Definition _process_response (response : Response) : M unit :=
  _check_status_code response ;;
  data <- lift (json_body response) ;;
  list <- lift (getitem data "list") ;;
  nodes <- lift (iterate list) ;;
  process_nodes None nodes.

Definition _load_data (page : Z) : Pager Media unit :=
  (response <- _request page ;;
   quiet (_process_response response))%pager.

(** [[executor.submit(self._request, page) for page in pagerange]] *)
Fixpoint submit_requests (pages : list Z) : Pager Media (list (result Response)) :=
  match pages with
  | [] => pager_ret []
  | page :: rest =>
      (future <- submit (_request page) ;;
       futures <- submit_requests rest ;;
       pager_ret (future :: futures))%pager
  end.

(** [for future in futures: response = future.result(); ...] *)
Fixpoint process_futures (futures : list (result Response)) : M unit :=
  match futures with
  | [] => ret tt
  | future :: rest =>
      response <- lift future ;;
      _process_response response ;;
      process_futures rest
  end.

(** [for page in pagerange: executor.submit(self._load_data, page)];
    nothing asks these futures for their result.  The pages are run
    here one after the other. *)
Fixpoint submit_load_data (pages : list Z) : Pager Media unit :=
  match pages with
  | [] => pager_ret tt
  | page :: rest =>
      (submit (_load_data page) ;;
       submit_load_data rest)%pager
  end.

Definition ingest : Pager Media unit :=
  (response <- _request initial_page ;;
   quiet (_process_response response) ;;
   data <- quiet (lift (json_body response)) ;;
   match data with
   | JDict d =>
       match assoc "next" d with
       | Some _ =>
           pages <- quiet (lift (pagerange data)) ;;
           if is_threadsafe then submit_load_data pages
           else
             futures <- submit_requests pages ;;
             quiet (process_futures futures)
       | None => pager_ret tt
       end
   | _ => quiet (raise TypeError)
   end)%pager.

End Loader.

End AbstractMarketingSiteDataLoader.

(** [v.split('/')[-1]] on a value that has to be a [str]. *)
Definition last_path_segment (v : json) : result string :=
  match v with
  | JStr s => Ok (PyStr.last_segment "/" s)
  | _ => Raise AttributeError
  end.

Definition lift_media {Media A} (f : Media -> Media * result A) : M (Media := Media) A :=
  fun c => let '(m, r) := f (media c) in (with_media m c, r).

Module XSeriesMarketingSiteDataLoader.
Import AbstractMarketingSiteDataLoader.

Definition heading : string := "### XSeries Program Overview".

(** [overview.lstrip('### XSeries Program Overview').strip()] *)
Definition strip_heading (overview : string) : string :=
  PyStr.strip (PyStr.lstrip heading overview).

Section Loader.

Variable Media : Type.
Variable clean_html : json -> result string.
Variable get_or_create_video : json -> json -> Media -> Media * result (option nat).
Variable partner : nat.

Local Abbreviation M := (@M Media).

(** [Program.objects.get(marketing_slug=..., partner=...)] *)
Definition Program_get (marketing_slug : string) : M Program.t :=
  fun c =>
    match filter (fun p => String.eqb (Program.marketing_slug p) marketing_slug
                           && Nat.eqb (Program.partner p) partner) (programs c) with
    | [] => (c, Raise DoesNotExist)
    | [p] => (c, Ok p)
    | _ => (c, Raise MultipleObjectsReturned)
    end.

(** [program.save()] *)
Definition Program_save (p : Program.t) : M unit :=
  fun c =>
    (with_programs
       (map (fun q => if Nat.eqb (Program.pk q) (Program.pk p) then p else q) (programs c)) c,
     Ok tt).

(** Lines 163-164: the cleaned body with the heading taken off. *)
Definition overview_of (data : json) : result string :=
  (let? body := getitem data "body" in
   let? value := getitem body "value" in
   let? overview := clean_html value in
   Ok (strip_heading overview))%res.

Definition process_node (data : json) : M (option Program.t) :=
  url <- lift (getitem data "url") ;;
  marketing_slug <- lift (last_path_segment url) ;;
  fun c =>
    match Program_get marketing_slug c with
    | (c', Raise DoesNotExist) =>
        (logger LError
           "Program [%s] exists on the marketing site, but not in the Programs Service!"
           [JStr marketing_slug] ;;
         ret None) c'
    | (c', Raise e) => (c', Raise e)
    | (c', Ok program) =>
        (card_field <- lift (get data "field_card_image") ;;
         card_image_url <- lift (_get_nested_url card_field) ;;
         video_field <- lift (get data "field_product_video") ;;
         video_url <- lift (_get_nested_url video_field) ;;
         overview <- lift (overview_of data) ;;
         subtitle <- lift (get data "field_xseries_subtitle_short") ;;
         video <- lift_media (get_or_create_video video_url JNull) ;;
         credit <- lift (get data "field_cards_section_description") ;;
         let program' :=
           {| Program.pk := Program.pk program;
              Program.marketing_slug := Program.marketing_slug program;
              Program.partner := Program.partner program;
              Program.attrs :=
                {| Program.subtitle := subtitle;
                   Program.card_image_url := card_image_url;
                   Program.overview := overview;
                   Program.video := video;
                   Program.credit_redemption_overview := credit |} |} in
         Program_save program' ;;
         logger LInfo "Processed XSeries with marketing_slug [%s]." [JStr marketing_slug] ;;
         ret (Some program')) c'
    end.

End Loader.

End XSeriesMarketingSiteDataLoader.

(** ** Dates: [datetime.fromtimestamp] and [dateutil.rrule] *)

Definition WEEK : Z := 604800.

(** 0001-01-01T00:00:00Z and 9999-12-31T23:59:59Z, the range of [datetime]. *)
Definition MIN_TIMESTAMP : Z := -62135596800.
Definition MAX_TIMESTAMP : Z := 253402300799.

(** [datetime.datetime.fromtimestamp(t, tz=pytz.UTC)] *)
Definition fromtimestamp (t : Z) : result datetime :=
  if (MIN_TIMESTAMP <=? t) && (t <=? MAX_TIMESTAMP) then Ok t else Raise ValueError.

(** The iterator of [rrule(WEEKLY, dtstart=..., until=...)]: it yields
    [dtstart], then moves on by one week at a time, and stops at the
    first date after [until].  [fuel] bounds the number of steps. *)
Fixpoint rrule_weekly_iter (fuel : nat) (cur until : datetime) : list datetime :=
  match fuel with
  | O => []
  | S fuel' =>
      if cur <=? until then cur :: rrule_weekly_iter fuel' (cur + WEEK) until else []
  end.

(** The iterator gives up at [datetime.MAXYEAR]: that many steps suffice. *)
Definition rrule_fuel (dtstart : datetime) : nat :=
  Z.to_nat ((MAX_TIMESTAMP - dtstart) / WEEK + 1).

Definition rrule_weekly (dtstart until : datetime) : list datetime :=
  rrule_weekly_iter (rrule_fuel dtstart) dtstart until.

(** [rrule.rrule(rrule.WEEKLY, dtstart=start, until=end).count()] *)
Definition rrule_weekly_count (dtstart until : datetime) : Z :=
  Z.of_nat (List.length (rrule_weekly dtstart until)).

Fixpoint assoc_set (k : string) (v : json) (d : list (string * json)) : list (string * json) :=
  match d with
  | [] => [(k, v)]
  | (k', v') :: rest =>
      if String.eqb k k' then (k, v) :: rest else (k', v') :: assoc_set k v rest
  end.

(** [o[k] = v] *)
Definition setitem (o : json) (k : string) (v : json) : result json :=
  match o with
  | JDict d => Ok (JDict (assoc_set k v d))
  | _ => Raise TypeError
  end.

Module CourseMarketingSiteDataLoader.
Import AbstractMarketingSiteDataLoader.

Definition LANGUAGE_MAP : list (string * string) :=
  [ ("English", "en-us");
    ("日本語", "ja");
    ("繁體中文", "zh-Hant");
    ("Indonesian", "id");
    ("Italian", "it-it");
    ("Korean", "ko");
    ("Simplified Chinese", "zh-Hans");
    ("Deutsch", "de-de");
    ("Español", "es-es");
    ("Français", "fr-fr");
    ("Nederlands", "nl-nl");
    ("Português", "pt-pt");
    ("Pусский", "ru");
    ("Svenska", "sv-se");
    ("Türkçe", "tr");
    ("العربية", "ar-sa");
    ("हिंदी", "hi");
    ("中文", "zh-cmn") ].

Fixpoint LANGUAGE_MAP_get (name : string) (m : list (string * string)) : option string :=
  match m with
  | [] => None
  | (k, v) :: rest => if String.eqb k name then Some v else LANGUAGE_MAP_get name rest
  end.

(** [LanguageTag.objects.filter(code__in=language_codes)], on the codes
    of the tags table. *)
Definition get_language_tags_from_names (tags : list string) (names : list string) : list string :=
  let language_codes := map (fun name => LANGUAGE_MAP_get name LANGUAGE_MAP) names in
  filter (fun code =>
            existsb (fun lc => match lc with Some x => String.eqb x code | None => false end)
                    language_codes) tags.

Definition get_course_run_status (data : json) : result CourseRunStatus :=
  (let? status := getitem data "status" in
   let? n := py_int status in
   Ok (if n =? 0 then Unpublished else Published))%res.

Definition get_pacing_type (data : json) : result CourseRunPacing :=
  (let? self_paced := get_default data "field_course_self_paced" (JBool false) in
   Ok (if truthy self_paced then Self else Instructor))%res.

(** ['couse' (sic)]: the field is misspelled on Drupal. *)
Definition get_hidden (data : json) : result bool :=
  (let? hidden := get_default data "field_couse_is_hidden" (JBool false) in
   Ok (match hidden with JBool true => true | _ => false end))%res.

(** [(data.get(k, {}) or {}).get('value')] *)
Definition nested_value (data : json) (k : string) : result json :=
  (let? field := get_default data k (JDict []) in
   get (if truthy field then field else JDict []) "value")%res.

(** [int(v)] followed by [fromtimestamp], when [v] is truthy. *)
Definition timestamp_of (v : json) : result (option datetime) :=
  if truthy v then
    (let? n := py_int v in
     let? t := fromtimestamp n in
     Ok (Some t))%res
  else Ok None.

(** Lines 473-477: the duration in weeks. *)
Definition weeks_of (weeks_to_complete : json) (start end_ : option datetime)
  : result (option Z) :=
  if truthy weeks_to_complete then
    (let? n := py_int weeks_to_complete in Ok (Some n))%res
  else
    match start, end_ with
    | Some s, Some e => Ok (Some (rrule_weekly_count s e))
    | _, _ => Ok None
    end.

(** The names of [_extract_language_tags]: [_object['name'].strip()]. *)
Fixpoint language_names (raw : list json) : result (list string) :=
  match raw with
  | [] => Ok []
  | o :: rest =>
      (let? name := getitem o "name" in
       match name with
       | JStr s => let? names := language_names rest in Ok (PyStr.strip s :: names)
       | _ => Raise AttributeError
       end)%res
  end.

(** The uuids of [_get_objects_by_uuid]: [_object.get('uuid')]. *)
Fixpoint uuids_of (raw : list json) : result (list json) :=
  match raw with
  | [] => Ok []
  | o :: rest =>
      (let? u := get o "uuid" in
       let? us := uuids_of rest in
       Ok (u :: us))%res
  end.

(** [uuid__in=uuids] on one row: the row's uuid is one of the listed
    strings (both in the canonical text form of a UUID). *)
Definition uuid_in (uuids : list json) (row : Entity) : bool :=
  existsb (fun u => match u with JStr s => String.eqb s (entity_uuid row) | _ => false end) uuids.

Section Loader.

(** What the class takes from [AbstractDataLoader] and from the
    [opaque_keys] library: [clean_html], [get_or_create_video] over
    the media tables, [CourseKey.from_string] and
    [get_course_key_from_course_run_key]. *)
Variable Media : Type.
Variable clean_html : json -> result string.
Variable get_or_create_video : json -> json -> Media -> Media * result (option nat).
Variable CourseKey : Type.
Variable CourseKey_from_string : json -> result CourseKey.
Variable get_course_key_from_course_run_key : CourseKey -> result string.
Variable partner : nat.

Local Abbreviation M := (@M Media).

(** *** The ORM calls of the class *)

(** [Course.objects.get_or_create(key__iexact=key, partner=..., defaults=...)] *)
Definition Course_get_or_create (key : string) (defaults : Course.fields)
  : M (Course.t * bool) :=
  fun c =>
    match filter (fun r => PyStr.iexact (Course.key (Course.attrs r)) key
                           && Nat.eqb (Course.partner r) partner) (courses c) with
    | [] =>
        let course := {| Course.pk := next_pk (map Course.pk (courses c));
                         Course.partner := partner;
                         Course.attrs := defaults |} in
        (with_courses (courses c ++ [course]) c, Ok (course, true))
    | [course] => (c, Ok (course, false))
    | _ => (c, Raise MultipleObjectsReturned)
    end.

(** [course.save()] *)
Definition Course_save (course : Course.t) : M unit :=
  fun c =>
    (with_courses
       (map (fun r => if Nat.eqb (Course.pk r) (Course.pk course) then course else r)
            (courses c)) c,
     Ok tt).

(** [CourseRun.objects.update_or_create(key__iexact=key, defaults=...)]:
    no row is created, exactly one row is overwritten with [defaults],
    several rows make [get] raise [MultipleObjectsReturned]. *)
Definition CourseRun_update_or_create (key : string) (defaults : CourseRun.fields)
  : M (CourseRun.t * bool) :=
  fun c =>
    match filter (fun r => PyStr.iexact (CourseRun.key (CourseRun.attrs r)) key)
                 (course_runs c) with
    | [] =>
        let run := {| CourseRun.pk := next_pk (map CourseRun.pk (course_runs c));
                      CourseRun.attrs := defaults |} in
        (with_course_runs (course_runs c ++ [run]) c, Ok (run, true))
    | [old] =>
        let run := {| CourseRun.pk := CourseRun.pk old; CourseRun.attrs := defaults |} in
        (with_course_runs
           (map (fun r => if Nat.eqb (CourseRun.pk r) (CourseRun.pk run) then run else r)
                (course_runs c)) c,
         Ok (run, false))
    | _ => (c, Raise MultipleObjectsReturned)
    end.

(** [LevelType.objects.get_or_create(name=name)] *)
Definition LevelType_get_or_create (name : json) : M json :=
  fun c =>
    if existsb (json_eqb name) (level_types c) then (c, Ok name)
    else (with_level_types (level_types c ++ [name]) c, Ok name).

(** *** The methods *)

Definition get_description (data : json) : result string :=
  (let? body := nested_value data "field_course_body" in
   let? description :=
     if truthy body then Ok body else nested_value data "field_course_description" in
   clean_html (if truthy description then description else JStr ""))%res.

Definition get_level_type (name : json) : M (option json) :=
  if truthy name then
    level_type <- LevelType_get_or_create name ;; ret (Some level_type)
  else ret None.

Definition get_video (data : json) : M (option nat) :=
  video_field <- lift (get data "field_product_video") ;;
  video_url <- lift (_get_nested_url video_field) ;;
  image_field <- lift (get data "field_course_image_featured_card") ;;
  image_url <- lift (_get_nested_url image_field) ;;
  lift_media (get_or_create_video video_url image_url).

Definition _get_objects_by_uuid (table : Catalog Media -> list Entity)
    (raw_objects_data : json) : M (list nat) :=
  raw <- lift (iterate raw_objects_data) ;;
  uuids <- lift (uuids_of raw) ;;
  fun c => (c, Ok (map entity_pk (filter (uuid_in uuids) (table c)))).

Definition _extract_language_tags (raw_objects_data : json) : M (list string) :=
  raw <- lift (iterate raw_objects_data) ;;
  language_names <- lift (language_names raw) ;;
  fun c => (c, Ok (get_language_tags_from_names (language_tags c) language_names)).

Definition set_authoring_organizations (course : Course.t) (data : json) : M unit :=
  field <- lift (getitem data "field_course_school_node") ;;
  schools <- _get_objects_by_uuid (@organizations Media) field ;;
  fun c =>
    (with_course_authoring_organizations
       (m2m_add Nat.eqb (Course.pk course) schools
          (m2m_clear (Course.pk course) (course_authoring_organizations c))) c,
     Ok tt).

Definition set_subjects (course : Course.t) (data : json) : M unit :=
  field <- lift (getitem data "field_course_subject") ;;
  subjects <- _get_objects_by_uuid (@subjects Media) field ;;
  fun c =>
    (with_course_subjects
       (m2m_add Nat.eqb (Course.pk course) subjects
          (m2m_clear (Course.pk course) (course_subjects c))) c,
     Ok tt).

Definition set_course_run_staff (course_run : CourseRun.t) (data : json) : M unit :=
  field <- lift (getitem data "field_course_staff") ;;
  staff <- _get_objects_by_uuid (@people Media) field ;;
  fun c =>
    (with_course_run_staff
       (m2m_add Nat.eqb (CourseRun.pk course_run) staff
          (m2m_clear (CourseRun.pk course_run) (course_run_staff c))) c,
     Ok tt).

Definition set_course_run_transcript_languages (course_run : CourseRun.t) (data : json)
  : M unit :=
  field <- lift (getitem data "field_course_video_locale_lang") ;;
  language_tags <- _extract_language_tags field ;;
  fun c =>
    (with_course_run_transcript_languages
       (m2m_add String.eqb (CourseRun.pk course_run) language_tags
          (m2m_clear (CourseRun.pk course_run) (course_run_transcript_languages c))) c,
     Ok tt).

(** Lines 446-477 of [create_course_run]: the [defaults] it hands to
    [update_or_create], given the codes of the language tags table.
    The run key is the [field_course_id] that [process_node] has parsed
    as a course key, a string; the [key__iexact] lookup is given
    nothing else. *)
Definition course_run_defaults (tags : list string) (course : Course.t) (data : json)
  : result CourseRun.fields :=
  (let? uuid := getitem data "uuid" in
   let? key := getitem data "field_course_id" in
   let? url := getitem data "url" in
   let? slug := last_path_segment url in
   let? languages := getitem data "field_course_languages" in
   let? raw := iterate languages in
   let? names := language_names raw in
   let language := hd_error (get_language_tags_from_names tags names) in
   let? start := get data "field_course_start_date" in
   let? start := timestamp_of start in
   let? end_ := get data "field_course_end_date" in
   let? end_ := timestamp_of end_ in
   let? weeks_to_complete := get data "field_course_required_weeks" in
   let? title_field := getitem data "field_course_course_title" in
   let? title_value := getitem title_field "value" in
   let? title_override := clean_html title_value in
   let? image_field := get data "field_course_image_promoted" in
   let? card_image_url := _get_nested_url image_field in
   let? status := get_course_run_status data in
   let? pacing_type := get_pacing_type data in
   let? hidden := get_hidden data in
   let? mobile := get data "field_course_enrollment_mobile" in
   let? weeks := weeks_of weeks_to_complete start end_ in
   match key with
   | JStr key =>
       Ok {| CourseRun.key := key;
             CourseRun.course := Course.pk course;
             CourseRun.uuid := uuid;
             CourseRun.title_override := title_override;
             CourseRun.language := language;
             CourseRun.slug := slug;
             CourseRun.card_image_url := card_image_url;
             CourseRun.status := status;
             CourseRun.start := start;
             CourseRun.pacing_type := pacing_type;
             CourseRun.hidden := hidden;
             CourseRun.weeks_to_complete := weeks;
             CourseRun.mobile_available := if truthy mobile then mobile else JBool false |}
   | _ => Raise TypeError
   end)%res.

Definition create_course_run (course : Course.t) (data : json) : M (option CourseRun.t) :=
  fun c =>
    match course_run_defaults (language_tags c) course data with
    | Raise e => (c, Raise e)
    | Ok defaults =>
        match CourseRun_update_or_create (CourseRun.key defaults) defaults c with
        | (c', Raise TypeError) =>
            (* TODO Fix the data in Drupal (ECOM-5304) *)
            (logger LError
               "Multiple course runs are identified by the key [%s] or UUID [%s]."
               [JStr (CourseRun.key defaults); CourseRun.uuid defaults] ;;
             ret None) c'
        | (c', Raise e) => (c', Raise e)
        | (c', Ok (course_run, _)) =>
            (set_course_run_staff course_run data ;;
             set_course_run_transcript_languages course_run data ;;
             logger LInfo "Processed course run with UUID [%s]." [CourseRun.uuid defaults] ;;
             ret (Some course_run)) c'
        end
    end.

(** Lines 385-394 of [process_node]: the [defaults] of the course.  The
    level type and the video are looked up or created on the way. *)
Definition course_defaults (key : string) (data : json) : M Course.fields :=
  title_field <- lift (getitem data "field_course_course_title") ;;
  title_value <- lift (getitem title_field "value") ;;
  title <- lift (clean_html title_value) ;;
  number <- lift (getitem data "field_course_code") ;;
  full_description <- lift (get_description data) ;;
  video <- get_video data ;;
  sub_title <- lift (getitem data "field_course_sub_title_short") ;;
  short_description <- lift (clean_html sub_title) ;;
  level <- lift (getitem data "field_course_level") ;;
  level_type <- get_level_type level ;;
  image_field <- lift (get data "field_course_image_promoted") ;;
  card_image_url <- lift (_get_nested_url image_field) ;;
  ret {| Course.key := key;
         Course.title := title;
         Course.number := number;
         Course.full_description := full_description;
         Course.video := video;
         Course.short_description := short_description;
         Course.level_type := level_type;
         Course.card_image_url := card_image_url |}.

Definition process_node (data : json) : M Course.t :=
  course_id <- lift (getitem data "field_course_id") ;;
  course_run_key <- lift (CourseKey_from_string course_id) ;;
  key <- lift (get_course_key_from_course_run_key course_run_key) ;;
  (* Clean the title for the course and course run *)
  title_field <- lift (getitem data "field_course_course_title") ;;
  title_value <- lift (getitem title_field "value") ;;
  title <- lift (clean_html title_value) ;;
  title_field <- lift (setitem title_field "value" (JStr title)) ;;
  data <- lift (setitem data "field_course_course_title" title_field) ;;
  defaults <- course_defaults key data ;;
  created_course <- Course_get_or_create key defaults ;;
  let '(course, created) := created_course in
  (* If the course already exists update the fields only if the
     course_run we got from drupal is published. *)
  status <- lift (get_course_run_status data) ;;
  let published := match status with Published => true | Unpublished => false end in
  course <- (if negb created && published
             then
               let course := {| Course.pk := Course.pk course;
                                Course.partner := Course.partner course;
                                Course.attrs := defaults |} in
               Course_save course ;; ret course
             else ret course) ;;
  set_subjects course data ;;
  set_authoring_organizations course data ;;
  create_course_run course data ;;
  logger LInfo "Processed course with key [%s]." [JStr key] ;;
  ret course.

End Loader.

End CourseMarketingSiteDataLoader.

(** ** Stand-ins for the collaborators, for running the loaders

    The loaders are run below on concrete nodes.  There the helpers the
    module takes from [AbstractDataLoader] and from [opaque_keys], whose
    sources are not at hand, are played by stand-ins for nodes that
    carry plain text. *)

Module Fixture.

Definition Media : Type := unit.

(** Modelled from the spec: [clean_html] of [AbstractDataLoader] is not
    in the sources and the spec leaves the internals of HTML cleaning
    out; on a string without markup the cleaned text is the string
    without its surrounding whitespace, and a value that is not a string
    has no text to clean. *)
Definition clean_html (v : json) : result string :=
  match v with
  | JStr s => Ok (PyStr.strip s)
  | _ => Raise AttributeError
  end.

(** The string-valued fields of a value, trimmed, at every depth. *)
Fixpoint trim_strings (v : json) : json :=
  match v with
  | JStr s => JStr (PyStr.strip s)
  | JList l => JList (map trim_strings l)
  | JDict d => JDict (map (fun kv => match kv with (k, x) => (k, trim_strings x) end) d)
  | _ => v
  end.

(** Modelled from the spec: [clean_strings] of [AbstractDataLoader] is
    not in the sources; the spec has it sanitize all string-valued
    fields of the node recursively by trimming whitespace and decoding
    HTML entities, of which the nodes below have none. *)
Definition clean_strings (node : json) : result json :=
  match node with
  | JDict _ => Ok (trim_strings node)
  | _ => Raise AttributeError
  end.

(** Modelled from the spec: [get_or_create_video] of [AbstractDataLoader]
    is not in the sources and the spec says nothing of videos beyond
    "media references"; the nodes below reference none, and none is
    attached. *)
Definition get_or_create_video (video_url image_url : json) (m : Media)
  : Media * result (option nat) := (m, Ok None).

(** [opaque_keys] is a library outside the repository: here a parsed
    run key is its own string, and a value that is not a non-empty
    string does not parse. *)
Definition CourseKey : Type := string.

Definition CourseKey_from_string (v : json) : result CourseKey :=
  match v with
  | JStr s => if String.eqb s "" then Raise InvalidKeyError else Ok s
  | _ => Raise InvalidKeyError
  end.

Fixpoint join_plus (l : list string) : string :=
  match l with
  | [] => ""
  | [x] => x
  | x :: rest => (x ++ "+" ++ join_plus rest)%string
  end.

(** Modelled from the spec: [get_course_key_from_course_run_key] of
    [AbstractDataLoader] is not in the sources; the spec has the course
    key "derived from" the run identifier: here, the organization and
    the course number of a [course-v1:org+number+run] key. *)
Definition get_course_key_from_course_run_key (k : CourseKey) : result string :=
  Ok (join_plus (removelast (PyStr.split "+" (PyStr.removeprefix "course-v1:" k)))).

Definition partner : nat := 1%nat.

Definition empty : Catalog Media :=
  {| courses := []; course_runs := []; programs := [];
     organizations := []; subjects := []; people := [];
     language_tags := ["en-us"; "es-es"; "ja"]; level_types := []; media := tt;
     course_subjects := []; course_authoring_organizations := [];
     course_run_staff := []; course_run_transcript_languages := [];
     log := [] |}.

(** A course node as the marketing site sends it, with the fields the
    Course loader reads. *)
Definition course_node (course_id title status : string) (extra : list (string * json)) : json :=
  JDict (extra ++
         [ ("url", JStr "https://www.edx.org/course/demo-course");
           ("uuid", JStr "6b8b779f-f567-4e98-aa41-a265d6fa073c");
           ("field_course_id", JStr course_id);
           ("field_course_course_title", JDict [("value", JStr title)]);
           ("field_course_code", JStr "DemoX");
           ("field_course_sub_title_short", JStr "A demonstration");
           ("field_course_level", JStr "Introductory");
           ("field_course_languages", JList [JDict [("name", JStr "English")]]);
           ("field_course_video_locale_lang", JList []);
           ("field_course_subject", JList []);
           ("field_course_school_node", JList []);
           ("field_course_staff", JList []);
           ("status", JStr status) ]).

Definition course_process_node : json -> M (Media := Media) Course.t :=
  CourseMarketingSiteDataLoader.process_node
    clean_html get_or_create_video CourseKey_from_string
    get_course_key_from_course_run_key partner.

Definition a_course : Course.t :=
  {| Course.pk := 1%nat; Course.partner := partner;
     Course.attrs :=
       {| Course.key := "edX+DemoX"; Course.title := "Demo course";
          Course.number := JStr "DemoX"; Course.full_description := "";
          Course.video := None; Course.short_description := "A demonstration";
          Course.level_type := Some (JStr "Introductory");
          Course.card_image_url := JNull |} |}.

Definition run_id : string := "course-v1:edX+DemoX+2016".

(** A run from Monday 2016-01-04T00:00:00Z to Monday 2016-02-01T00:00:00Z. *)
Definition five_week_dates : list (string * json) :=
  [ ("field_course_start_date", JStr "1451865600");
    ("field_course_end_date", JStr "1454284800") ].

Definition five_week_node : json :=
  course_node run_id "Demo course" "1" five_week_dates.

(** The same span of four weeks, counted from the epoch, with the
    timestamps as JSON numbers. *)
Definition epoch_node : json :=
  course_node run_id "Demo course" "1"
    [ ("field_course_start_date", JNum 0); ("field_course_end_date", JNum 2419200) ].

Definition explicit_weeks_node : json :=
  course_node run_id "Demo course" "1"
    (("field_course_required_weeks", JStr "7") :: five_week_dates).

Definition zero_weeks_node : json :=
  course_node run_id "Demo course" "1"
    (("field_course_required_weeks", JNum 0) :: five_week_dates).

Definition hidden_node : json :=
  course_node run_id "Demo course" "1" [("field_couse_is_hidden", JBool true)].

Definition truthy_hidden_node : json :=
  course_node run_id "Demo course" "1" [("field_couse_is_hidden", JNum 1)].

Definition course_run_defaults : Course.t -> json -> result CourseRun.fields :=
  CourseMarketingSiteDataLoader.course_run_defaults clean_html (language_tags empty).

(** The Course loader as the subclass behind [_process_response]. *)
Definition process (node : json) : M (Media := Media) unit :=
  bind (course_process_node node) (fun _ => ret tt).

Definition page_url (n : string) : string :=
  ("https://www.edx.org/node.json?type=course&max-depth=2&page=" ++ n)%string.

(** A page of the marketing site answered with status 200; the raw
    body is left out, [json_body] is what it parses to. *)
Definition page (n : string) (nodes : list json) (links : list (string * json)) : Response :=
  {| status_code := 200; url := page_url n; content := "";
     json_body := Ok (JDict (("list", JList nodes) :: links)) |}.

Definition a_node : json := course_node run_id "Demo course" "1" [].

(** A node that lacks the [url] key. *)
Definition node_without_url : json :=
  JDict [ ("uuid", JStr "0f6ad7a2-4e4b-4ba8-9a0f-1b7c0f3a9d11");
          ("field_course_id", JStr "course-v1:edX+Other+2016") ].

(** A node whose course id does not parse. *)
Definition malformed_node : json :=
  JDict [ ("url", JStr "https://www.edx.org/course/broken");
          ("field_course_id", JStr "") ].

Definition process_response : Response -> M (Media := Media) unit :=
  AbstractMarketingSiteDataLoader._process_response clean_strings process.

Definition paging_links : list (string * json) :=
  [ ("first", JStr (page_url "0"));
    ("last", JStr (page_url "3"));
    ("next", JStr (page_url "1")) ].

(** A site of four empty pages. *)
Definition four_pages (n : Z) : result Response :=
  Ok (page (str_of_Z n) [] paging_links).

Definition xseries_node (body : string) : json :=
  JDict [ ("url", JStr "https://www.edx.org/xseries/data-science");
          ("body", JDict [("value", JStr body)]) ].

Definition a_program : Program.t :=
  {| Program.pk := 1%nat; Program.marketing_slug := "data-science";
     Program.partner := partner;
     Program.attrs :=
       {| Program.subtitle := JNull; Program.card_image_url := JNull;
          Program.overview := ""; Program.video := None;
          Program.credit_redemption_overview := JNull |} |}.

Definition xseries_process_node : json -> M (Media := Media) (option Program.t) :=
  XSeriesMarketingSiteDataLoader.process_node clean_html get_or_create_video partner.

Definition stored_overviews (c : Catalog Media) : list string :=
  map (fun p => Program.overview (Program.attrs p)) (programs c).

Definition create_course_run : Course.t -> json -> M (Media := Media) (option CourseRun.t) :=
  CourseMarketingSiteDataLoader.create_course_run clean_html.

(** A run persisted from a Published sighting of [run_id]. *)
Definition a_run : CourseRun.t :=
  {| CourseRun.pk := 1%nat;
     CourseRun.attrs :=
       {| CourseRun.key := run_id; CourseRun.course := 1%nat;
          CourseRun.uuid := JStr "6b8b779f-f567-4e98-aa41-a265d6fa073c";
          CourseRun.title_override := "Demo course";
          CourseRun.language := Some "en-us"; CourseRun.slug := "demo-course";
          CourseRun.card_image_url := JNull; CourseRun.status := Published;
          CourseRun.start := None; CourseRun.pacing_type := Instructor;
          CourseRun.hidden := false; CourseRun.weeks_to_complete := Some 6;
          CourseRun.mobile_available := JBool false |} |}.

(** A second run whose key differs from [run_id] in case only. *)
Definition a_duplicate_run : CourseRun.t :=
  {| CourseRun.pk := 2%nat;
     CourseRun.attrs :=
       {| CourseRun.key := "course-v1:edx+demox+2016"; CourseRun.course := 1%nat;
          CourseRun.uuid := JStr "3c2a6d1e-9d0b-4a43-8a58-3a0b8f9c6e21";
          CourseRun.title_override := "Demo course";
          CourseRun.language := Some "en-us"; CourseRun.slug := "demo-course-0";
          CourseRun.card_image_url := JNull; CourseRun.status := Published;
          CourseRun.start := None; CourseRun.pacing_type := Instructor;
          CourseRun.hidden := false; CourseRun.weeks_to_complete := None;
          CourseRun.mobile_available := JBool false |} |}.

(** The catalog after a first, Published sighting of the demo course. *)
Definition seen_once : Catalog Media :=
  with_course_runs [a_run] (with_courses [a_course] empty).

Definition with_duplicate_runs : Catalog Media :=
  with_course_runs [a_run; a_duplicate_run] (with_courses [a_course] empty).

(** The second sighting: Unpublished, with a placeholder title. *)
Definition unpublished_node : json := course_node run_id "TBD" "0" [].

(** A second sighting that is Published, with a new title. *)
Definition retitled_node : json := course_node run_id "Demo course, second edition" "1" [].

Definition run_titles (c : Catalog Media) : list (string * CourseRunStatus) :=
  map (fun r => (CourseRun.title_override (CourseRun.attrs r),
                 CourseRun.status (CourseRun.attrs r))) (course_runs c).

Definition course_titles (c : Catalog Media) : list string :=
  map (fun r => Course.title (Course.attrs r)) (courses c).

Definition log_lines (c : Catalog Media) : list (string * list json) :=
  map (fun entry => (log_format entry, log_args entry)) (log c).

(** Two schools in the catalog; the demo course is linked to the second. *)
Definition with_schools : Catalog Media :=
  {| courses := [a_course]; course_runs := []; programs := [];
     organizations := [ {| entity_pk := 1%nat; entity_uuid := "1b4a1e38-7c4c-4d2a-8f45-7d6c6e3f0a10" |};
                        {| entity_pk := 2%nat; entity_uuid := "5d2f9b1c-0a6e-4b57-9c3d-2e8f4a7b6c20" |} ];
     subjects := []; people := [];
     language_tags := ["en-us"; "es-es"; "ja"]; level_types := []; media := tt;
     course_subjects := [];
     course_authoring_organizations := [(1%nat, 2%nat)];
     course_run_staff := []; course_run_transcript_languages := [];
     log := [] |}.

(** The node names the first school and a school the catalog lacks. *)
Definition school_references : json :=
  JList [ JDict [("uuid", JStr "1b4a1e38-7c4c-4d2a-8f45-7d6c6e3f0a10")];
          JDict [("uuid", JStr "9e8d7c6b-5a49-4382-b7a6-1f0e9d8c7b30")] ].

Definition node_with_schools : json :=
  JDict [("field_course_school_node", school_references)].

End Fixture.

(** ** Notions for the properties of the page loop *)

(** The message of [_check_status_code]. *)
Definition status_message (response : Response) : string :=
  ("Failed to retrieve data from " ++ url response ++ newline
   ++ "Status Code: " ++ str_of_Z (status_code response) ++ newline
   ++ "Body: " ++ content response)%string.

(** A future that holds a raised exception, or a response whose status
    is not 200. *)
Definition failed (future : result Response) : Prop :=
  match future with
  | Ok response => status_code response <> 200
  | Raise _ => True
  end.


(** ** Building the request URL: [urlencode] and [get_query_kwargs] *)

Module Urlencode.

(** The characters [quote_plus] leaves alone: letters, digits and [_.-]. *)
Definition unreserved (c : ascii) : bool :=
  let n := nat_of_ascii c in
  ((65 <=? n)%nat && (n <=? 90)%nat) || ((97 <=? n)%nat && (n <=? 122)%nat)
  || ((48 <=? n)%nat && (n <=? 57)%nat) || PyStr.mem_char c "_.-".

Definition hex_digit (n : nat) : ascii :=
  if (n <? 10)%nat then ascii_of_nat (48 + n) else ascii_of_nat (55 + n).

(** [quote_plus] on one character: a space becomes [+], any other
    reserved character its [%XX] escape. *)
Definition quote_char (c : ascii) : list ascii :=
  if unreserved c then [c]
  else if Ascii.eqb c " " then ["+"%char]
  else ["%"%char; hex_digit (nat_of_ascii c / 16); hex_digit (nat_of_ascii c mod 16)].

Definition quote_plus (s : string) : list ascii :=
  flat_map quote_char (list_ascii_of_string s).

(** A value of the query dict: the code puts strings and integers there. *)
Inductive qvalue : Type :=
| QStr (s : string)
| QInt (n : Z).

(** [str(v)] *)
Definition py_str (v : qvalue) : string :=
  match v with
  | QStr s => s
  | QInt n => str_of_Z n
  end.

Definition pair_chars (kv : string * qvalue) : list ascii :=
  quote_plus (fst kv) ++ "="%char :: quote_plus (py_str (snd kv)).

Fixpoint join_amp (l : list (list ascii)) : list ascii :=
  match l with
  | [] => []
  | [x] => x
  | x :: rest => x ++ "&"%char :: join_amp rest
  end.

(** [urlencode(query)] *)
Definition urlencode (query : list (string * qvalue)) : string :=
  string_of_list_ascii (join_amp (map pair_chars query)).

(** [d[k] = v] on a dict kept in insertion order. *)
Fixpoint kw_set (k : string) (v : qvalue) (d : list (string * qvalue))
  : list (string * qvalue) :=
  match d with
  | [] => [(k, v)]
  | (k', v') :: rest =>
      if String.eqb k k' then (k, v) :: rest else (k', v') :: kw_set k v rest
  end.

(** [d.update(other)] *)
Definition kw_update (d other : list (string * qvalue)) : list (string * qvalue) :=
  fold_left (fun acc kv => kw_set (fst kv) (snd kv) acc) other d.

Section Loader.

Variable api_url : string.
Variable node_type : string.

(** [AbstractMarketingSiteDataLoader.get_query_kwargs] *)
Definition get_query_kwargs : list (string * qvalue) :=
  [ ("type", QStr node_type); ("max-depth", QInt 2); ("load-entity-refs", QStr "file") ].

(** [PersonMarketingSiteDataLoader.get_query_kwargs] *)
Definition person_get_query_kwargs : list (string * qvalue) :=
  kw_set "load-entity-refs" (QStr "file,field_collection_item") get_query_kwargs.

(** [CourseMarketingSiteDataLoader.get_query_kwargs] *)
Definition course_get_query_kwargs : list (string * qvalue) :=
  kw_set "load-entity-refs" (QStr "file,taxonomy_term") get_query_kwargs.

(** Lines 93-97 of [_request]: the URL the session is asked for, given
    the loader's [get_query_kwargs]. *)
Definition request_url (query_kwargs : list (string * qvalue)) (page : Z) : string :=
  let kwargs := kw_update [("page", QInt page)] query_kwargs in
  let qs := urlencode kwargs in
  (api_url ++ "/node.json?" ++ qs)%string.

End Loader.

(** The characters that delimit a URL's query, its fields and its
    fragment. *)
Definition delimiter (c : ascii) : bool := PyStr.mem_char c "&;=#?".

Definition plain (l : list ascii) : Prop := Forall (fun c => delimiter c = false) l.

(** The pairs [parse_qs] reads from an encoded query. *)
Definition decoded (query : list (string * qvalue)) : list (string * string) :=
  flat_map (fun kv => if String.eqb (py_str (snd kv)) "" then []
                      else [(fst kv, py_str (snd kv))]) query.

(** An API root without [?] and [#]. *)
Definition plain_root (api_url : string) : bool :=
  forallb (fun c => negb (PyStr.mem_char c "?#")) (list_ascii_of_string api_url).

End Urlencode.

(** The value of a decimal numeral read from the left, as [int] reads it. *)
Module IntStr.

Fixpoint uint_value (acc : Z) (d : Decimal.uint) : Z :=
  match d with
  | Decimal.Nil => acc
  | Decimal.D0 d => uint_value (10 * acc + 0) d
  | Decimal.D1 d => uint_value (10 * acc + 1) d
  | Decimal.D2 d => uint_value (10 * acc + 2) d
  | Decimal.D3 d => uint_value (10 * acc + 3) d
  | Decimal.D4 d => uint_value (10 * acc + 4) d
  | Decimal.D5 d => uint_value (10 * acc + 5) d
  | Decimal.D6 d => uint_value (10 * acc + 6) d
  | Decimal.D7 d => uint_value (10 * acc + 7) d
  | Decimal.D8 d => uint_value (10 * acc + 8) d
  | Decimal.D9 d => uint_value (10 * acc + 9) d
  end.

(** The characters of a printed number are digits. *)
Definition is_digit (c : ascii) : bool :=
  match PyStr.digit c with Some _ => true | None => false end.

End IntStr.

(** ** Notions for the properties of the Course loader *)

Module CourseSteps.
Import CourseMarketingSiteDataLoader.

Section Loader.

Variable Media : Type.
Variable clean_html : json -> result string.
Variable CourseKey : Type.
Variable CourseKey_from_string : json -> result CourseKey.
Variable get_course_key_from_course_run_key : CourseKey -> result string.
Variable partner : nat.

(** The lookup of [get_or_create]. *)
Definition course_matches (key : string) (r : Course.t) : bool :=
  PyStr.iexact (Course.key (Course.attrs r)) key && Nat.eqb (Course.partner r) partner.

(** What the node says its course key is. *)
Definition course_key_of (data : json) : result string :=
  (let? course_id := getitem data "field_course_id" in
   let? course_run_key := CourseKey_from_string course_id in
   get_course_key_from_course_run_key course_run_key)%res.

(** The steps of [process_node] after the course is looked up, created
    or updated. *)
Definition finish (course : Course.t) (data : json) (key : string) : M (Media := Media) Course.t :=
  set_subjects course data ;;
  set_authoring_organizations course data ;;
  @create_course_run Media clean_html course data ;;
  logger LInfo "Processed course with key [%s]." [JStr key] ;;
  ret course.

End Loader.

End CourseSteps.

(** ** Notions for the properties of the XSeries loader *)

Module XSeriesSteps.

(** The lookup of [Program.objects.get]. *)
Definition program_matches (partner : nat) (marketing_slug : string) (p : Program.t) : bool :=
  String.eqb (Program.marketing_slug p) marketing_slug
  && Nat.eqb (Program.partner p) partner.

(** [data['url'].split('/')[-1]] *)
Definition marketing_slug_of (data : json) : result string :=
  (let? url := getitem data "url" in last_path_segment url)%res.

(** The entry written for a node without program. *)
Definition missing_program (marketing_slug : string) : LogEntry :=
  {| log_level := LError;
     log_format := "Program [%s] exists on the marketing site, but not in the Programs Service!";
     log_args := [JStr marketing_slug] |}.

(** What identifies a program: the loader looks programs up by slug and
    partner and saves them by primary key. *)
Definition identity (p : Program.t) : nat * string * nat :=
  (Program.pk p, Program.marketing_slug p, Program.partner p).

End XSeriesSteps.

(** ** What a run of the Course loader may do to the catalog *)

Module Growth.

(** [l'] is [l] with rows added at its end. *)
Definition extends {A : Type} (l l' : list A) : Prop := exists extra, l' = l ++ extra.

(** From [c] to [c'] no course and no course run is deleted or given
    another primary key, level types and log entries are only added,
    and the tables of the other loaders are as they were. *)
Record grows {Media : Type} (c c' : Catalog Media) : Prop := {
  grows_courses : extends (map Course.pk (courses c)) (map Course.pk (courses c'));
  grows_course_runs :
    extends (map CourseRun.pk (course_runs c)) (map CourseRun.pk (course_runs c'));
  grows_level_types : extends (level_types c) (level_types c');
  grows_log : extends (log c) (log c');
  same_programs : programs c' = programs c;
  same_organizations : organizations c' = organizations c;
  same_subjects : subjects c' = subjects c;
  same_people : people c' = people c;
  same_language_tags : language_tags c' = language_tags c
}.

(** [steps m]: whatever [m] returns or raises, the catalog has grown. *)
Definition steps {Media A : Type} (m : M (Media := Media) A) : Prop :=
  forall c, grows c (fst (m c)).

(** The same for a method that also requests pages. *)
Definition pager_steps {Media A : Type} (m : Pager Media A) : Prop :=
  forall c, grows c (fst (snd (m c))).

(** The Course loader as the subclass behind [_process_response]: what
    [process_node] returns is dropped. *)
Definition course_loader {Media CourseKey : Type}
    (clean_html : json -> result string)
    (get_or_create_video : json -> json -> Media -> Media * result (option nat))
    (CourseKey_from_string : json -> result CourseKey)
    (get_course_key_from_course_run_key : CourseKey -> result string)
    (partner : nat) (node : json) : M (Media := Media) unit :=
  bind (CourseMarketingSiteDataLoader.process_node
          clean_html get_or_create_video CourseKey_from_string
          get_course_key_from_course_run_key partner node)
       (fun _ => ret tt).

End Growth.

(** ** [PersonMarketingSiteDataLoader.set_position] *)

Module PersonMarketingSiteDataLoader.

(** Organization rows, as far as [set_position] looks at them. *)
Record Organization : Type := {
  organization_pk : nat;
  organization_partner : nat;
  organization_name : string;
  organization_key : string
}.

(** Position rows.  [position_organization] is the primary key of the
    linked organization. *)
Record Position : Type := {
  position_pk : nat;
  position_person : nat;
  position_title : json;
  position_organization : option nat;
  position_organization_override : json
}.

(** The tables [set_position] reads and writes, and the log. *)
Record Tables : Type := {
  organizations : list Organization;
  positions : list Position;
  log : list LogEntry
}.

(** [v[0]] on a value that has passed [if v]: the first item of a list,
    the first character of a string; an object has no key [0], and a
    number cannot be subscripted.  (The empty list and the empty string
    do not pass the test.) *)
Definition first_item (v : json) : result json :=
  match v with
  | JList (x :: _) => Ok x
  | JStr (String c _) => Ok (JStr (String c EmptyString))
  | JDict _ => Raise (KeyError "0")
  | _ => Raise TypeError
  end.

(** [Q(name__iexact=n) | Q(key__iexact=n) & Q(partner=self.partner)]:
    [&] binds tighter than [|]. *)
Definition organization_matches (partner : nat) (n : string) (o : Organization) : bool :=
  PyStr.iexact (organization_name o) n
  || (PyStr.iexact (organization_key o) n && Nat.eqb (organization_partner o) partner).

(** [Organization.objects.filter(...).first()], the rows in the order of
    their primary keys.  The titles of the marketing site are strings;
    any other value is refused here. *)
Definition find_organization (partner : nat) (organization_name : json)
    (rows : list Organization) : result (option Organization) :=
  match organization_name with
  | JStr n => Ok (hd_error (filter (organization_matches partner n) rows))
  | _ => Raise TypeError
  end.

(** [Position.objects.update_or_create(person=person, defaults=defaults)] *)
Definition Position_update_or_create (person : nat) (title : json)
    (organization : option nat) (organization_override : json)
    (rows : list Position) : result (list Position) :=
  match filter (fun p => Nat.eqb (position_person p) person) rows with
  | [] =>
      Ok (rows ++ [{| position_pk := next_pk (map position_pk rows);
                      position_person := person;
                      position_title := title;
                      position_organization := organization;
                      position_organization_override := organization_override |}])
  | [old] =>
      Ok (map (fun p => if Nat.eqb (position_pk p) (position_pk old)
                        then {| position_pk := position_pk old;
                                position_person := person;
                                position_title := title;
                                position_organization := organization;
                                position_organization_override := organization_override |}
                        else p) rows)
  | _ => Raise MultipleObjectsReturned
  end.

(** The body of the [try] of [set_position]: the position table it
    leaves.  The one write is its last statement. *)
Definition position_of (partner person : nat) (data : json) (t : Tables)
  : result (list Position) :=
  (let? data := get_default data "field_person_positions" (JList []) in
   if truthy data then
     let? data := first_item data in
     (* NOTE (CCB): This is not a typo. The field is misspelled on the marketing site. *)
     let? titles := getitem data "field_person_position_tiltes" in
     if truthy titles then
       let? title := first_item titles in
       (* NOTE (CCB): Not all positions are associated with organizations. *)
       let? link := get_default data "field_person_position_org_link" (JDict []) in
       let? organization_name := get (if truthy link then link else JDict []) "title" in
       let? organization :=
         if truthy organization_name
         then find_organization partner organization_name (organizations t)
         else Ok None in
       match organization with
       | Some o =>
           Position_update_or_create person title (Some (organization_pk o)) JNull
             (positions t)
       | None =>
           Position_update_or_create person title None organization_name (positions t)
       end
     else Ok (positions t)
   else Ok (positions t))%res.

Definition failed_to_set_position (uuid : json) : LogEntry :=
  {| log_level := LException;
     log_format := "Failed to set position for person with UUID [%s]!";
     log_args := [uuid] |}.

(** [set_position(person, data)], [person] by its primary key. *)
Definition set_position (partner person : nat) (data : json) (t : Tables)
  : Tables * result unit :=
  match getitem data "uuid" with
  | Raise e => (t, Raise e)
  | Ok uuid =>
      match position_of partner person data t with
      | Ok rows =>
          ({| organizations := organizations t; positions := rows; log := log t |}, Ok tt)
      | Raise _ =>
          ({| organizations := organizations t; positions := positions t;
              log := log t ++ [failed_to_set_position uuid] |}, Ok tt)
      end
  end.

End PersonMarketingSiteDataLoader.

(** ** The Subject and the School loader *)

(** Django's [update_or_create] with a lookup and [defaults], over the
    rows of a table: no row under the lookup, a row is created
    from the lookup and the defaults; one row, it is overwritten with
    the defaults; several rows, [get] raises.  The result is the table
    and the row. *)
Module Orm.

Section UpdateOrCreate.

Variables Row Fields : Type.
Variable row_pk : Row -> nat.
Variable lookup : Row -> bool.
Variable create : nat -> Fields -> Row.
Variable update : Row -> Fields -> Row.

Definition update_or_create (defaults : Fields) (rows : list Row)
  : result (list Row * Row) :=
  match filter lookup rows with
  | [] =>
      let row := create (next_pk (map row_pk rows)) defaults in
      Ok (rows ++ [row], row)
  | [old] =>
      let row := update old defaults in
      Ok (map (fun r => if Nat.eqb (row_pk r) (row_pk row) then row else r) rows, row)
  | _ => Raise MultipleObjectsReturned
  end.

End UpdateOrCreate.

End Orm.

Module SubjectMarketingSiteDataLoader.
Import AbstractMarketingSiteDataLoader.

(** The attributes the loader writes. *)
Record fields : Type := {
  uuid : json;
  name : json;
  description : string;
  subtitle : string;
  card_image_url : json;
  banner_image_url : json
}.

Record Subject : Type := { pk : nat; partner : nat; slug : string; attrs : fields }.

Record Tables : Type := { subjects : list Subject; log : list LogEntry }.

Section Loader.

Variable clean_html : json -> result string.
Variable partner_ : nat.

Definition defaults_of (data : json) : result fields :=
  (let? uuid := getitem data "uuid" in
   let? name := getitem data "title" in
   let? body := getitem data "body" in
   let? body := getitem body "value" in
   let? description := clean_html body in
   let? subtitle := getitem data "field_subject_subtitle" in
   let? subtitle := getitem subtitle "value" in
   let? subtitle := clean_html subtitle in
   let? card := get data "field_subject_card_image" in
   let? card_image_url := _get_nested_url card in
   (* NOTE (CCB): This is not a typo. Yes, the banner image for subjects is in a field
      with xseries in the name. *)
   let? banner := get data "field_xseries_banner_image" in
   let? banner_image_url := _get_nested_url banner in
   Ok {| uuid := uuid; name := name; description := description; subtitle := subtitle;
         card_image_url := card_image_url; banner_image_url := banner_image_url |})%res.

(** [Subject.objects.update_or_create(slug=slug, partner=self.partner,
    defaults=defaults)].  The slugs of the marketing site are strings;
    any other value is refused here. *)
Definition Subject_update_or_create (slug_ : json) (defaults : fields)
    (rows : list Subject) : result (list Subject * Subject) :=
  match slug_ with
  | JStr s =>
      Orm.update_or_create pk
        (fun r => String.eqb (slug r) s && Nat.eqb (partner r) partner_)
        (fun n d => {| pk := n; partner := partner_; slug := s; attrs := d |})
        (fun r d => {| pk := pk r; partner := partner r; slug := slug r; attrs := d |})
        defaults rows
  | _ => Raise TypeError
  end.

Definition process_node (data : json) (t : Tables) : Tables * result Subject :=
  match (let? slug := getitem data "field_subject_url_slug" in
         let? defaults := defaults_of data in
         let? written := Subject_update_or_create slug defaults (subjects t) in
         Ok (slug, written))%res with
  | Raise e => (t, Raise e)
  | Ok (slug, (rows, subject)) =>
      ({| subjects := rows;
          log := log t ++ [{| log_level := LInfo;
                              log_format := "Processed subject with slug [%s].";
                              log_args := [slug] |}] |},
       Ok subject)
  end.

End Loader.

End SubjectMarketingSiteDataLoader.

Module SchoolMarketingSiteDataLoader.
Import AbstractMarketingSiteDataLoader.

(** The attributes the loader writes. *)
Record fields : Type := {
  uuid : json;
  name : json;
  description : string;
  logo_image_url : json;
  banner_image_url : json;
  marketing_url_path : string
}.

Record Organization : Type := { pk : nat; partner : nat; key : string; attrs : fields }.

(** The organizations, their tags as a through table, and the log. *)
Record Tables : Type := {
  organizations : list Organization;
  tags : list (nat * string);
  log : list LogEntry
}.

(** [mapping] of [set_tags] *)
Definition mapping : list (string * string) :=
  [ ("field_school_is_founder", "founder");
    ("field_school_is_charter", "charter");
    ("field_school_is_contributor", "contributor");
    ("field_school_is_partner", "partner") ].

(** The loop of [set_tags]: the tags whose field is set. *)
Fixpoint tags_of (mapping : list (string * string)) (data : json) : result (list string) :=
  match mapping with
  | [] => Ok []
  | (field, tag) :: rest =>
      (let? flag := get_default data field (JBool false) in
       let? tags := tags_of rest data in
       Ok (if truthy flag then tag :: tags else tags))%res
  end.

(** ['school/' + v] *)
Definition school_path (v : json) : result string :=
  match v with
  | JStr s => Ok ("school/" ++ s)%string
  | _ => Raise TypeError
  end.

Section Loader.

Variable clean_html : json -> result string.
Variable partner_ : nat.

Definition defaults_of (data : json) : result fields :=
  (let? uuid := getitem data "uuid" in
   let? name := getitem data "field_school_name" in
   let? description := getitem data "field_school_description" in
   let? description := getitem description "value" in
   let? description := clean_html description in
   let? logo := get data "field_school_image_logo" in
   let? logo_image_url := _get_nested_url logo in
   let? banner := get data "field_school_image_banner" in
   let? banner_image_url := _get_nested_url banner in
   let? slug := getitem data "field_school_url_slug" in
   let? marketing_url_path := school_path slug in
   Ok {| uuid := uuid; name := name; description := description;
         logo_image_url := logo_image_url; banner_image_url := banner_image_url;
         marketing_url_path := marketing_url_path |})%res.

(** [Organization.objects.update_or_create(key=key, partner=self.partner,
    defaults=defaults)].  The titles of the marketing site are strings;
    any other value is refused here. *)
Definition Organization_update_or_create (key_ : json) (defaults : fields)
    (rows : list Organization) : result (list Organization * Organization) :=
  match key_ with
  | JStr k =>
      Orm.update_or_create pk
        (fun r => String.eqb (key r) k && Nat.eqb (partner r) partner_)
        (fun n d => {| pk := n; partner := partner_; key := k; attrs := d |})
        (fun r d => {| pk := pk r; partner := partner r; key := key r; attrs := d |})
        defaults rows
  | _ => Raise TypeError
  end.

(** [school.tags.set] with [clear=True], on the tags the node sets. *)
Definition set_tags (school : Organization) (data : json) (t : Tables) : result Tables :=
  (let? tags_ := tags_of mapping data in
   Ok {| organizations := organizations t;
         tags := m2m_add String.eqb (pk school) tags_ (m2m_clear (pk school) (tags t));
         log := log t |})%res.

Definition process_node (data : json) (t : Tables) : Tables * result Organization :=
  match (let? key := getitem data "title" in
         let? defaults := defaults_of data in
         let? written := Organization_update_or_create key defaults (organizations t) in
         Ok (key, written))%res with
  | Raise e => (t, Raise e)
  | Ok (key, (rows, school)) =>
      let t := {| organizations := rows; tags := tags t; log := log t |} in
      match set_tags school data t with
      | Raise e => (t, Raise e)
      | Ok t =>
          ({| organizations := organizations t; tags := tags t;
              log := log t ++ [{| log_level := LInfo;
                                  log_format := "Processed school with key [%s].";
                                  log_args := [key] |}] |},
           Ok school)
      end
  end.

End Loader.

End SchoolMarketingSiteDataLoader.

(** ** Further pages and sightings for the examples *)

Module Sample.

(** The answer of a site that is down. *)
Definition unavailable (n : string) : Response :=
  {| status_code := 503; url := Fixture.page_url n; content := "Service Unavailable";
     json_body := Raise ValueError |}.

Definition site_down (n : Z) : result Response := Ok (unavailable (str_of_Z n)).

(** The site of four pages with its third page down. *)
Definition third_page_down (n : Z) : result Response :=
  if n =? 2 then Ok (unavailable "2") else Fixture.four_pages n.

(** A site of one page, with one course. *)
Definition single_page (n : Z) : result Response :=
  Ok (Fixture.page (str_of_Z n) [Fixture.a_node] []).


Definition api_url : string := "https://www.edx.org".

(** The first sighting of the demo course, in an empty catalog. *)
Definition first_sighting : Catalog Fixture.Media * result Course.t :=
  Fixture.course_process_node Fixture.a_node Fixture.empty.

Definition first_catalog : Catalog Fixture.Media := fst first_sighting.

Definition first_course : Course.t :=
  match snd first_sighting with
  | Ok course => course
  | Raise _ => Fixture.a_course
  end.

(** A Published second sighting with a new title. *)
Definition second_sighting : Catalog Fixture.Media * result Course.t :=
  Fixture.course_process_node Fixture.retitled_node Fixture.seen_once.

Definition second_catalog : Catalog Fixture.Media := fst second_sighting.

Definition second_course : Course.t :=
  match snd second_sighting with
  | Ok course => course
  | Raise _ => Fixture.a_course
  end.

(** The one program of the demo catalog, and the node of its page. *)
Definition with_program : Catalog Fixture.Media :=
  with_programs [Fixture.a_program] Fixture.empty.

Definition program_node : json :=
  Fixture.xseries_node "Learn to analyse data.".

(** A second program under the same slug. *)
Definition a_duplicate_program : Program.t :=
  {| Program.pk := 2%nat; Program.marketing_slug := "data-science";
     Program.partner := Fixture.partner;
     Program.attrs := Program.attrs Fixture.a_program |}.

Definition with_duplicate_programs : Catalog Fixture.Media :=
  with_programs [Fixture.a_program; a_duplicate_program] Fixture.empty.




Definition defaults_of (node : json) : CourseRun.fields :=
  match Fixture.course_run_defaults Fixture.a_course node with
  | Ok defaults => defaults
  | Raise _ => CourseRun.attrs Fixture.a_run
  end.

(** A run that ends four weeks before it starts. *)
Definition backwards_node : json :=
  Fixture.course_node Fixture.run_id "Demo course" "1"
    [ ("field_course_start_date", JStr "1454284800");
      ("field_course_end_date", JStr "1451865600") ].



(** A second course whose key differs from the demo course's in case
    only. *)
Definition a_duplicate_course : Course.t :=
  {| Course.pk := 2%nat; Course.partner := Fixture.partner;
     Course.attrs :=
       {| Course.key := "EDX+DEMOX"; Course.title := "Demo course";
          Course.number := JStr "DemoX"; Course.full_description := "";
          Course.video := None; Course.short_description := "";
          Course.level_type := None; Course.card_image_url := JNull |} |}.

Definition with_duplicate_courses : Catalog Fixture.Media :=
  with_courses [Fixture.a_course; a_duplicate_course] Fixture.empty.

(** The demo course and a second course, each with a subject. *)
Definition with_two_subjects : Catalog Fixture.Media :=
  with_course_subjects [(1%nat, 7%nat); (2%nat, 8%nat)]
    (with_courses [Fixture.a_course; a_duplicate_course] Fixture.empty).

(** A person who is a professor at MITx. *)
Definition first_position : json :=
  JDict [ ("field_person_position_tiltes", JList [JStr "Professor"]);
          ("field_person_position_org_link", JDict [("title", JStr "MITx")]) ].

Definition person_node : json :=
  JDict [ ("uuid", JStr "2f6c3b1e-8a6d-4b0e-9c59-0d6a4d9c1f42");
          ("field_person_positions", JList [first_position]) ].

(** An organization of the second partner, named as the node names it. *)
Definition mitx_of_another_partner : PersonMarketingSiteDataLoader.Organization :=
  {| PersonMarketingSiteDataLoader.organization_pk := 1%nat;
     PersonMarketingSiteDataLoader.organization_partner := 2%nat;
     PersonMarketingSiteDataLoader.organization_name := "mitx";
     PersonMarketingSiteDataLoader.organization_key := "MIT" |}.

Definition person_tables : PersonMarketingSiteDataLoader.Tables :=
  {| PersonMarketingSiteDataLoader.organizations := [mitx_of_another_partner];
     PersonMarketingSiteDataLoader.positions := [];
     PersonMarketingSiteDataLoader.log := [] |}.

(** A founding school, and tables in which another organization is
    tagged. *)
Definition school_node : json :=
  JDict [ ("title", JStr "MITx");
          ("uuid", JStr "2a73d2ce-c34a-4e08-8223-83bca9d2f01d");
          ("field_school_name", JStr "Massachusetts Institute of Technology");
          ("field_school_description", JDict [("value", JStr "MIT, in Cambridge.")]);
          ("field_school_image_logo", JDict [("url", JStr "https://www.edx.org/mitx.png")]);
          ("field_school_image_banner", JList []);
          ("field_school_url_slug", JStr "mitx");
          ("field_school_is_founder", JBool true);
          ("field_school_is_charter", JBool false) ].

Definition no_schools : SchoolMarketingSiteDataLoader.Tables :=
  {| SchoolMarketingSiteDataLoader.organizations := [];
     SchoolMarketingSiteDataLoader.tags := [(9%nat, "partner")];
     SchoolMarketingSiteDataLoader.log := [] |}.

Definition school_sighting
  : SchoolMarketingSiteDataLoader.Tables * result SchoolMarketingSiteDataLoader.Organization :=
  SchoolMarketingSiteDataLoader.process_node Fixture.clean_html Fixture.partner
    school_node no_schools.

Definition a_school : SchoolMarketingSiteDataLoader.Organization :=
  match snd school_sighting with
  | Ok school => school
  | Raise _ =>
      {| SchoolMarketingSiteDataLoader.pk := O;
         SchoolMarketingSiteDataLoader.partner := O;
         SchoolMarketingSiteDataLoader.key := "";
         SchoolMarketingSiteDataLoader.attrs :=
           {| SchoolMarketingSiteDataLoader.uuid := JNull;
              SchoolMarketingSiteDataLoader.name := JNull;
              SchoolMarketingSiteDataLoader.description := "";
              SchoolMarketingSiteDataLoader.logo_image_url := JNull;
              SchoolMarketingSiteDataLoader.banner_image_url := JNull;
              SchoolMarketingSiteDataLoader.marketing_url_path := "" |} |}
  end.

Definition subject_node : json :=
  JDict [ ("field_subject_url_slug", JStr "data-analysis");
          ("uuid", JStr "7c3b1a52-4f0e-49a8-8b53-51d5b0f7d8aa");
          ("title", JStr "Data Analysis");
          ("body", JDict [("value", JStr "Learn about data.")]);
          ("field_subject_subtitle", JDict [("value", JStr "Numbers, mostly")]);
          ("field_subject_card_image", JList []);
          ("field_xseries_banner_image", JList []) ].

Definition no_subjects : SubjectMarketingSiteDataLoader.Tables :=
  {| SubjectMarketingSiteDataLoader.subjects := [];
     SubjectMarketingSiteDataLoader.log := [] |}.

Definition subject_sighting
  : SubjectMarketingSiteDataLoader.Tables * result SubjectMarketingSiteDataLoader.Subject :=
  SubjectMarketingSiteDataLoader.process_node Fixture.clean_html Fixture.partner
    subject_node no_subjects.

Definition a_subject : SubjectMarketingSiteDataLoader.Subject :=
  match snd subject_sighting with
  | Ok subject => subject
  | Raise _ =>
      {| SubjectMarketingSiteDataLoader.pk := O;
         SubjectMarketingSiteDataLoader.partner := O;
         SubjectMarketingSiteDataLoader.slug := "";
         SubjectMarketingSiteDataLoader.attrs :=
           {| SubjectMarketingSiteDataLoader.uuid := JNull;
              SubjectMarketingSiteDataLoader.name := JNull;
              SubjectMarketingSiteDataLoader.description := "";
              SubjectMarketingSiteDataLoader.subtitle := "";
              SubjectMarketingSiteDataLoader.card_image_url := JNull;
              SubjectMarketingSiteDataLoader.banner_image_url := JNull |} |}
  end.

End Sample.

(** ** Frame conditions *)

(** [keeps proj m]: whatever [m] returns or raises, the part [proj] of
    the catalog is as it was. *)
Definition keeps {Media X A : Type} (proj : Catalog Media -> X) (m : M (Media := Media) A)
  : Prop :=
  forall c, proj (fst (m c)) = proj c.

(** A part of the catalog that none of the Course loader's writes outside
    the course table reaches; the course table itself is such a part. *)
Record beside_writes {Media X : Type} (proj : Catalog Media -> X) : Prop := {
  beside_level_types : forall x c, proj (with_level_types x c) = proj c;
  beside_media : forall x c, proj (with_media x c) = proj c;
  beside_course_runs : forall x c, proj (with_course_runs x c) = proj c;
  beside_course_subjects : forall x c, proj (with_course_subjects x c) = proj c;
  beside_course_authoring_organizations :
    forall x c, proj (with_course_authoring_organizations x c) = proj c;
  beside_course_run_staff : forall x c, proj (with_course_run_staff x c) = proj c;
  beside_course_run_transcript_languages :
    forall x c, proj (with_course_run_transcript_languages x c) = proj c;
  beside_log : forall x c, proj (with_log x c) = proj c
}.

(** * Properties *)

(** ** [range] *)

Lemma In_py_range (a b p : Z) : In p (py_range a b) <-> a <= p < b.
Proof.
  unfold py_range. rewrite in_map_iff. split.
  - intros [i [<- Hi]]. apply in_seq in Hi. lia.
  - intros H. exists (Z.to_nat (p - a)). split; [lia|].
    apply in_seq. lia.
Qed.

Lemma NoDup_py_range (a b : Z) : NoDup (py_range a b).
Proof.
  unfold py_range. generalize (Z.to_nat (b - a)) as n. generalize 0%nat as k.
  intros k n. revert k. induction n as [|n IH]; intros k; simpl.
  - constructor.
  - constructor; [|apply IH].
    rewrite in_map_iff. intros [i [Heq Hi]]. apply in_seq in Hi. lia.
Qed.

Lemma py_range_empty (a b : Z) : b <= a -> py_range a b = [].
Proof.
  intros H. unfold py_range. replace (Z.to_nat (b - a)) with 0%nat by lia. reflexivity.
Qed.

(** ** The weekly recurrence *)

Lemma rrule_weekly_iter_past (fuel : nat) (cur until : Z) :
  until < cur -> rrule_weekly_iter fuel cur until = [].
Proof.
  intros H. destruct fuel; simpl; [reflexivity|].
  destruct (Z.leb_spec cur until); [lia|reflexivity].
Qed.

Lemma week_div_step (d : Z) : (d - WEEK) / WEEK = d / WEEK - 1.
Proof.
  replace (d - WEEK) with (d + (-1) * WEEK) by ring.
  rewrite Z.div_add by (unfold WEEK; lia). ring.
Qed.

Lemma rrule_weekly_iter_length (fuel : nat) : forall cur until : Z,
  cur <= until ->
  (until - cur) / WEEK < Z.of_nat fuel ->
  Z.of_nat (List.length (rrule_weekly_iter fuel cur until)) = (until - cur) / WEEK + 1.
Proof.
  induction fuel as [|fuel IH]; intros cur until Hle Hfuel.
  - assert (0 <= (until - cur) / WEEK) by (apply Z.div_pos; unfold WEEK; lia). lia.
  - cbn [rrule_weekly_iter].
    destruct (Z.leb_spec cur until) as [_|]; [|lia].
    cbn [List.length]. rewrite Nat2Z.inj_succ.
    destruct (Z_le_gt_dec (cur + WEEK) until) as [Hnext|Hnext].
    + rewrite IH.
      * replace (until - (cur + WEEK)) with (until - cur - WEEK) by ring.
        rewrite week_div_step. ring.
      * exact Hnext.
      * replace (until - (cur + WEEK)) with (until - cur - WEEK) by ring.
        rewrite week_div_step. lia.
    + rewrite rrule_weekly_iter_past by lia. cbn [List.length].
      rewrite Z.div_small by lia. reflexivity.
Qed.

(** Every occurrence is [dtstart] plus a whole number of weeks, and lies
    in [dtstart .. until]. *)
Lemma rrule_weekly_iter_In (fuel : nat) : forall cur until t : Z,
  In t (rrule_weekly_iter fuel cur until) ->
  cur <= t <= until /\ (t - cur) mod WEEK = 0.
Proof.
  induction fuel as [|fuel IH]; intros cur until t; simpl; [tauto|].
  destruct (Z.leb_spec cur until); [|simpl; tauto].
  intros [<-|Hin].
  - split; [lia|]. rewrite Z.sub_diag. reflexivity.
  - apply IH in Hin. destruct Hin as [Hb Hm]. split; [unfold WEEK in *; lia|].
    replace (t - cur) with (t - (cur + WEEK) + 1 * WEEK) by ring.
    rewrite Z.mod_add by (unfold WEEK; lia). exact Hm.
Qed.

(** Within the range of [datetime] the recurrence never runs out of steps:
    its count is the number of whole weeks from [dtstart] to [until], plus
    one for [dtstart] itself. *)
Lemma rrule_weekly_count_closed (dtstart until : Z) :
  dtstart <= until -> until <= MAX_TIMESTAMP ->
  rrule_weekly_count dtstart until = (until - dtstart) / WEEK + 1.
Proof.
  intros Hle Hmax. unfold rrule_weekly_count, rrule_weekly, rrule_fuel.
  apply rrule_weekly_iter_length; [exact Hle|].
  assert ((until - dtstart) / WEEK <= (MAX_TIMESTAMP - dtstart) / WEEK)
    by (apply Z.div_le_mono; unfold WEEK; lia).
  assert (0 <= (MAX_TIMESTAMP - dtstart) / WEEK) by (apply Z.div_pos; unfold WEEK; lia).
  lia.
Qed.

Lemma fromtimestamp_Ok (n t : Z) :
  fromtimestamp n = Ok t -> t = n /\ MIN_TIMESTAMP <= t <= MAX_TIMESTAMP.
Proof.
  unfold fromtimestamp.
  destruct (Z.leb_spec MIN_TIMESTAMP n); destruct (Z.leb_spec n MAX_TIMESTAMP);
    simpl; intros E; inversion E; subst; lia.
Qed.

(** ** Inversion of [result] computations *)

Ltac inv_rbind H :=
  repeat match type of H with
    | rbind ?r _ = Ok _ =>
        let E := fresh "E" in
        destruct r eqn:E; cbn [rbind] in H; [|discriminate H]
    end.

Lemma assoc_set_other (k k' : string) (v : json) (d : list (string * json)) :
  k <> k' -> assoc k (assoc_set k' v d) = assoc k d.
Proof.
  intros Hne. induction d as [|[k0 v0] d IH]; simpl.
  - destruct (String.eqb_spec k k'); [contradiction|reflexivity].
  - destruct (String.eqb_spec k' k0) as [->|Hk0]; simpl.
    + destruct (String.eqb_spec k k0); [contradiction|reflexivity].
    + destruct (String.eqb_spec k k0); [reflexivity|exact IH].
Qed.

Lemma getitem_setitem_other (o o' : json) (k k' : string) (v : json) :
  setitem o k' v = Ok o' -> k <> k' -> getitem o' k = getitem o k.
Proof.
  destruct o; simpl; try discriminate. intros H Hne. inversion H; subst.
  simpl. rewrite assoc_set_other by exact Hne. reflexivity.
Qed.

Section CourseRunDefaults.
Import CourseMarketingSiteDataLoader.

Variable clean_html : json -> result string.

(** What [create_course_run] computes for the attributes the claims
    are about, read off a successful run of lines 446-477. *)
Lemma course_run_defaults_inv (tags : list string) (course : Course.t) (data : json)
    (defaults : CourseRun.fields) :
  course_run_defaults clean_html tags course data = Ok defaults ->
  exists vs ve w start end_,
    get data "field_course_start_date" = Ok vs /\ timestamp_of vs = Ok start
    /\ get data "field_course_end_date" = Ok ve /\ timestamp_of ve = Ok end_
    /\ get data "field_course_required_weeks" = Ok w
    /\ weeks_of w start end_ = Ok (CourseRun.weeks_to_complete defaults)
    /\ get_hidden data = Ok (CourseRun.hidden defaults)
    /\ get_course_run_status data = Ok (CourseRun.status defaults)
    /\ getitem data "field_course_id" = Ok (JStr (CourseRun.key defaults))
    /\ CourseRun.start defaults = start.
Proof.
  unfold course_run_defaults. intros H. inv_rbind H.
  match type of H with
  | match ?key with JStr _ => _ | _ => _ end = _ => destruct key; try discriminate H
  end.
  inversion H; subst; clear H. cbn.
  eauto 20.
Qed.

End CourseRunDefaults.

Lemma rrule_weekly_iter_NoDup (fuel : nat) : forall cur until : Z,
  NoDup (rrule_weekly_iter fuel cur until).
Proof.
  induction fuel as [|fuel IH]; intros cur until; simpl; [constructor|].
  destruct (Z.leb_spec cur until); [|constructor].
  constructor; [|apply IH].
  intros Hin. apply rrule_weekly_iter_In in Hin. unfold WEEK in Hin. lia.
Qed.

Lemma rrule_weekly_iter_complete (fuel : nat) : forall (cur until : Z) (k : nat),
  (k < fuel)%nat -> cur + Z.of_nat k * WEEK <= until ->
  In (cur + Z.of_nat k * WEEK) (rrule_weekly_iter fuel cur until).
Proof.
  induction fuel as [|fuel IH]; intros cur until k Hk Hle; [lia|].
  simpl. destruct (Z.leb_spec cur until) as [_|Hgt]; [|unfold WEEK in *; lia].
  destruct k as [|k].
  - left. simpl. ring.
  - right. replace (cur + Z.of_nat (S k) * WEEK) with (cur + WEEK + Z.of_nat k * WEEK)
      by (rewrite Nat2Z.inj_succ; ring).
    apply IH; [lia|]. rewrite Nat2Z.inj_succ in Hle. unfold WEEK in *. lia.
Qed.

(** The occurrences of the recurrence are exactly the dates
    [dtstart + k weeks] that are not after [until], each once. *)
Lemma rrule_weekly_occurrences (dtstart until : Z) :
  until <= MAX_TIMESTAMP ->
  NoDup (rrule_weekly dtstart until)
  /\ forall t, In t (rrule_weekly dtstart until)
               <-> exists k, 0 <= k /\ t = dtstart + k * WEEK /\ t <= until.
Proof.
  intros Hmax. split; [apply rrule_weekly_iter_NoDup|].
  intros t. unfold rrule_weekly. split.
  - intros Hin. apply rrule_weekly_iter_In in Hin. destruct Hin as [Hb Hm].
    exists ((t - dtstart) / WEEK). split; [apply Z.div_pos; unfold WEEK; lia|].
    split; [|lia].
    pose proof (Z.div_mod (t - dtstart) WEEK) as Hdm.
    rewrite Hm in Hdm. unfold WEEK in *. lia.
  - intros [k [Hk [-> Hle]]].
    rewrite <- (Z2Nat.id k) by exact Hk.
    apply rrule_weekly_iter_complete; [|rewrite Z2Nat.id by exact Hk; exact Hle].
    unfold rrule_fuel.
    assert (k <= (MAX_TIMESTAMP - dtstart) / WEEK).
    { apply Z.div_le_lower_bound; unfold WEEK in *; lia. }
    lia.
Qed.

Section CourseRunDefaultsClaims.
Import CourseMarketingSiteDataLoader.

Variable clean_html : json -> result string.

(** C5 (as amended).  When the weeks field is absent (or fails the test
    [if weeks_to_complete]) and the start and end timestamps both pass
    the test [if start] / [if end] and convert to [s < e], the stored
    [weeks_to_complete] is the count of the weekly recurrence from [s]
    through [e]: the dates [s + k weeks] up to and including [e], each
    counted once, that is [(e - s) / WEEK + 1].  A start on the Monday
    of week 1 and an end on the Monday of week 5 give 5, where dividing
    the day difference by seven gives 4. *)
Theorem weeks_to_complete_counts_weekly_occurrences
    (tags : list string) (course : Course.t) (data : json) (defaults : CourseRun.fields)
    (w vs ve : json) (s e : Z) :
  course_run_defaults clean_html tags course data = Ok defaults ->
  get data "field_course_required_weeks" = Ok w -> truthy w = false ->
  get data "field_course_start_date" = Ok vs -> truthy vs = true -> py_int vs = Ok s ->
  get data "field_course_end_date" = Ok ve -> truthy ve = true -> py_int ve = Ok e ->
  s < e ->
  CourseRun.weeks_to_complete defaults = Some (rrule_weekly_count s e)
  /\ rrule_weekly_count s e = Z.of_nat (List.length (rrule_weekly s e))
  /\ NoDup (rrule_weekly s e)
  /\ (forall t, In t (rrule_weekly s e) <-> exists k, 0 <= k /\ t = s + k * WEEK /\ t <= e)
  /\ rrule_weekly_count s e = (e - s) / WEEK + 1
  /\ (e = s + 4 * WEEK -> CourseRun.weeks_to_complete defaults = Some 5)
  /\ rrule_weekly_count s e <> (e - s) / 86400 / 7.
Proof.
  intros Hd Hw Hwf Hs Hst Hsi He Het Hei Hlt.
  apply course_run_defaults_inv in Hd.
  destruct Hd as (vs' & ve' & w' & start & end_ & Hs' & Hts & He' & Hte & Hw' & Hweeks & _).
  rewrite Hs in Hs'. inversion Hs'; subst vs'.
  rewrite He in He'. inversion He'; subst ve'.
  rewrite Hw in Hw'. inversion Hw'; subst w'.
  unfold timestamp_of in Hts, Hte. rewrite Hst, Hsi in Hts. rewrite Het, Hei in Hte.
  cbn [rbind] in Hts, Hte.
  destruct (fromtimestamp s) as [ts|] eqn:Efs; [|discriminate Hts].
  destruct (fromtimestamp e) as [te|] eqn:Efe; [|discriminate Hte].
  apply fromtimestamp_Ok in Efs, Efe. destruct Efs as [-> Hrs]. destruct Efe as [-> Hre].
  cbn [rbind] in Hts, Hte. inversion Hts; subst start. inversion Hte; subst end_.
  unfold weeks_of in Hweeks. rewrite Hwf in Hweeks. inversion Hweeks as [Hwk].
  assert (Hclosed : rrule_weekly_count s e = (e - s) / WEEK + 1)
    by (apply rrule_weekly_count_closed; lia).
  assert (Hmax : e <= MAX_TIMESTAMP) by lia.
  destruct (@rrule_weekly_occurrences s e Hmax) as [Hnd Hocc].
  repeat split; try assumption; try reflexivity; try (symmetry; assumption).
  - apply Hocc.
  - apply Hocc.
  - intros ->. rewrite Hclosed. f_equal.
    replace (s + 4 * WEEK - s) with (0 + 4 * WEEK) by ring.
    rewrite Z.div_add by (unfold WEEK; lia). reflexivity.
  - rewrite Hclosed. rewrite Z.div_div by lia. change (86400 * 7) with WEEK. lia.
Qed.

(** C6 (as amended).  When the weeks field passes the test
    [if weeks_to_complete] (it is not null, zero or empty) and converts
    to the integer [n], the stored [weeks_to_complete] is [n], whatever
    the start and end timestamps are. *)
Theorem explicit_weeks_to_complete_wins
    (tags : list string) (course : Course.t) (data : json) (defaults : CourseRun.fields)
    (w : json) (n : Z) :
  course_run_defaults clean_html tags course data = Ok defaults ->
  get data "field_course_required_weeks" = Ok w -> truthy w = true -> py_int w = Ok n ->
  CourseRun.weeks_to_complete defaults = Some n.
Proof.
  intros Hd Hw Hwt Hwi.
  apply course_run_defaults_inv in Hd.
  destruct Hd as (vs & ve & w' & start & end_ & _ & _ & _ & _ & Hw' & Hweeks & _).
  rewrite Hw in Hw'. inversion Hw'; subst w'.
  unfold weeks_of in Hweeks. rewrite Hwt, Hwi in Hweeks. cbn [rbind] in Hweeks.
  inversion Hweeks. reflexivity.
Qed.

(** C10.  [get_hidden] answers [True] exactly when the node carries the
    misspelled field [field_couse_is_hidden] with the boolean [True];
    the [hidden] attribute handed to [update_or_create] is that answer. *)
Theorem hidden_only_for_boolean_True (data : json) :
  (get_hidden data = Ok true <-> get data "field_couse_is_hidden" = Ok (JBool true))
  /\ (forall v, get data "field_couse_is_hidden" = Ok v -> v <> JBool true ->
                get_hidden data = Ok false)
  /\ (forall tags course defaults,
        course_run_defaults clean_html tags course data = Ok defaults ->
        (CourseRun.hidden defaults = true
         <-> get data "field_couse_is_hidden" = Ok (JBool true))).
Proof.
  assert (Hcore : get_hidden data = Ok true
                  <-> get data "field_couse_is_hidden" = Ok (JBool true)).
  { unfold get_hidden, get, get_default.
    destruct data; try (split; discriminate).
    destruct (assoc "field_couse_is_hidden" d) as [v|]; cbn [rbind].
    - destruct v as [| [|] | | | |]; split; intros H; try discriminate H; reflexivity.
    - split; discriminate. }
  split; [exact Hcore|]. split.
  - intros v Hv Hne. unfold get_hidden, get, get_default in *.
    destruct data; try discriminate Hv.
    destruct (assoc "field_couse_is_hidden" d) as [v'|]; cbn [rbind].
    + inversion Hv; subst v'. destruct v as [| [|] | | | |]; try reflexivity.
      contradiction Hne. reflexivity.
    + reflexivity.
  - intros tags course defaults Hd. apply course_run_defaults_inv in Hd.
    destruct Hd as (vs & ve & w & start & end_ & _ & _ & _ & _ & _ & _ & Hh & _).
    rewrite <- Hcore. rewrite Hh.
    split; intros H; [rewrite H; reflexivity|inversion H; reflexivity].
Qed.

End CourseRunDefaultsClaims.

(** A start on Monday 2016-01-04 and an end on Monday 2016-02-01: five
    weekly occurrences. *)
Lemma weeks_to_complete_counts_weekly_occurrences_witness :
  exists defaults,
    Fixture.course_run_defaults Fixture.a_course Fixture.five_week_node = Ok defaults
    /\ CourseRun.weeks_to_complete defaults = Some 5
    /\ rrule_weekly 1451865600 1454284800
       = [1451865600; 1452470400; 1453075200; 1453680000; 1454284800].
Proof.
  eexists. split; [vm_compute; reflexivity|].
  split; [|vm_compute; reflexivity].
  match goal with
  | |- CourseRun.weeks_to_complete ?d = _ =>
      refine (proj1 (proj2 (proj2 (proj2 (proj2 (proj2
                (@weeks_to_complete_counts_weekly_occurrences
                   Fixture.clean_html (language_tags Fixture.empty) Fixture.a_course
                   Fixture.five_week_node d JNull (JStr "1451865600") (JStr "1454284800")
                   1451865600 1454284800 _ _ _ _ _ _ _ _ _ _)))))) _)
  end; vm_compute; reflexivity.
Defined.

(** C5, as the claim states it, fails for a start timestamp that is the
    number 0: the field is present and four weeks before the end, the
    recurrence has five occurrences, and no duration is stored. *)
Lemma weeks_not_computed_for_epoch_start :
  get Fixture.epoch_node "field_course_required_weeks" = Ok JNull
  /\ getitem Fixture.epoch_node "field_course_start_date" = Ok (JNum 0)
  /\ getitem Fixture.epoch_node "field_course_end_date" = Ok (JNum 2419200)
  /\ py_int (JNum 0) = Ok 0 /\ py_int (JNum 2419200) = Ok 2419200
  /\ rrule_weekly_count 0 2419200 = 5
  /\ exists defaults,
       Fixture.course_run_defaults Fixture.a_course Fixture.epoch_node = Ok defaults
       /\ CourseRun.weeks_to_complete defaults = None.
Proof.
  repeat split; try (vm_compute; reflexivity).
  eexists. split; vm_compute; reflexivity.
Qed.

Lemma explicit_weeks_to_complete_wins_witness :
  exists defaults,
    Fixture.course_run_defaults Fixture.a_course Fixture.explicit_weeks_node = Ok defaults
    /\ CourseRun.weeks_to_complete defaults = Some 7.
Proof.
  eexists. split; [vm_compute; reflexivity|].
  match goal with
  | |- CourseRun.weeks_to_complete ?d = _ =>
      apply (@explicit_weeks_to_complete_wins
               Fixture.clean_html (language_tags Fixture.empty) Fixture.a_course
               Fixture.explicit_weeks_node d (JStr "7") 7);
        vm_compute; reflexivity
  end.
Defined.

(** C6, as the claim states it, fails for an explicit weeks field that
    is the number 0: the field is present and is the integer 0, and the
    stored duration is the one computed from the dates. *)
Lemma explicit_weeks_zero_is_ignored :
  getitem Fixture.zero_weeks_node "field_course_required_weeks" = Ok (JNum 0)
  /\ py_int (JNum 0) = Ok 0
  /\ exists defaults,
       Fixture.course_run_defaults Fixture.a_course Fixture.zero_weeks_node = Ok defaults
       /\ CourseRun.weeks_to_complete defaults = Some 5.
Proof.
  repeat split; try (vm_compute; reflexivity).
  eexists. split; vm_compute; reflexivity.
Qed.

Lemma hidden_only_for_boolean_True_witness :
  (exists defaults,
     Fixture.course_run_defaults Fixture.a_course Fixture.hidden_node = Ok defaults
     /\ CourseRun.hidden defaults = true)
  /\ CourseMarketingSiteDataLoader.get_hidden Fixture.truthy_hidden_node = Ok false
  /\ CourseMarketingSiteDataLoader.get_hidden Fixture.five_week_node = Ok false.
Proof.
  split.
  - eexists. split; [vm_compute; reflexivity|].
    match goal with
    | |- CourseRun.hidden ?d = _ =>
        apply (proj2 (proj2 (hidden_only_for_boolean_True Fixture.clean_html
                               Fixture.hidden_node))
                 (language_tags Fixture.empty) Fixture.a_course d);
          vm_compute; reflexivity
    end.
  - split.
    + apply (proj1 (proj2 (hidden_only_for_boolean_True Fixture.clean_html
                             Fixture.truthy_hidden_node)) (JNum 1));
        [vm_compute; reflexivity|discriminate].
    + apply (proj1 (proj2 (hidden_only_for_boolean_True Fixture.clean_html
                             Fixture.five_week_node)) JNull);
        [vm_compute; reflexivity|discriminate].
Defined.

(** ** Frame reasoning: what a method leaves alone *)

Section Frames.
Context {Media X : Type} (proj : Catalog Media -> X).

Lemma keeps_ret {A} (a : A) : keeps proj (ret a).
Proof. intros c. reflexivity. Qed.

Lemma keeps_raise {A} (e : exn) : keeps proj (@raise Media A e).
Proof. intros c. reflexivity. Qed.

Lemma keeps_lift {A} (r : result A) : keeps proj (lift r).
Proof. intros c. reflexivity. Qed.

Lemma keeps_bind {A B} (m : M A) (k : A -> M B) :
  keeps proj m -> (forall a, keeps proj (k a)) -> keeps proj (bind m k).
Proof.
  intros Hm Hk c. unfold bind. specialize (Hm c).
  destruct (m c) as [c' [a|e]]; simpl in *.
  - rewrite Hk. exact Hm.
  - exact Hm.
Qed.

Lemma keeps_try_except {A} (m : M A) (handler : exn -> M A) :
  keeps proj m -> (forall e, keeps proj (handler e)) -> keeps proj (try_except m handler).
Proof.
  intros Hm Hh c. unfold try_except. specialize (Hm c).
  destruct (m c) as [c' [a|e]]; simpl in *.
  - exact Hm.
  - rewrite Hh. exact Hm.
Qed.

End Frames.

Ltac frame :=
  repeat first
    [ assumption
    | solve [auto 1 with nocore]
    | apply keeps_ret
    | apply keeps_raise
    | apply keeps_lift
    | apply keeps_bind; [|intros ?]
    | apply keeps_try_except; [|intros ?]
    | match goal with H : forall _, keeps _ _ |- keeps _ _ => apply H end
    | solve [intros ?; reflexivity] ].

(** ** The page loop *)

Section AbstractClaims.
Import AbstractMarketingSiteDataLoader.

Variable Media : Type.
Variable clean_strings : json -> result json.
Variable api_client_get : Z -> result Response.
Variable is_threadsafe : bool.
Variable process_node : json -> M (Media := Media) unit.

Local Abbreviation process_nodes := (process_nodes clean_strings process_node).
Local Abbreviation _process_response := (_process_response clean_strings process_node).
Local Abbreviation _request := (@_request Media api_client_get).

(** One turn of the loop on a node that has its [url]: when cleaning and
    processing go through, the loop goes on from the state they left. *)
Lemma process_nodes_success (node : json) (rest : list json) (u : json)
    (url : option json) (c c' : Catalog Media) :
  getitem node "url" = Ok u ->
  (cleaned <- lift (clean_strings node) ;; process_node cleaned) c = (c', Ok tt) ->
  process_nodes url (node :: rest) c = process_nodes (Some u) rest c'.
Proof.
  intros Hu Hrun. cbn [AbstractMarketingSiteDataLoader.process_nodes]. rewrite Hu.
  unfold bind at 1, try_except. rewrite Hrun. reflexivity.
Qed.


(** Nodes that all have a [url] key never make the loop raise. *)
Lemma process_nodes_isolates (nodes : list json) :
  Forall (fun node => exists u, getitem node "url" = Ok u) nodes ->
  forall url c, snd (process_nodes url nodes c) = Ok tt.
Proof.
  induction 1 as [|node nodes [u Hu] _ IH]; intros url c; [reflexivity|].
  cbn [AbstractMarketingSiteDataLoader.process_nodes]. rewrite Hu.
  unfold bind at 1, try_except.
  destruct (bind (lift (clean_strings node)) _ c) as [c' [[]|e]].
  - apply IH.
  - unfold logger. apply IH.
Qed.

Lemma submit_requests_pages (pages : list Z) : forall c : Catalog Media,
  exists futures, submit_requests api_client_get pages c = (pages, (c, Ok futures)).
Proof.
  induction pages as [|page pages IH]; intros c.
  - exists []. reflexivity.
  - cbn [submit_requests].
    unfold pager_bind, submit, AbstractMarketingSiteDataLoader._request.
    destruct (IH c) as [futures Hf]. rewrite Hf. simpl. rewrite app_nil_r. eauto.
Qed.

Lemma submit_load_data_pages (pages : list Z) : forall c : Catalog Media,
  requested_pages (submit_load_data clean_strings api_client_get process_node pages c)
  = pages.
Proof.
  induction pages as [|page pages IH]; intros c; [reflexivity|].
  cbn [submit_load_data]. unfold pager_bind at 1, submit, _load_data.
  unfold pager_bind at 1, AbstractMarketingSiteDataLoader._request, quiet.
  destruct (api_client_get page) as [response|e].
  - destruct (_process_response response c) as [c' r].
    specialize (IH c').
    destruct (submit_load_data clean_strings api_client_get process_node pages c')
      as [asked out].
    unfold requested_pages in *. simpl in IH |- *. rewrite IH. reflexivity.
  - specialize (IH c).
    destruct (submit_load_data clean_strings api_client_get process_node pages c)
      as [asked out].
    unfold requested_pages in *. simpl in IH |- *. rewrite IH. reflexivity.
Qed.

(** C4.  When the first page has been fetched and processed and its
    JSON carries a [next] link, with the page parameters [f] and [l]
    on its [first] and [last] links, [ingest] requests page 0 and then
    exactly the pages of [range(f + 1, l + 1)], in either mode of the
    pool: the pages [p] with [f + 1 <= p < l + 1], each once, and not
    page 0 again; for [page=0] and [page=3] these are the pages 1, 2
    and 3. *)
Theorem ingest_requests_pagerange
    (c : Catalog Media) (response : Response) (d : list (string * json))
    (next first last : json) (f l : Z) :
  api_client_get initial_page = Ok response ->
  snd (_process_response response c) = Ok tt ->
  json_body response = Ok (JDict d) ->
  assoc "next" d = Some next ->
  assoc "first" d = Some first -> assoc "last" d = Some last ->
  _extract_page first = Ok f -> _extract_page last = Ok l ->
  pagerange (JDict d) = Ok (py_range (f + 1) (l + 1))
  /\ requested_pages (ingest clean_strings api_client_get is_threadsafe process_node c)
     = initial_page :: py_range (f + 1) (l + 1)
  /\ (forall p, In p (py_range (f + 1) (l + 1)) <-> f + 1 <= p < l + 1)
  /\ NoDup (py_range (f + 1) (l + 1))
  /\ (0 <= f -> NoDup (initial_page :: py_range (f + 1) (l + 1)))
  /\ (f = 0 -> l = 3 -> py_range (f + 1) (l + 1) = [1; 2; 3]).
Proof.
  intros Hget Hok Hjson Hnext Hfirst Hlast Hf Hl.
  assert (Hrange : pagerange (JDict d) = Ok (py_range (f + 1) (l + 1))).
  { unfold pagerange, getitem. rewrite Hfirst, Hlast. cbn [rbind].
    rewrite Hf, Hl. reflexivity. }
  split; [exact Hrange|]. split; [|split; [|split; [|split]]].
  - unfold ingest. unfold pager_bind at 1, AbstractMarketingSiteDataLoader._request.
    rewrite Hget. unfold pager_bind at 1, quiet at 1.
    destruct (_process_response response c) as [c1 r]; simpl in Hok. subst r.
    unfold pager_bind at 1, quiet at 1. rewrite Hjson. cbn [lift]. rewrite Hnext.
    unfold pager_bind at 1, quiet at 1. rewrite Hrange. cbn [lift].
    destruct is_threadsafe.
    + pose proof (submit_load_data_pages (py_range (f + 1) (l + 1)) c1) as Hreq.
      destruct (submit_load_data _ _ _ _ c1) as [asked out].
      unfold requested_pages in *. simpl in Hreq |- *. rewrite Hreq. reflexivity.
    + unfold pager_bind.
      destruct (submit_requests_pages (py_range (f + 1) (l + 1)) c1) as [futures Hfut].
      rewrite Hfut. unfold quiet, requested_pages. simpl. rewrite app_nil_r. reflexivity.
  - intros p. apply In_py_range.
  - apply NoDup_py_range.
  - intros Hf0. constructor; [|apply NoDup_py_range].
    rewrite In_py_range. unfold initial_page. lia.
  - intros -> ->. reflexivity.
Qed.

End AbstractClaims.

(** C3 (the code departs from the claim).  A page answered with status
    200 whose first node lacks the [url] key: the handler of the loop
    reads the local [url] before anything was assigned to it, the
    [UnboundLocalError] leaves [_process_response], and the sibling node
    is not processed (nothing is written, nothing is logged).  When the
    node without [url] comes second, its failure is logged under the URL
    of the node before it. *)
Theorem node_without_url_escapes_the_handler :
  getitem Fixture.node_without_url "url" = Raise (KeyError "url")
  /\ Fixture.process_response
       (Fixture.page "0" [Fixture.node_without_url; Fixture.a_node] []) Fixture.empty
     = (Fixture.empty, Raise (UnboundLocalError "url"))
  /\ snd (Fixture.process_response (Fixture.page "0" [Fixture.a_node] []) Fixture.empty)
     = Ok tt
  /\ map log_args
       (filter (fun entry => match log_level entry with LException => true | _ => false end)
          (log (fst (Fixture.process_response
                       (Fixture.page "0" [Fixture.a_node; Fixture.node_without_url] [])
                       Fixture.empty))))
     = [[JStr "https://www.edx.org/course/demo-course"]].
Proof.
  repeat split; vm_compute; reflexivity.
Qed.

(** A malformed node that has its [url] is contained as the claim says:
    the failure is logged under that URL and the sibling is processed. *)
Example malformed_node_is_contained :
  map (fun entry => (log_format entry, log_args entry))
    (log (fst (Fixture.process_response
                 (Fixture.page "0" [Fixture.malformed_node; Fixture.a_node] [])
                 Fixture.empty)))
  = [ ("Failed to load %s.", [JStr "https://www.edx.org/course/broken"]);
      ("Processed course run with UUID [%s].", [JStr "6b8b779f-f567-4e98-aa41-a265d6fa073c"]);
      ("Processed course with key [%s].", [JStr "edX+DemoX"]) ].
Proof. vm_compute. reflexivity. Qed.

(** ** The XSeries overview *)

(** [lstrip] with the heading as argument takes the heading off a text
    that starts with it and goes on with a character the heading does
    not contain, such as the line break the template puts there. *)
Lemma strip_heading_of_heading (c : ascii) (rest : string) :
  PyStr.mem_char c XSeriesMarketingSiteDataLoader.heading = false ->
  XSeriesMarketingSiteDataLoader.strip_heading
    (XSeriesMarketingSiteDataLoader.heading ++ String c rest)%string
  = PyStr.strip (String c rest).
Proof.
  intros Hc. unfold XSeriesMarketingSiteDataLoader.strip_heading. f_equal.
  unfold PyStr.lstrip, PyStr.lstrip_by, XSeriesMarketingSiteDataLoader.heading.
  cbn -[PyStr.mem_char]. cbn.
  unfold XSeriesMarketingSiteDataLoader.heading in Hc. cbn in Hc. rewrite Hc.
  cbn. rewrite string_of_list_ascii_of_string. reflexivity.
Qed.

(** C9 (the code departs from the claim).  A body that does not begin
    with the heading loses its leading characters all the same: every
    leading character that occurs anywhere in the heading is dropped, so
    "Programming is fun" is stored as "ng is fun". *)
Theorem overview_lstrip_eats_leading_characters :
  PyStr.startswith XSeriesMarketingSiteDataLoader.heading "Programming is fun" = false
  /\ PyStr.strip "Programming is fun" = "Programming is fun"
  /\ XSeriesMarketingSiteDataLoader.overview_of Fixture.clean_html
       (Fixture.xseries_node "Programming is fun") = Ok "ng is fun"
  /\ Fixture.stored_overviews
       (fst (Fixture.xseries_process_node (Fixture.xseries_node "Programming is fun")
               (with_programs [Fixture.a_program] Fixture.empty)))
     = ["ng is fun"].
Proof.
  repeat split; vm_compute; reflexivity.
Qed.

(** ** The Course loader: what each method writes *)

Lemma courses_beside_writes (Media : Type) : beside_writes (@courses Media).
Proof. constructor; reflexivity. Qed.

Section CourseFrames.
Import CourseMarketingSiteDataLoader.

Variable Media : Type.
Variable clean_html : json -> result string.
Variable get_or_create_video : json -> json -> Media -> Media * result (option nat).
Variable CourseKey : Type.
Variable CourseKey_from_string : json -> result CourseKey.
Variable get_course_key_from_course_run_key : CourseKey -> result string.
Variable partner : nat.

Variable X : Type.
Variable proj : Catalog Media -> X.
Hypothesis Hbeside : beside_writes proj.

Lemma logger_keeps (lvl : LogLevel) (fmt : string) (args : list json) :
  keeps proj (logger lvl fmt args).
Proof. intros c. apply (beside_log Hbeside). Qed.

Lemma lift_media_keeps {A} (f : Media -> Media * result A) : keeps proj (lift_media f).
Proof.
  intros c. unfold lift_media. destruct (f (media c)) as [m r]. apply (beside_media Hbeside).
Qed.

Lemma get_level_type_keeps (name : json) : keeps proj (@get_level_type Media name).
Proof.
  unfold get_level_type. destruct (truthy name); [|frame].
  apply keeps_bind; [|intros; frame].
  intros c. unfold LevelType_get_or_create.
  destruct (existsb _ _); [reflexivity|apply (beside_level_types Hbeside)].
Qed.

Lemma get_video_keeps (data : json) : keeps proj (get_video get_or_create_video data).
Proof. unfold get_video. pose proof @lift_media_keeps. frame. Qed.

Lemma course_defaults_keeps (key : string) (data : json) :
  keeps proj (course_defaults clean_html get_or_create_video key data).
Proof.
  unfold course_defaults. pose proof get_video_keeps. pose proof get_level_type_keeps.
  frame.
Qed.

Lemma _get_objects_by_uuid_keeps (table : Catalog Media -> list Entity) (raw : json) :
  keeps proj (_get_objects_by_uuid table raw).
Proof. unfold _get_objects_by_uuid. frame. Qed.

Lemma _extract_language_tags_keeps (raw : json) :
  keeps proj (@_extract_language_tags Media raw).
Proof. unfold _extract_language_tags. frame. Qed.

Lemma set_subjects_keeps (course : Course.t) (data : json) :
  keeps proj (@set_subjects Media course data).
Proof.
  unfold set_subjects. pose proof _get_objects_by_uuid_keeps. frame.
  intros c. apply (beside_course_subjects Hbeside).
Qed.

Lemma set_authoring_organizations_keeps (course : Course.t) (data : json) :
  keeps proj (@set_authoring_organizations Media course data).
Proof.
  unfold set_authoring_organizations. pose proof _get_objects_by_uuid_keeps. frame.
  intros c. apply (beside_course_authoring_organizations Hbeside).
Qed.

Lemma set_course_run_staff_keeps (course_run : CourseRun.t) (data : json) :
  keeps proj (@set_course_run_staff Media course_run data).
Proof.
  unfold set_course_run_staff. pose proof _get_objects_by_uuid_keeps. frame.
  intros c. apply (beside_course_run_staff Hbeside).
Qed.

Lemma set_course_run_transcript_languages_keeps (course_run : CourseRun.t) (data : json) :
  keeps proj (@set_course_run_transcript_languages Media course_run data).
Proof.
  unfold set_course_run_transcript_languages. pose proof _extract_language_tags_keeps.
  frame. intros c. apply (beside_course_run_transcript_languages Hbeside).
Qed.

Lemma CourseRun_update_or_create_keeps (key : string) (defaults : CourseRun.fields) :
  keeps proj (@CourseRun_update_or_create Media key defaults).
Proof.
  intros c. unfold CourseRun_update_or_create.
  destruct (filter _ (course_runs c)) as [|old [|another rest]]; simpl;
    try apply (beside_course_runs Hbeside); reflexivity.
Qed.

Lemma create_course_run_keeps (course : Course.t) (data : json) :
  keeps proj (create_course_run clean_html course data).
Proof.
  intros c. unfold create_course_run.
  destruct (course_run_defaults _ _ _ _) as [defaults|e]; [|reflexivity].
  pose proof (CourseRun_update_or_create_keeps (CourseRun.key defaults) defaults c) as Hk.
  destruct (CourseRun_update_or_create _ _ c) as [c' [[course_run created]|e]];
    simpl in Hk.
  - rewrite <- Hk.
    pose proof set_course_run_staff_keeps. pose proof logger_keeps.
    pose proof set_course_run_transcript_languages_keeps.
    assert (Hrest : keeps proj
              (set_course_run_staff course_run data ;;
               set_course_run_transcript_languages course_run data ;;
               logger LInfo "Processed course run with UUID [%s]." [CourseRun.uuid defaults] ;;
               ret (Some course_run))) by frame.
    apply Hrest.
  - rewrite <- Hk. destruct e; try reflexivity.
    pose proof logger_keeps.
    assert (Hrest : keeps proj
              (logger LError
                 "Multiple course runs are identified by the key [%s] or UUID [%s]."
                 [JStr (CourseRun.key defaults); CourseRun.uuid defaults] ;;
               ret (@None CourseRun.t))) by frame.
    apply Hrest.
Qed.

End CourseFrames.

(** ** Many-to-many relations *)

Section ManyToMany.
Context {B : Type} (eqb : B -> B -> bool).
Hypothesis eqb_eq : forall a b, eqb a b = true <-> a = b.

Lemma In_m2m_clear (owner o : nat) (x : B) (t : list (nat * B)) :
  In (o, x) (m2m_clear owner t) <-> In (o, x) t /\ o <> owner.
Proof.
  unfold m2m_clear. rewrite filter_In. simpl.
  rewrite negb_true_iff, Nat.eqb_neq. reflexivity.
Qed.

Lemma In_m2m_add (owner : nat) (xs : list B) : forall (t : list (nat * B)) (o : nat) (x : B),
  In (o, x) (m2m_add eqb owner xs t) <-> In (o, x) t \/ (o = owner /\ In x xs).
Proof.
  induction xs as [|x0 xs IH]; intros t o x; simpl; [tauto|].
  rewrite IH. destruct (existsb _ t) eqn:Ex.
  - apply existsb_exists in Ex. destruct Ex as [[o' x'] [Hin Hp]]. simpl in Hp.
    apply andb_true_iff in Hp. destruct Hp as [Ho Hx].
    apply Nat.eqb_eq in Ho. apply eqb_eq in Hx. subst o' x'.
    split; [tauto|]. intros [H|[-> [<-|H]]]; auto.
  - rewrite in_app_iff. simpl. split.
    + intros [[H|[H|[]]]|[Ho H]]; auto. inversion H; subst. auto.
    + intros [H|[-> [<-|H]]]; auto.
Qed.

Lemma In_m2m_members (owner : nat) (x : B) (t : list (nat * B)) :
  In x (m2m_members owner t) <-> In (owner, x) t.
Proof.
  unfold m2m_members. rewrite in_map_iff. split.
  - intros [[o x'] [Hx Hin]]. simpl in Hx. subst x'.
    apply filter_In in Hin. destruct Hin as [Hin Ho]. simpl in Ho.
    apply Nat.eqb_eq in Ho. subst o. exact Hin.
  - intros Hin. exists (owner, x). split; [reflexivity|].
    apply filter_In. simpl. rewrite Nat.eqb_refl. auto.
Qed.

(** [clear()] followed by [add] of the rows [xs]: the relation set of
    [owner] is [xs], whatever it was before. *)
Lemma m2m_replace_members (owner : nat) (xs : list B) (t : list (nat * B)) (x : B) :
  In x (m2m_members owner (m2m_add eqb owner xs (m2m_clear owner t))) <-> In x xs.
Proof.
  rewrite In_m2m_members, In_m2m_add, In_m2m_clear. tauto.
Qed.

End ManyToMany.

(** ** The Course loader: claims *)

Section CourseClaims.
Import CourseMarketingSiteDataLoader.

Variable Media : Type.
Variable clean_html : json -> result string.
Variable get_or_create_video : json -> json -> Media -> Media * result (option nat).
Variable CourseKey : Type.
Variable CourseKey_from_string : json -> result CourseKey.
Variable get_course_key_from_course_run_key : CourseKey -> result string.
Variable partner : nat.

Local Abbreviation process_node :=
  (@process_node Media clean_html get_or_create_video CourseKey CourseKey_from_string
     get_course_key_from_course_run_key partner).

Lemma get_course_run_status_setitem (data data' : json) (v : json) :
  setitem data "field_course_course_title" v = Ok data' ->
  get_course_run_status data' = get_course_run_status data.
Proof.
  intros H. unfold get_course_run_status.
  rewrite (getitem_setitem_other _ _ H); [reflexivity|discriminate].
Qed.

(** C1.  When the course key of a node already has a row in the catalog
    (same partner, key equal up to case) and the node's status is not
    Published (it is Unpublished, or cannot be read), [process_node]
    leaves the whole course table as it was, whatever it returns or
    raises: title, number, descriptions, video, level type and card
    image of the existing course keep their persisted values.  Only a
    Published node reaches the [setattr] loop. *)
Theorem unpublished_node_keeps_existing_course
    (data id : json) (run_key : CourseKey) (key : string) (existing : Course.t)
    (c : Catalog Media) :
  getitem data "field_course_id" = Ok id ->
  CourseKey_from_string id = Ok run_key ->
  get_course_key_from_course_run_key run_key = Ok key ->
  In existing (courses c) ->
  PyStr.iexact (Course.key (Course.attrs existing)) key = true ->
  Course.partner existing = partner ->
  get_course_run_status data <> Ok Published ->
  courses (fst (process_node data c)) = courses c.
Proof.
  intros Hid Hrk Hkey Hin Hmatch Hpartner Hstatus.
  unfold CourseMarketingSiteDataLoader.process_node.
  unfold bind at 1. cbn [lift]. rewrite Hid.
  unfold bind at 1. cbn [lift]. rewrite Hrk.
  unfold bind at 1. cbn [lift]. rewrite Hkey.
  do 5 (unfold bind at 1; cbn [lift];
        match goal with
        | |- context [match ?r with Ok _ => _ | Raise _ => _ end] =>
            destruct r eqn:?; [|reflexivity]
        end).
  unfold bind at 1.
  match goal with
  | |- context [course_defaults ?a ?b ?k ?d c] =>
      pose proof (course_defaults_keeps a b (courses_beside_writes Media) k d c) as Hc1;
      destruct (course_defaults a b k d c) as [c1 [defaults|e]]; simpl in Hc1; [|exact Hc1]
  end.
  unfold bind at 1. unfold Course_get_or_create at 1. rewrite Hc1.
  assert (Hfound : In existing
                     (filter (fun r => PyStr.iexact (Course.key (Course.attrs r)) key
                                       && Nat.eqb (Course.partner r) partner) (courses c))).
  { apply filter_In. split; [exact Hin|].
    rewrite Hmatch, Hpartner, Nat.eqb_refl. reflexivity. }
  destruct (filter _ (courses c)) as [|course [|another rest]];
    [destruct Hfound | | simpl; exact Hc1].
  unfold bind at 1. cbn [lift].
  match goal with
  | Hset : setitem data "field_course_course_title" _ = Ok ?d |- _ =>
      rewrite (@get_course_run_status_setitem _ _ _ Hset)
  end.
  destruct (get_course_run_status data) as [[|]|e]; [contradiction Hstatus; reflexivity| |exact Hc1].
  cbn [negb andb].
  match goal with
  | |- courses (fst (?m c1)) = _ => assert (Hrest : keeps (@courses Media) m)
  end.
  { pose proof (courses_beside_writes Media) as Hb.
    pose proof (set_subjects_keeps Hb). pose proof (set_authoring_organizations_keeps Hb).
    pose proof (create_course_run_keeps clean_html Hb). pose proof (logger_keeps Hb).
    frame. }
  rewrite Hrest. exact Hc1.
Qed.

(** *** Relation sets *)

Lemma uuid_in_iff (uuids : list json) (row : Entity) :
  uuid_in uuids row = true <-> In (JStr (entity_uuid row)) uuids.
Proof.
  unfold uuid_in. rewrite existsb_exists. split.
  - intros [u [Hin Hu]]. destruct u; try discriminate Hu.
    apply String.eqb_eq in Hu. subst. exact Hin.
  - intros Hin. exists (JStr (entity_uuid row)). split; [exact Hin|apply String.eqb_refl].
Qed.

Lemma _get_objects_by_uuid_spec (table : Catalog Media -> list Entity)
    (field : json) (raw uuids : list json) (c : Catalog Media) :
  iterate field = Ok raw -> uuids_of raw = Ok uuids ->
  _get_objects_by_uuid table field c
  = (c, Ok (map entity_pk (filter (uuid_in uuids) (table c)))).
Proof.
  intros Hraw Huuids. unfold _get_objects_by_uuid, bind, lift.
  rewrite Hraw, Huuids. reflexivity.
Qed.

Lemma resolved_iff (rows : list Entity) (uuids : list json) (pk : nat) :
  In pk (map entity_pk (filter (uuid_in uuids) rows))
  <-> exists row, In row rows /\ entity_pk row = pk /\ In (JStr (entity_uuid row)) uuids.
Proof.
  rewrite in_map_iff. split.
  - intros [row [Hpk Hin]]. apply filter_In in Hin. destruct Hin as [Hin Hu].
    exists row. rewrite <- uuid_in_iff. auto.
  - intros [row [Hin [Hpk Hu]]]. exists row. split; [exact Hpk|].
    apply filter_In. rewrite uuid_in_iff. auto.
Qed.

Lemma set_authoring_organizations_eq (course : Course.t) (data field : json)
    (raw uuids : list json) (c : Catalog Media) :
  iterate field = Ok raw -> uuids_of raw = Ok uuids ->
  getitem data "field_course_school_node" = Ok field ->
  set_authoring_organizations course data c
  = (with_course_authoring_organizations
       (m2m_add Nat.eqb (Course.pk course)
          (map entity_pk (filter (uuid_in uuids) (organizations c)))
          (m2m_clear (Course.pk course) (course_authoring_organizations c))) c,
     Ok tt).
Proof.
  intros Hraw Huuids Hfield. unfold set_authoring_organizations, bind, lift.
  rewrite Hfield, (_get_objects_by_uuid_spec _ _ c Hraw Huuids). reflexivity.
Qed.

Lemma set_subjects_eq (course : Course.t) (data field : json)
    (raw uuids : list json) (c : Catalog Media) :
  iterate field = Ok raw -> uuids_of raw = Ok uuids ->
  getitem data "field_course_subject" = Ok field ->
  set_subjects course data c
  = (with_course_subjects
       (m2m_add Nat.eqb (Course.pk course)
          (map entity_pk (filter (uuid_in uuids) (subjects c)))
          (m2m_clear (Course.pk course) (course_subjects c))) c,
     Ok tt).
Proof.
  intros Hraw Huuids Hfield. unfold set_subjects, bind, lift.
  rewrite Hfield, (_get_objects_by_uuid_spec _ _ c Hraw Huuids). reflexivity.
Qed.

Lemma set_course_run_staff_eq (course_run : CourseRun.t) (data field : json)
    (raw uuids : list json) (c : Catalog Media) :
  iterate field = Ok raw -> uuids_of raw = Ok uuids ->
  getitem data "field_course_staff" = Ok field ->
  set_course_run_staff course_run data c
  = (with_course_run_staff
       (m2m_add Nat.eqb (CourseRun.pk course_run)
          (map entity_pk (filter (uuid_in uuids) (people c)))
          (m2m_clear (CourseRun.pk course_run) (course_run_staff c))) c,
     Ok tt).
Proof.
  intros Hraw Huuids Hfield. unfold set_course_run_staff, bind, lift.
  rewrite Hfield, (_get_objects_by_uuid_spec _ _ c Hraw Huuids). reflexivity.
Qed.

(** C7.  For a relation-set field that lists objects with uuids, each
    of [set_authoring_organizations], [set_subjects] and
    [set_course_run_staff] returns without raising, and afterwards the
    relation set of the course (or run) holds exactly the rows of the
    table whose uuid is among those listed: a uuid that matches no row
    adds nothing, and what the set held before is gone unless it
    resolves again. *)
Theorem relation_set_is_what_resolves
    (course : Course.t) (course_run : CourseRun.t) (data field : json)
    (raw uuids : list json) (c : Catalog Media) :
  iterate field = Ok raw -> uuids_of raw = Ok uuids ->
  (getitem data "field_course_school_node" = Ok field ->
   snd (set_authoring_organizations course data c) = Ok tt
   /\ forall pk,
        In pk (m2m_members (Course.pk course)
                 (course_authoring_organizations
                    (fst (set_authoring_organizations course data c))))
        <-> exists row, In row (organizations c) /\ entity_pk row = pk
                        /\ In (JStr (entity_uuid row)) uuids)
  /\ (getitem data "field_course_subject" = Ok field ->
      snd (set_subjects course data c) = Ok tt
      /\ forall pk,
           In pk (m2m_members (Course.pk course)
                    (course_subjects (fst (set_subjects course data c))))
           <-> exists row, In row (subjects c) /\ entity_pk row = pk
                           /\ In (JStr (entity_uuid row)) uuids)
  /\ (getitem data "field_course_staff" = Ok field ->
      snd (set_course_run_staff course_run data c) = Ok tt
      /\ forall pk,
           In pk (m2m_members (CourseRun.pk course_run)
                    (course_run_staff (fst (set_course_run_staff course_run data c))))
           <-> exists row, In row (people c) /\ entity_pk row = pk
                           /\ In (JStr (entity_uuid row)) uuids).
Proof.
  intros Hraw Huuids.
  split; [|split]; intros Hfield.
  - rewrite set_authoring_organizations_eq with (field := field) (raw := raw) (uuids := uuids) by assumption.
    split; [reflexivity|]. intros pk. cbn [fst with_course_authoring_organizations
                                           course_authoring_organizations].
    rewrite (m2m_replace_members Nat.eqb Nat.eqb_eq). apply resolved_iff.
  - rewrite set_subjects_eq with (field := field) (raw := raw) (uuids := uuids) by assumption.
    split; [reflexivity|]. intros pk. cbn [fst with_course_subjects course_subjects].
    rewrite (m2m_replace_members Nat.eqb Nat.eqb_eq). apply resolved_iff.
  - rewrite set_course_run_staff_eq with (field := field) (raw := raw) (uuids := uuids) by assumption.
    split; [reflexivity|]. intros pk. cbn [fst with_course_run_staff course_run_staff].
    rewrite (m2m_replace_members Nat.eqb Nat.eqb_eq). apply resolved_iff.
Qed.

End CourseClaims.

(** ** The Course loader: course runs *)

Section CourseRunClaims.
Import CourseMarketingSiteDataLoader.

Variable Media : Type.
Variable clean_html : json -> result string.

Local Abbreviation create_course_run := (@create_course_run Media clean_html).

(** Once the run row is written, the rest of [create_course_run]
    (staff, transcript languages, log) leaves the run table alone. *)
Lemma after_update_or_create_keeps_runs (course_run : CourseRun.t) (data : json)
    (uuid : json) :
  keeps (@course_runs Media)
    (set_course_run_staff course_run data ;;
     set_course_run_transcript_languages course_run data ;;
     logger LInfo "Processed course run with UUID [%s]." [uuid] ;;
     ret (Some course_run)).
Proof.
  unfold set_course_run_staff, set_course_run_transcript_languages,
    _get_objects_by_uuid, _extract_language_tags.
  frame.
Qed.

(** C2 (as amended).  [create_course_run] hands the node's values to
    [update_or_create] whatever the node's status is: a key that matches
    no persisted run gets a new row, and a key that matches exactly one
    persisted run has that row's attributes replaced by the node's,
    status included, for an Unpublished node as for a Published one. *)
Theorem existing_course_run_is_overwritten
    (course : Course.t) (data : json) (c : Catalog Media) (defaults : CourseRun.fields) :
  course_run_defaults clean_html (language_tags c) course data = Ok defaults ->
  let matching :=
    filter (fun r => PyStr.iexact (CourseRun.key (CourseRun.attrs r)) (CourseRun.key defaults))
           (course_runs c) in
  let after := course_runs (fst (create_course_run course data c)) in
  get_course_run_status data = Ok (CourseRun.status defaults)
  /\ (matching = [] ->
      after = course_runs c
              ++ [{| CourseRun.pk := next_pk (map CourseRun.pk (course_runs c));
                     CourseRun.attrs := defaults |}])
  /\ (forall old, matching = [old] ->
      after = map (fun r => if Nat.eqb (CourseRun.pk r) (CourseRun.pk old)
                            then {| CourseRun.pk := CourseRun.pk old;
                                    CourseRun.attrs := defaults |}
                            else r) (course_runs c)
      /\ In {| CourseRun.pk := CourseRun.pk old; CourseRun.attrs := defaults |} after).
Proof.
  intros Hd matching after. subst matching after.
  split.
  { apply course_run_defaults_inv in Hd.
    destruct Hd as (vs & ve & w & start & end_ & _ & _ & _ & _ & _ & _ & _ & Hst & _).
    exact Hst. }
  unfold CourseMarketingSiteDataLoader.create_course_run. rewrite Hd.
  unfold CourseRun_update_or_create.
  split.
  - intros Hnone. rewrite Hnone.
    rewrite after_update_or_create_keeps_runs. reflexivity.
  - intros old Hone. rewrite Hone.
    rewrite after_update_or_create_keeps_runs. cbn [course_runs with_course_runs].
    split; [reflexivity|].
    assert (Hin : In old (course_runs c)).
    { assert (H : In old [old]) by (left; reflexivity).
      rewrite <- Hone in H. apply filter_In in H. tauto. }
    apply in_map_iff. exists old. rewrite Nat.eqb_refl. auto.
Qed.

(** A key that matches several persisted runs makes [update_or_create]
    raise [MultipleObjectsReturned]; the handler of [create_course_run]
    is for [TypeError], so the exception leaves the method: nothing is
    logged and [None] is not returned. *)
Lemma several_course_runs_raise
    (course : Course.t) (data : json) (c : Catalog Media) (defaults : CourseRun.fields)
    (r1 r2 : CourseRun.t) (rest : list CourseRun.t) :
  course_run_defaults clean_html (language_tags c) course data = Ok defaults ->
  filter (fun r => PyStr.iexact (CourseRun.key (CourseRun.attrs r)) (CourseRun.key defaults))
         (course_runs c) = r1 :: r2 :: rest ->
  create_course_run course data c = (c, Raise MultipleObjectsReturned).
Proof.
  intros Hd Hmany. unfold CourseMarketingSiteDataLoader.create_course_run.
  rewrite Hd. unfold CourseRun_update_or_create. rewrite Hmany. reflexivity.
Qed.

End CourseRunClaims.


(** ** The loaders at work on concrete nodes *)

(** The second, Unpublished sighting of the demo course carries the
    title "TBD"; the course keeps the title of its Published sighting. *)
Lemma unpublished_node_keeps_existing_course_witness :
  courses (fst (Fixture.course_process_node Fixture.unpublished_node Fixture.seen_once))
  = courses Fixture.seen_once
  /\ Fixture.course_titles Fixture.seen_once = ["Demo course"].
Proof.
  split; [|reflexivity].
  apply (@unpublished_node_keeps_existing_course
           Fixture.Media Fixture.clean_html Fixture.get_or_create_video
           Fixture.CourseKey Fixture.CourseKey_from_string
           Fixture.get_course_key_from_course_run_key Fixture.partner
           Fixture.unpublished_node (JStr Fixture.run_id) Fixture.run_id "edX+DemoX"
           Fixture.a_course Fixture.seen_once);
    try (vm_compute; reflexivity).
  - left. reflexivity.
  - vm_compute. discriminate.
Defined.

(** A Published second sighting does overwrite the course. *)
Example published_node_overwrites_course :
  Fixture.course_titles
    (fst (Fixture.course_process_node Fixture.retitled_node Fixture.seen_once))
  = ["Demo course, second edition"].
Proof. vm_compute. reflexivity. Qed.

(** C2, as the claim states it, fails: the Unpublished second sighting
    matches the one persisted run, whose title and status it overwrites,
    while the course keeps its title. *)
Lemma unpublished_node_overwrites_course_run :
  CourseMarketingSiteDataLoader.get_course_run_status Fixture.unpublished_node = Ok Unpublished
  /\ Fixture.run_titles Fixture.seen_once = [("Demo course", Published)]
  /\ Fixture.run_titles
       (fst (Fixture.create_course_run Fixture.a_course Fixture.unpublished_node
               Fixture.seen_once))
     = [("TBD", Unpublished)]
  /\ Fixture.run_titles
       (fst (Fixture.course_process_node Fixture.unpublished_node Fixture.seen_once))
     = [("TBD", Unpublished)]
  /\ Fixture.course_titles
       (fst (Fixture.course_process_node Fixture.unpublished_node Fixture.seen_once))
     = ["Demo course"].
Proof.
  repeat split; vm_compute; reflexivity.
Qed.

Lemma existing_course_run_is_overwritten_witness :
  exists defaults,
    Fixture.course_run_defaults Fixture.a_course Fixture.unpublished_node = Ok defaults
    /\ CourseRun.status defaults = Unpublished
    /\ In {| CourseRun.pk := CourseRun.pk Fixture.a_run; CourseRun.attrs := defaults |}
         (course_runs (fst (Fixture.create_course_run Fixture.a_course
                              Fixture.unpublished_node Fixture.seen_once))).
Proof.
  eexists. split; [vm_compute; reflexivity|]. split; [reflexivity|].
  match goal with
  | |- In {| CourseRun.pk := _; CourseRun.attrs := ?d |} _ =>
      refine (proj2 (proj2 (proj2
                (@existing_course_run_is_overwritten
                   Fixture.Media Fixture.clean_html Fixture.a_course
                   Fixture.unpublished_node Fixture.seen_once d _)) Fixture.a_run _))
  end; vm_compute; reflexivity.
Defined.

(** C8 (the code departs from the claim).  Two persisted runs match the
    node's key: [update_or_create] raises [MultipleObjectsReturned],
    which the [except TypeError] of [create_course_run] lets through.
    The method raises instead of returning [None], [process_node] raises
    with it, and the only trace is the entry of the page loop. *)
Theorem duplicate_course_runs_raise :
  List.length
    (filter (fun r => PyStr.iexact (CourseRun.key (CourseRun.attrs r)) Fixture.run_id)
       (course_runs Fixture.with_duplicate_runs)) = 2%nat
  /\ Fixture.create_course_run Fixture.a_course Fixture.a_node Fixture.with_duplicate_runs
     = (Fixture.with_duplicate_runs, Raise MultipleObjectsReturned)
  /\ snd (Fixture.course_process_node Fixture.a_node Fixture.with_duplicate_runs)
     = Raise MultipleObjectsReturned
  /\ Fixture.log_lines
       (fst (Fixture.process_response (Fixture.page "0" [Fixture.a_node] [])
               Fixture.with_duplicate_runs))
     = [("Failed to load %s.", [JStr "https://www.edx.org/course/demo-course"])].
Proof.
  repeat split; vm_compute; reflexivity.
Qed.

(** The node names one school of the catalog and one the catalog lacks;
    the course was linked to another school.  Afterwards it is linked to
    the school that resolves, and to nothing else. *)
Lemma relation_set_is_what_resolves_witness :
  snd (CourseMarketingSiteDataLoader.set_authoring_organizations
         Fixture.a_course Fixture.node_with_schools Fixture.with_schools) = Ok tt
  /\ (forall pk,
        In pk (m2m_members (Course.pk Fixture.a_course)
                 (course_authoring_organizations
                    (fst (CourseMarketingSiteDataLoader.set_authoring_organizations
                            Fixture.a_course Fixture.node_with_schools Fixture.with_schools))))
        <-> exists row, In row (organizations Fixture.with_schools) /\ entity_pk row = pk
                        /\ In (JStr (entity_uuid row))
                             [ JStr "1b4a1e38-7c4c-4d2a-8f45-7d6c6e3f0a10";
                               JStr "9e8d7c6b-5a49-4382-b7a6-1f0e9d8c7b30" ]).
Proof.
  refine (proj1 (@relation_set_is_what_resolves
                   Fixture.Media Fixture.a_course Fixture.a_run Fixture.node_with_schools
                   Fixture.school_references _ _ Fixture.with_schools _ _) _);
    vm_compute; reflexivity.
Defined.

Example relation_set_after_replacement :
  course_authoring_organizations
    (fst (CourseMarketingSiteDataLoader.set_authoring_organizations
            Fixture.a_course Fixture.node_with_schools Fixture.with_schools))
  = [(1%nat, 1%nat)].
Proof. vm_compute. reflexivity. Qed.

(** The first page links to [page=0] as first and [page=3] as last: the
    run requests page 0 and then the pages 1, 2 and 3. *)
Lemma ingest_requests_pagerange_witness :
  requested_pages
    (AbstractMarketingSiteDataLoader.ingest Fixture.clean_strings Fixture.four_pages
       false Fixture.process Fixture.empty)
  = [0; 1; 2; 3].
Proof.
  refine (proj1 (proj2
            (@ingest_requests_pagerange
               Fixture.Media Fixture.clean_strings Fixture.four_pages false Fixture.process
               Fixture.empty
               (Fixture.page "0" [] Fixture.paging_links)
               (("list", JList []) :: Fixture.paging_links)
               (JStr (Fixture.page_url "1")) (JStr (Fixture.page_url "0"))
               (JStr (Fixture.page_url "3")) 0 3 _ _ _ _ _ _ _ _)));
    vm_compute; reflexivity.
Defined.

(** * Further properties of the loaders *)

(** ** The page loop and the pager *)

Section AbstractExtras.
Import AbstractMarketingSiteDataLoader.

Variable Media : Type.
Variable clean_strings : json -> result json.
Variable api_client_get : Z -> result Response.
Variable is_threadsafe : bool.
Variable process_node : json -> M (Media := Media) unit.

Local Abbreviation process_nodes := (process_nodes clean_strings process_node).
Local Abbreviation _process_response := (_process_response clean_strings process_node).
Local Abbreviation process_futures := (process_futures clean_strings process_node).
Local Abbreviation ingest := (ingest clean_strings api_client_get is_threadsafe process_node).

Lemma _process_response_non_200 (response : Response) (c : Catalog Media) :
  status_code response <> 200 ->
  _process_response response c
  = (with_log (log c ++ [{| log_level := LError;
                            log_format := status_message response;
                            log_args := [] |}]) c,
     Raise (PyException (status_message response))).
Proof.
  intros Hs. unfold AbstractMarketingSiteDataLoader._process_response, _check_status_code.
  destruct (Z.eqb_spec (status_code response) 200) as [Heq|_]; [contradiction|].
  reflexivity.
Qed.

(** X1.  When the first page is answered with a status other than 200,
    [ingest] requests page 0 only, logs one error and raises an exception
    with the same message, which names the URL, the status and the body
    of the response; the catalog is untouched. *)
Theorem first_page_failure_aborts_ingest (response : Response) (c : Catalog Media) :
  api_client_get initial_page = Ok response ->
  status_code response <> 200 ->
  ingest c
  = ([initial_page],
     (with_log (log c ++ [{| log_level := LError;
                             log_format := status_message response;
                             log_args := [] |}]) c,
      Raise (PyException (status_message response)))).
Proof.
  intros Hget Hs. unfold AbstractMarketingSiteDataLoader.ingest.
  unfold pager_bind at 1, AbstractMarketingSiteDataLoader._request. rewrite Hget.
  unfold pager_bind at 1, quiet at 1. rewrite _process_response_non_200 by exact Hs.
  reflexivity.
Qed.

Lemma process_futures_raises (futures : list (result Response)) :
  Exists failed futures ->
  forall c, exists e, snd (process_futures futures c) = Raise e.
Proof.
  induction 1 as [future rest Hfailed|future rest _ IH]; intros c;
    cbn [AbstractMarketingSiteDataLoader.process_futures].
  - destruct future as [response|e]; simpl in Hfailed.
    + unfold bind at 1. cbn [lift]. unfold bind at 1.
      rewrite _process_response_non_200 by exact Hfailed. simpl. eauto.
    + unfold bind at 1. cbn [lift]. simpl. eauto.
  - unfold bind at 1. destruct future as [response|e]; cbn [lift]; [|simpl; eauto].
    unfold bind at 1.
    destruct (_process_response response c) as [c' [[]|e]]; [|simpl; eauto].
    apply IH.
Qed.

Lemma submit_requests_futures (pages : list Z) (c : Catalog Media) :
  submit_requests api_client_get pages c = (pages, (c, Ok (map api_client_get pages))).
Proof.
  induction pages as [|page pages IH].
  - reflexivity.
  - cbn [submit_requests map].
    unfold pager_bind, submit, AbstractMarketingSiteDataLoader._request.
    rewrite IH. simpl. rewrite app_nil_r. reflexivity.
Qed.

Lemma submit_load_data_returns (pages : list Z) : forall c : Catalog Media,
  snd (snd (submit_load_data clean_strings api_client_get process_node pages c)) = Ok tt.
Proof.
  induction pages as [|page pages IH]; intros c; [reflexivity|].
  cbn [submit_load_data]. unfold pager_bind at 1, submit.
  destruct (_load_data clean_strings api_client_get process_node page c) as [asked [c' r]].
  specialize (IH c').
  destruct (submit_load_data clean_strings api_client_get process_node pages c')
    as [asked' out].
  exact IH.
Qed.

(** What [ingest] comes to once page 0 has been fetched and processed and
    its JSON has a [next] link. *)
Lemma ingest_after_first_page (c c1 : Catalog Media) (response : Response)
    (d : list (string * json)) (next : json) (pages : list Z) :
  api_client_get initial_page = Ok response ->
  _process_response response c = (c1, Ok tt) ->
  json_body response = Ok (JDict d) ->
  assoc "next" d = Some next ->
  pagerange (JDict d) = Ok pages ->
  ingest c
  = if is_threadsafe
    then (let '(asked, out) :=
            submit_load_data clean_strings api_client_get process_node pages c1 in
          (initial_page :: asked, out))
    else (initial_page :: pages, process_futures (map api_client_get pages) c1).
Proof.
  intros Hget Hok Hjson Hnext Hrange.
  unfold AbstractMarketingSiteDataLoader.ingest.
  unfold pager_bind at 1, AbstractMarketingSiteDataLoader._request. rewrite Hget.
  unfold pager_bind at 1, quiet at 1. rewrite Hok.
  unfold pager_bind at 1, quiet at 1. rewrite Hjson. cbn [lift]. rewrite Hnext.
  unfold pager_bind at 1, quiet at 1. rewrite Hrange. cbn [lift].
  destruct is_threadsafe.
  - destruct (submit_load_data _ _ _ _ c1) as [asked out]. reflexivity.
  - unfold pager_bind. rewrite submit_requests_futures. unfold quiet.
    destruct (process_futures _ c1) as [c2 r]. simpl. rewrite app_nil_r. reflexivity.
Qed.

(** X2.  In the default mode every scheduled page is requested, and one
    request that fails, or is answered with a status other than 200,
    makes [ingest] raise. *)
Theorem later_page_failure_aborts_ingest (c c1 : Catalog Media) (response : Response)
    (d : list (string * json)) (next : json) (pages : list Z) (q : Z) :
  is_threadsafe = false ->
  api_client_get initial_page = Ok response ->
  _process_response response c = (c1, Ok tt) ->
  json_body response = Ok (JDict d) ->
  assoc "next" d = Some next ->
  pagerange (JDict d) = Ok pages ->
  In q pages -> failed (api_client_get q) ->
  requested_pages (ingest c) = initial_page :: pages
  /\ exists e, snd (snd (ingest c)) = Raise e.
Proof.
  intros Hmode Hget Hok Hjson Hnext Hrange Hin Hfailed.
  rewrite (ingest_after_first_page c Hget Hok Hjson Hnext Hrange), Hmode.
  split; [reflexivity|]. cbn [snd].
  apply process_futures_raises. apply Exists_exists.
  exists (api_client_get q). split; [apply in_map; exact Hin|exact Hfailed].
Qed.

(** X3.  In the thread-safe mode nothing asks the futures for their
    result: once page 0 is through, [ingest] returns normally whatever
    the other pages answer. *)
Theorem threadsafe_ingest_drops_page_failures (c c1 : Catalog Media) (response : Response)
    (d : list (string * json)) (next : json) (pages : list Z) :
  is_threadsafe = true ->
  api_client_get initial_page = Ok response ->
  _process_response response c = (c1, Ok tt) ->
  json_body response = Ok (JDict d) ->
  assoc "next" d = Some next ->
  pagerange (JDict d) = Ok pages ->
  snd (snd (ingest c)) = Ok tt.
Proof.
  intros Hmode Hget Hok Hjson Hnext Hrange.
  rewrite (ingest_after_first_page c Hget Hok Hjson Hnext Hrange), Hmode.
  pose proof (submit_load_data_returns pages c1) as Hret.
  destruct (submit_load_data _ _ _ _ c1) as [asked out]. exact Hret.
Qed.

(** X4.  Without a [next] link on the first page, page 0 is the only
    page requested, and [ingest] ends as the processing of page 0 ends. *)
Theorem ingest_without_next_is_one_page (c : Catalog Media) (response : Response)
    (d : list (string * json)) :
  api_client_get initial_page = Ok response ->
  json_body response = Ok (JDict d) ->
  assoc "next" d = None ->
  ingest c = ([initial_page], _process_response response c).
Proof.
  intros Hget Hjson Hnext. unfold AbstractMarketingSiteDataLoader.ingest.
  unfold pager_bind at 1, AbstractMarketingSiteDataLoader._request. rewrite Hget.
  unfold pager_bind at 1, quiet at 1.
  destruct (_process_response response c) as [c1 [[]|e]]; [|reflexivity].
  unfold pager_bind at 1, quiet at 1. rewrite Hjson. cbn [lift]. rewrite Hnext.
  reflexivity.
Qed.


(** X6.  A page answered with status 200 whose [list] holds nodes that
    all have a [url] never makes [_process_response] raise, whatever
    cleaning and processing the nodes does. *)
Theorem page_of_nodes_with_url_never_raises (response : Response) (data lst : json)
    (nodes : list json) (c : Catalog Media) :
  status_code response = 200 ->
  json_body response = Ok data ->
  getitem data "list" = Ok lst ->
  iterate lst = Ok nodes ->
  Forall (fun node => exists u, getitem node "url" = Ok u) nodes ->
  snd (_process_response response c) = Ok tt.
Proof.
  intros Hs Hjson Hlist Hnodes Hurls.
  unfold AbstractMarketingSiteDataLoader._process_response, _check_status_code.
  rewrite Hs. cbn [Z.eqb Pos.eqb]. unfold bind at 1. cbn [ret].
  unfold bind at 1. rewrite Hjson. cbn [lift].
  unfold bind at 1. rewrite Hlist. cbn [lift].
  unfold bind at 1. rewrite Hnodes. cbn [lift].
  apply process_nodes_isolates. exact Hurls.
Qed.

End AbstractExtras.

(** X7.  [_get_nested_url] takes Drupal's renderings of an empty object
    (null, an empty array, an empty object) for a field without URL; an
    object gives its [url], or null when it has none; an array or a
    string that is not empty has no [get] and raises. *)
Theorem _get_nested_url_cases (field : json) :
  (truthy field = false -> AbstractMarketingSiteDataLoader._get_nested_url field = Ok JNull)
  /\ (forall d, field = JDict d ->
        AbstractMarketingSiteDataLoader._get_nested_url field
        = Ok (match assoc "url" d with Some u => u | None => JNull end))
  /\ (truthy field = true -> (forall d, field <> JDict d) ->
        AbstractMarketingSiteDataLoader._get_nested_url field = Raise AttributeError).
Proof.
  unfold AbstractMarketingSiteDataLoader._get_nested_url, get, get_default.
  split; [|split].
  - intros H. rewrite H. reflexivity.
  - intros d ->. destruct d as [|kv d]; [reflexivity|].
    cbn [truthy]. destruct (assoc "url" (kv :: d)); reflexivity.
  - intros H Hnd. rewrite H. destruct field; try reflexivity.
    contradiction (Hnd d). reflexivity.
Qed.

(** ** Request URLs *)

(** [int(str(n))] is [n]. *)
Section IntStrFacts.
Import IntStr.

Lemma digits_string_of_uint (d : Decimal.uint) : forall acc,
  PyStr.digits acc (list_ascii_of_string (NilEmpty.string_of_uint d))
  = Some (uint_value acc d).
Proof.
  induction d; intros acc; cbn [NilEmpty.string_of_uint list_ascii_of_string PyStr.digits];
    try reflexivity;
    match goal with
    | |- context [PyStr.digit ?c] => change (PyStr.digit c) with (Some (PyStr.code c - 48))
    end; cbn [PyStr.code]; apply IHd.
Qed.

Lemma of_uint_acc_value (d : Decimal.uint) : forall acc : positive,
  Zpos (Pos.of_uint_acc d acc) = uint_value (Zpos acc) d.
Proof.
  induction d; intros acc; cbn [Pos.of_uint_acc uint_value];
    try reflexivity; rewrite IHd; f_equal; lia.
Qed.

Lemma of_uint_value (d : Decimal.uint) : Z.of_N (Pos.of_uint d) = uint_value 0 d.
Proof.
  induction d; cbn [Pos.of_uint uint_value]; try reflexivity;
    try exact IHd; cbn [Z.of_N]; rewrite of_uint_acc_value; reflexivity.
Qed.

Lemma to_uint_value (p : positive) : uint_value 0 (Pos.to_uint p) = Zpos p.
Proof.
  rewrite <- of_uint_value, DecimalPos.Unsigned.of_to. reflexivity.
Qed.

Lemma string_of_uint_digits (d : Decimal.uint) :
  forallb is_digit (list_ascii_of_string (NilEmpty.string_of_uint d)) = true.
Proof.
  induction d; cbn [NilEmpty.string_of_uint list_ascii_of_string forallb];
    try reflexivity; rewrite IHd; reflexivity.
Qed.

Lemma is_digit_plain (c : ascii) :
  is_digit c = true ->
  PyStr.is_space c = false /\ Ascii.eqb c "-" = false /\ Ascii.eqb c "+" = false.
Proof.
  destruct c as [[] [] [] [] [] [] [] []]; try discriminate; intros _; repeat split.
Qed.

Lemma drop_while_none (p : ascii -> bool) (l : list ascii) :
  Forall (fun c => p c = false) l -> PyStr.drop_while p l = l.
Proof.
  destruct 1 as [|c l Hc _]; [reflexivity|]. simpl. rewrite Hc. reflexivity.
Qed.

(** A text without whitespace is its own [strip()]. *)
Lemma strip_plain (s : string) :
  Forall (fun c => PyStr.is_space c = false) (list_ascii_of_string s) ->
  PyStr.strip s = s.
Proof.
  intros H. unfold PyStr.strip, PyStr.rstrip_by, PyStr.lstrip_by.
  rewrite list_ascii_of_string_of_list_ascii, (drop_while_none _ H).
  rewrite drop_while_none by (apply Forall_rev; exact H).
  rewrite rev_involutive. apply string_of_list_ascii_of_string.
Qed.

Lemma digits_plain (l : list ascii) :
  forallb is_digit l = true -> Forall (fun c => PyStr.is_space c = false) l.
Proof.
  rewrite forallb_forall, Forall_forall. intros H c Hc.
  apply is_digit_plain. apply H. exact Hc.
Qed.

Lemma to_int_string_of_uint (d : Decimal.uint) :
  d <> Decimal.Nil ->
  PyStr.to_int (NilEmpty.string_of_uint d) = Ok (uint_value 0 d)
  /\ PyStr.to_int (String "-" (NilEmpty.string_of_uint d)) = Ok (- uint_value 0 d).
Proof.
  intros Hd. pose proof (string_of_uint_digits d) as Hdig.
  pose proof (digits_string_of_uint d 0) as Hval.
  assert (Hne : list_ascii_of_string (NilEmpty.string_of_uint d) <> []).
  { destruct d; [contradiction|..]; discriminate. }
  unfold PyStr.to_int. split.
  - rewrite strip_plain by (apply digits_plain; exact Hdig).
    destruct (list_ascii_of_string (NilEmpty.string_of_uint d)) as [|c rest] eqn:E;
      [contradiction|].
    cbn [forallb] in Hdig. apply andb_true_iff in Hdig. destruct Hdig as [Hc _].
    destruct (is_digit_plain c Hc) as (_ & Hm & Hp). rewrite Hm, Hp, Hval. reflexivity.
  - rewrite strip_plain.
    + cbn [list_ascii_of_string]. cbn [Ascii.eqb Bool.eqb].
      destruct (list_ascii_of_string (NilEmpty.string_of_uint d)) as [|c rest] eqn:E;
        [contradiction|].
      rewrite Hval. reflexivity.
    + cbn [list_ascii_of_string]. constructor; [reflexivity|].
      apply digits_plain. exact Hdig.
Qed.

Lemma nilzero_string_of_uint (d : Decimal.uint) :
  d <> Decimal.Nil -> NilZero.string_of_uint d = NilEmpty.string_of_uint d.
Proof. destruct d; [contradiction|..]; reflexivity. Qed.

(** [int(str(n))] gives [n] back. *)
Lemma to_int_str_of_Z (n : Z) : PyStr.to_int (str_of_Z n) = Ok n.
Proof.
  unfold str_of_Z. destruct n as [|p|p]; cbn [Z.to_int NilZero.string_of_int].
  - reflexivity.
  - pose proof (DecimalPos.Unsigned.to_uint_nonnil p) as Hnn.
    rewrite (nilzero_string_of_uint Hnn).
    rewrite (proj1 (to_int_string_of_uint Hnn)), to_uint_value. reflexivity.
  - pose proof (DecimalPos.Unsigned.to_uint_nonnil p) as Hnn.
    rewrite (nilzero_string_of_uint Hnn).
    rewrite (proj2 (to_int_string_of_uint Hnn)), to_uint_value. reflexivity.
Qed.

End IntStrFacts.

Section UrlencodeFacts.
Import Urlencode.

Lemma delimiter_false (c : ascii) :
  delimiter c = false ->
  Ascii.eqb c "&" = false /\ Ascii.eqb c ";" = false /\ Ascii.eqb c "=" = false
  /\ Ascii.eqb c "#" = false /\ Ascii.eqb c "?" = false.
Proof.
  unfold delimiter. cbn [PyStr.mem_char].
  repeat rewrite orb_false_iff. tauto.
Qed.

Lemma quote_char_no_delimiter (c : ascii) :
  forallb (fun x => negb (delimiter x)) (quote_char c) = true.
Proof.
  destruct c as [[] [] [] [] [] [] [] []]; reflexivity.
Qed.

Lemma unquote_quote_char (c : ascii) (rest : list ascii) :
  Url.unquote_plus (quote_char c ++ rest) = c :: Url.unquote_plus rest.
Proof.
  destruct c as [[] [] [] [] [] [] [] []]; reflexivity.
Qed.

Lemma quote_char_nonempty (c : ascii) : quote_char c <> [].
Proof.
  unfold quote_char. destruct (unreserved c); [discriminate|].
  destruct (Ascii.eqb c " "); discriminate.
Qed.

Lemma quote_plus_plain (s : string) : plain (quote_plus s).
Proof.
  unfold plain, quote_plus. induction (list_ascii_of_string s) as [|c l IH]; simpl.
  - constructor.
  - apply Forall_app. split; [|exact IH].
    pose proof (quote_char_no_delimiter c) as H. rewrite forallb_forall in H.
    apply Forall_forall. intros x Hx. apply negb_true_iff. apply H. exact Hx.
Qed.

(** [unquote_plus] undoes [quote_plus]. *)
Lemma unquote_quote_plus (s : string) :
  string_of_list_ascii (Url.unquote_plus (quote_plus s)) = s.
Proof.
  unfold quote_plus. rewrite <- (string_of_list_ascii_of_string s) at 2. f_equal.
  induction (list_ascii_of_string s) as [|c l IH]; [reflexivity|].
  cbn [flat_map]. rewrite unquote_quote_char, IH. reflexivity.
Qed.

Lemma quote_plus_empty (s : string) : quote_plus s = [] -> s = "".
Proof.
  unfold quote_plus. destruct s as [|c s]; [reflexivity|].
  cbn [list_ascii_of_string flat_map]. intros H.
  apply app_eq_nil in H. destruct H as [H _]. contradiction (quote_char_nonempty c H).
Qed.

Lemma take_until_plain (stop : ascii) (p rest : list ascii) :
  Forall (fun c => Ascii.eqb c stop = false) p ->
  Url.take_until stop (p ++ stop :: rest) = p.
Proof.
  induction 1 as [|c p Hc _ IH]; simpl.
  - rewrite Ascii.eqb_refl. reflexivity.
  - rewrite Hc, IH. reflexivity.
Qed.

Lemma take_until_all (stop : ascii) (p : list ascii) :
  Forall (fun c => Ascii.eqb c stop = false) p -> Url.take_until stop p = p.
Proof.
  induction 1 as [|c p Hc _ IH]; simpl; [reflexivity|]. rewrite Hc, IH. reflexivity.
Qed.

Lemma after_first_plain (stop : ascii) (p rest : list ascii) :
  Forall (fun c => Ascii.eqb c stop = false) p ->
  Url.after_first stop (p ++ stop :: rest) = rest.
Proof.
  induction 1 as [|c p Hc _ IH]; simpl.
  - rewrite Ascii.eqb_refl. reflexivity.
  - rewrite Hc, IH. reflexivity.
Qed.

Lemma plain_no (p : list ascii) :
  plain p ->
  Forall (fun c => Ascii.eqb c "=" = false) p
  /\ Forall (fun c => PyStr.mem_char c "&;" = false) p
  /\ Forall (fun c => Ascii.eqb c "#" = false) p.
Proof.
  intros H. repeat split; eapply Forall_impl; try exact H; intros c Hc;
    destruct (delimiter_false c Hc) as (Ha & Hs & He & Hh & Hq); try assumption.
  cbn [PyStr.mem_char]. rewrite Ha, Hs. reflexivity.
Qed.

(** One encoded field is read back as the pair it was made of, and a
    pair with an empty value is skipped. *)
Lemma field_pair_chars (kv : string * qvalue) :
  Url.field (pair_chars kv)
  = if String.eqb (py_str (snd kv)) "" then None else Some (fst kv, py_str (snd kv)).
Proof.
  unfold Url.field, pair_chars.
  destruct (plain_no (quote_plus_plain (fst kv))) as (Hk & _ & _).
  assert (Hex : existsb (Ascii.eqb "=") (quote_plus (fst kv) ++ "="%char :: quote_plus (py_str (snd kv))) = true).
  { apply existsb_exists. exists "="%char. split; [|reflexivity].
    apply in_or_app. right. left. reflexivity. }
  rewrite Hex, after_first_plain, take_until_plain by exact Hk.
  destruct (quote_plus (py_str (snd kv))) as [|c l] eqn:E.
  - apply quote_plus_empty in E. rewrite E. reflexivity.
  - rewrite <- E, !unquote_quote_plus.
    destruct (String.eqb_spec (py_str (snd kv)) ""); [|reflexivity].
    rewrite e in E. discriminate E.
Qed.

Lemma pair_chars_no_amp (kv : string * qvalue) :
  Forall (fun c => PyStr.mem_char c "&;" = false) (pair_chars kv).
Proof.
  unfold pair_chars. apply Forall_app. split.
  - apply plain_no, quote_plus_plain.
  - constructor; [reflexivity|]. apply plain_no, quote_plus_plain.
Qed.

Lemma split_any_piece (p : list ascii) : forall cur rest,
  Forall (fun c => PyStr.mem_char c "&;" = false) p ->
  Url.split_any "&;" cur (p ++ rest) = Url.split_any "&;" (rev p ++ cur) rest.
Proof.
  induction p as [|c p IH]; intros cur rest H; [reflexivity|].
  inversion H as [|? ? Hc Hp]; subst.
  cbn [app Url.split_any]. rewrite Hc, IH by exact Hp.
  cbn [rev]. rewrite <- app_assoc. reflexivity.
Qed.

Lemma split_any_join (pieces : list (list ascii)) :
  pieces <> [] ->
  Forall (Forall (fun c => PyStr.mem_char c "&;" = false)) pieces ->
  Url.split_any "&;" [] (join_amp pieces) = pieces.
Proof.
  intros Hne H. induction H as [|p pieces Hp Hrest IH]; [contradiction|].
  destruct pieces as [|q pieces].
  - cbn [join_amp]. rewrite <- (app_nil_r p) at 1.
    rewrite split_any_piece by exact Hp. cbn [Url.split_any].
    rewrite app_nil_r, rev_involutive. reflexivity.
  - cbn [join_amp]. rewrite split_any_piece by exact Hp.
    cbn [Url.split_any PyStr.mem_char Ascii.eqb Bool.eqb orb].
    rewrite app_nil_r, rev_involutive. f_equal. apply IH. discriminate.
Qed.

Lemma fields_pair_chars (query : list (string * qvalue)) :
  Url.fields (map pair_chars query) = decoded query.
Proof.
  induction query as [|kv query IH]; [reflexivity|].
  cbn [map Url.fields decoded flat_map]. rewrite field_pair_chars, IH.
  destruct (String.eqb (py_str (snd kv)) ""); reflexivity.
Qed.

Lemma join_amp_no_hash (pieces : list (list ascii)) :
  Forall (Forall (fun c => Ascii.eqb c "#" = false)) pieces ->
  Forall (fun c => Ascii.eqb c "#" = false) (join_amp pieces).
Proof.
  induction 1 as [|p pieces Hp _ IH]; [constructor|].
  destruct pieces as [|q pieces]; [exact Hp|].
  cbn [join_amp]. apply Forall_app. split; [exact Hp|].
  constructor; [reflexivity|exact IH].
Qed.

Lemma pair_chars_no_hash (kv : string * qvalue) :
  Forall (fun c => Ascii.eqb c "#" = false) (pair_chars kv).
Proof.
  unfold pair_chars. apply Forall_app. split.
  - apply plain_no, quote_plus_plain.
  - constructor; [reflexivity|]. apply plain_no, quote_plus_plain.
Qed.

Lemma list_ascii_of_string_app (a b : string) :
  list_ascii_of_string (a ++ b) = list_ascii_of_string a ++ list_ascii_of_string b.
Proof.
  induction a as [|c a IH]; [reflexivity|]. cbn [append list_ascii_of_string app].
  rewrite IH. reflexivity.
Qed.

Lemma parse_qsl_urlencode (query : list (string * qvalue)) :
  Url.parse_qsl (list_ascii_of_string (urlencode query)) = decoded query.
Proof.
  unfold Url.parse_qsl, urlencode. rewrite list_ascii_of_string_of_list_ascii.
  destruct query as [|kv query]; [reflexivity|].
  rewrite split_any_join.
  - apply fields_pair_chars.
  - discriminate.
  - apply Forall_forall. intros p Hp. apply in_map_iff in Hp.
    destruct Hp as [kv' [<- _]]. apply pair_chars_no_amp.
Qed.

(** X8.  [parse_qs] reads back what [urlencode] wrote: the pairs of the
    query in their order, keys and values unescaped, without the pairs
    whose value is empty. *)
Theorem parse_qs_reads_urlencode_back (query : list (string * qvalue)) :
  Url.parse_qsl (list_ascii_of_string (urlencode query)) = decoded query.
Proof. apply parse_qsl_urlencode. Qed.

Lemma plain_root_no (api_url : string) :
  plain_root api_url = true ->
  Forall (fun c => Ascii.eqb c "?" = false) (list_ascii_of_string api_url)
  /\ Forall (fun c => Ascii.eqb c "#" = false) (list_ascii_of_string api_url).
Proof.
  unfold plain_root. rewrite forallb_forall. intros H.
  split; apply Forall_forall; intros c Hc; specialize (H c Hc);
    apply negb_true_iff in H; cbn [PyStr.mem_char] in H;
    repeat rewrite orb_false_iff in H; tauto.
Qed.

(** The query of a request URL is the encoded dict. *)
Lemma query_of_request_url (api_url : string) (query_kwargs : list (string * qvalue))
    (page : Z) :
  plain_root api_url = true ->
  Url.query (request_url api_url query_kwargs page)
  = list_ascii_of_string (urlencode (kw_update [("page", QInt page)] query_kwargs)).
Proof.
  intros Hroot. destruct (plain_root_no api_url Hroot) as [Hq Hh].
  unfold request_url, Url.query.
  set (qs := urlencode _).
  rewrite !list_ascii_of_string_app.
  assert (Hqs : Forall (fun c => Ascii.eqb c "#" = false) (list_ascii_of_string qs)).
  { unfold qs, urlencode. rewrite list_ascii_of_string_of_list_ascii.
    apply join_amp_no_hash. apply Forall_forall. intros p Hp.
    apply in_map_iff in Hp. destruct Hp as [kv [<- _]]. apply pair_chars_no_hash. }
  rewrite take_until_all.
  - change (list_ascii_of_string "/node.json?")
      with (list_ascii_of_string "/node.json" ++ ["?"%char]).
    rewrite <- app_assoc. cbn [app]. rewrite app_assoc.
    apply after_first_plain. apply Forall_app. split; [exact Hq|].
    repeat constructor.
  - apply Forall_app. split; [exact Hh|]. apply Forall_app. split; [|exact Hqs].
    repeat constructor.
Qed.

Lemma kw_set_other (k k' : string) (v v' : qvalue) (d : list (string * qvalue)) :
  k' <> k -> kw_set k' v' ((k, v) :: d) = (k, v) :: kw_set k' v' d.
Proof.
  intros Hne. cbn [kw_set]. destruct (String.eqb_spec k' k); [contradiction|reflexivity].
Qed.

(** Updating a dict with keys other than its first key leaves that key
    first. *)
Lemma kw_update_head (k : string) (v : qvalue) (other : list (string * qvalue)) :
  Forall (fun kv => fst kv <> k) other ->
  forall d, exists rest, kw_update ((k, v) :: d) other = (k, v) :: rest.
Proof.
  induction 1 as [|[k' v'] other Hk _ IH]; intros d; cbn [kw_update fold_left].
  - eauto.
  - cbn [fst snd]. rewrite kw_set_other by exact Hk. apply IH.
Qed.

(** X9.  The page number [_request] writes into its URL is the page
    number [_extract_page] reads from that URL, whatever else the
    loader's query holds besides [page]. *)
Theorem requested_page_is_read_back (api_url : string)
    (query_kwargs : list (string * qvalue)) (page : Z) :
  plain_root api_url = true ->
  Forall (fun kv => fst kv <> "page") query_kwargs ->
  AbstractMarketingSiteDataLoader._extract_page
    (JStr (request_url api_url query_kwargs page)) = Ok page.
Proof.
  intros Hroot Hkeys. unfold AbstractMarketingSiteDataLoader._extract_page.
  rewrite query_of_request_url by exact Hroot.
  rewrite parse_qsl_urlencode.
  destruct (kw_update_head (QInt page) Hkeys []) as [rest ->].
  cbn [decoded flat_map fst snd py_str].
  pose proof (to_int_str_of_Z page) as Hint.
  destruct (String.eqb_spec (str_of_Z page) "") as [He|_].
  - rewrite He in Hint. discriminate Hint.
  - cbn [app Url.first_value]. cbn [String.eqb Ascii.eqb Bool.eqb rbind].
    exact Hint.
Qed.

(** X10.  The queries of the three kinds of loader: the Person and the
    Course loader change [load-entity-refs] and nothing else, and each
    query comes back from the request URL as it was put in. *)
Theorem loader_queries_are_read_back (api_url node_type : string) (page : Z) :
  plain_root api_url = true -> node_type <> "" ->
  Url.parse_qsl (Url.query (request_url api_url (get_query_kwargs node_type) page))
  = [ ("page", str_of_Z page); ("type", node_type); ("max-depth", "2");
      ("load-entity-refs", "file") ]
  /\ Url.parse_qsl (Url.query (request_url api_url (person_get_query_kwargs node_type) page))
     = [ ("page", str_of_Z page); ("type", node_type); ("max-depth", "2");
         ("load-entity-refs", "file,field_collection_item") ]
  /\ Url.parse_qsl (Url.query (request_url api_url (course_get_query_kwargs node_type) page))
     = [ ("page", str_of_Z page); ("type", node_type); ("max-depth", "2");
         ("load-entity-refs", "file,taxonomy_term") ].
Proof.
  intros Hroot Htype.
  assert (Hpage : String.eqb (str_of_Z page) "" = false).
  { destruct (String.eqb_spec (str_of_Z page) "") as [He|_]; [|reflexivity].
    pose proof (to_int_str_of_Z page) as Hint. rewrite He in Hint. discriminate Hint. }
  assert (Hnode : String.eqb node_type "" = false) by (apply String.eqb_neq; exact Htype).
  repeat split; rewrite query_of_request_url by exact Hroot;
    rewrite parse_qsl_urlencode;
    cbn [kw_update fold_left get_query_kwargs person_get_query_kwargs
         course_get_query_kwargs kw_set fst snd String.eqb Ascii.eqb Bool.eqb
         decoded flat_map py_str app];
    rewrite Hpage, Hnode; reflexivity.
Qed.

End UrlencodeFacts.

(** ** The Course loader: what a course run is given *)

Section FirstOfFilter.
Context {A : Type}.



End FirstOfFilter.

Section CourseRunExtras.
Import CourseMarketingSiteDataLoader.

Variable clean_html : json -> result string.


Lemma course_run_defaults_language (tags : list string) (course : Course.t) (data : json)
    (defaults : CourseRun.fields) :
  course_run_defaults clean_html tags course data = Ok defaults ->
  exists field raw names,
    getitem data "field_course_languages" = Ok field
    /\ iterate field = Ok raw
    /\ language_names raw = Ok names
    /\ CourseRun.language defaults = hd_error (get_language_tags_from_names tags names)
    /\ CourseRun.course defaults = Course.pk course.
Proof.
  unfold course_run_defaults. intros H. inv_rbind H.
  match type of H with
  | match ?key with JStr _ => _ | _ => _ end = _ => destruct key; try discriminate H
  end.
  inversion H; subst; clear H. cbn. eauto 10.
Qed.


(** X19.  Without a weeks field that passes [if weeks_to_complete]: a
    run that lacks its start or its end is stored without duration, and
    a run that ends before it starts is stored with a duration of zero
    weeks, not with an error. *)
Theorem weeks_without_a_span (tags : list string) (course : Course.t) (data : json)
    (defaults : CourseRun.fields) (w vs ve : json) :
  course_run_defaults clean_html tags course data = Ok defaults ->
  get data "field_course_required_weeks" = Ok w -> truthy w = false ->
  get data "field_course_start_date" = Ok vs ->
  get data "field_course_end_date" = Ok ve ->
  (truthy vs = false \/ truthy ve = false -> CourseRun.weeks_to_complete defaults = None)
  /\ (forall s e, truthy vs = true -> truthy ve = true ->
                  py_int vs = Ok s -> py_int ve = Ok e -> e < s ->
                  CourseRun.weeks_to_complete defaults = Some 0).
Proof.
  intros Hd Hw Hwf Hs He.
  apply course_run_defaults_inv in Hd.
  destruct Hd as (vs' & ve' & w' & start & end_ & Hs' & Hts & He' & Hte & Hw' & Hweeks & _).
  rewrite Hs in Hs'. inversion Hs'; subst vs'.
  rewrite He in He'. inversion He'; subst ve'.
  rewrite Hw in Hw'. inversion Hw'; subst w'.
  unfold weeks_of in Hweeks. rewrite Hwf in Hweeks.
  unfold timestamp_of in Hts, Hte. split.
  - intros [Hf|Hf]; rewrite Hf in *.
    + inversion Hts; subst start. inversion Hweeks. reflexivity.
    + inversion Hte; subst end_. destruct start; inversion Hweeks; reflexivity.
  - intros s e Hst Het Hsi Hei Hlt.
    rewrite Hst, Hsi in Hts. rewrite Het, Hei in Hte. cbn [rbind] in Hts, Hte.
    destruct (fromtimestamp s) as [ts|] eqn:Efs; [|discriminate Hts].
    destruct (fromtimestamp e) as [te|] eqn:Efe; [|discriminate Hte].
    apply fromtimestamp_Ok in Efs, Efe. destruct Efs as [-> _]. destruct Efe as [-> _].
    cbn [rbind] in Hts, Hte. inversion Hts; subst start. inversion Hte; subst end_.
    inversion Hweeks as [Hwk]. f_equal.
    unfold rrule_weekly_count, rrule_weekly.
    rewrite rrule_weekly_iter_past by exact Hlt. reflexivity.
Qed.

End CourseRunExtras.

(** ** Inversion of methods over the catalog *)

Section BindInversion.
Context {Media : Type}.
Local Abbreviation M := (@M Media).

Lemma bind_Ok {A B} (m : M A) (k : A -> M B) (c c' : Catalog Media) (b : B) :
  bind m k c = (c', Ok b) ->
  exists a c1, m c = (c1, Ok a) /\ k a c1 = (c', Ok b).
Proof.
  unfold bind. destruct (m c) as [c1 [a|e]]; intros H; [eauto|discriminate H].
Qed.

Lemma lift_Ok {A} (r : result A) (c c' : Catalog Media) (a : A) :
  lift r c = (c', Ok a) -> r = Ok a /\ c' = c.
Proof. unfold lift. intros H. inversion H. auto. Qed.

Lemma ret_Ok {A} (a a' : A) (c c' : Catalog Media) :
  ret a c = (c', Ok a') -> a' = a /\ c' = c.
Proof. unfold ret. intros H. inversion H. auto. Qed.

End BindInversion.

(** [inv_bind H] splits a successful sequence [x <- m ;; k] into the
    success of [m] and the success of [k]; a lifted computation leaves
    its equation. *)
Ltac inv_bind H :=
  let a := fresh "a" in
  let c1 := fresh "c" in
  let Hm := fresh "Hm" in
  apply bind_Ok in H; destruct H as (a & c1 & Hm & H);
  try (apply lift_Ok in Hm; destruct Hm as [Hm ->]).

Lemma iexact_refl (s : string) : PyStr.iexact s s = true.
Proof. unfold PyStr.iexact. apply String.eqb_refl. Qed.

Lemma assoc_set_same (k : string) (v : json) (d : list (string * json)) :
  assoc k (assoc_set k v d) = Some v.
Proof.
  induction d as [|[k0 v0] d IH]; simpl.
  - rewrite String.eqb_refl. reflexivity.
  - destruct (String.eqb_spec k k0) as [->|Hne]; simpl.
    + rewrite String.eqb_refl. reflexivity.
    + destruct (String.eqb_spec k k0); [contradiction|exact IH].
Qed.

Lemma getitem_setitem_same (o o' : json) (k : string) (v : json) :
  setitem o k v = Ok o' -> getitem o' k = Ok v.
Proof.
  destruct o; simpl; try discriminate. intros H. inversion H; subst.
  simpl. rewrite assoc_set_same. reflexivity.
Qed.

(** ** The Course loader: what [process_node] leaves in the catalog *)

Section CourseExtras.
Import CourseMarketingSiteDataLoader.

Variable Media : Type.
Variable clean_html : json -> result string.
Variable get_or_create_video : json -> json -> Media -> Media * result (option nat).
Variable CourseKey : Type.
Variable CourseKey_from_string : json -> result CourseKey.
Variable get_course_key_from_course_run_key : CourseKey -> result string.
Variable partner : nat.

Local Abbreviation process_node :=
  (@process_node Media clean_html get_or_create_video CourseKey CourseKey_from_string
     get_course_key_from_course_run_key partner).
Local Abbreviation course_defaults := (@course_defaults Media clean_html get_or_create_video).
Local Abbreviation create_course_run := (@create_course_run Media clean_html).
Local Abbreviation course_matches := (CourseSteps.course_matches partner).
Local Abbreviation course_key_of :=
  (CourseSteps.course_key_of CourseKey_from_string get_course_key_from_course_run_key).
Local Abbreviation finish := (@CourseSteps.finish Media clean_html).

Lemma finish_keeps_courses (course : Course.t) (data : json) (key : string) :
  keeps (@courses Media) (finish course data key).
Proof.
  pose proof (courses_beside_writes Media) as Hb.
  pose proof (set_subjects_keeps Hb). pose proof (set_authoring_organizations_keeps Hb).
  pose proof (create_course_run_keeps clean_html Hb). pose proof (logger_keeps Hb).
  unfold CourseSteps.finish. frame.
Qed.

Lemma finish_returns (course course' : Course.t) (data : json) (key : string)
    (c c' : Catalog Media) :
  finish course data key c = (c', Ok course') -> course' = course.
Proof.
  unfold CourseSteps.finish. intros H. do 4 inv_bind H. apply ret_Ok in H. tauto.
Qed.

Lemma finish_courses (course : Course.t) (data : json) (key : string)
    (c c' : Catalog Media) (r : result Course.t) :
  finish course data key c = (c', r) -> courses c' = courses c.
Proof.
  intros H. pose proof (finish_keeps_courses course data key c) as Hk.
  rewrite H in Hk. exact Hk.
Qed.

(** A successful [process_node], step by step. *)
Lemma process_node_Ok (data : json) (c c' : Catalog Media) (course : Course.t) :
  process_node data c = (c', Ok course) ->
  exists key title_field title_value title title_field' data' c1 defaults c2 found created
         status,
    course_key_of data = Ok key
    /\ getitem data "field_course_course_title" = Ok title_field
    /\ getitem title_field "value" = Ok title_value
    /\ clean_html title_value = Ok title
    /\ setitem title_field "value" (JStr title) = Ok title_field'
    /\ setitem data "field_course_course_title" title_field' = Ok data'
    /\ course_defaults key data' c = (c1, Ok defaults)
    /\ Course_get_or_create partner key defaults c1 = (c2, Ok (found, created))
    /\ get_course_run_status data = Ok status
    /\ (if negb created && match status with Published => true | Unpublished => false end
        then let course' := {| Course.pk := Course.pk found;
                               Course.partner := Course.partner found;
                               Course.attrs := defaults |} in
             course = course'
             /\ exists c3, Course_save course' c2 = (c3, Ok tt)
                           /\ finish course' data' key c3 = (c', Ok course)
        else course = found /\ finish found data' key c2 = (c', Ok course)).
Proof.
  unfold CourseMarketingSiteDataLoader.process_node. intros H.
  do 10 inv_bind H.
  match goal with p : (Course.t * bool)%type |- _ => destruct p as [found created] end.
  do 2 inv_bind H.
  match goal with
  | Hs : setitem data _ _ = Ok ?d, Hst : get_course_run_status ?d = _ |- _ =>
      rewrite (@get_course_run_status_setitem _ _ _ Hs) in Hst
  end.
  match type of H with
  | bind (set_subjects ?co ?d)
      (fun _ => bind _ (fun _ => bind _ (fun _ => bind (logger _ _ [JStr ?k]) _))) ?c2 = _ =>
      change (finish co d k c2 = (c', Ok course)) in H
  end.
  pose proof (finish_returns _ _ _ _ H) as ->.
  do 12 eexists.
  split.
  { unfold CourseSteps.course_key_of.
    repeat match goal with
           | Heq : ?r = Ok _ |- context [rbind ?r _] => rewrite Heq; cbn [rbind]
           end.
    eassumption. }
  do 8 (split; [eassumption|]).
  match goal with
  | Hif : (if ?b then _ else _) _ = _ |- _ => destruct b
  end.
  - match goal with
    | Hif : bind _ _ _ = _ |- _ =>
        inv_bind Hif; apply ret_Ok in Hif; destruct Hif as [-> ->]
    end.
    split; [reflexivity|].
    eexists. split; [reflexivity|exact H].
  - match goal with
    | Hif : ret _ _ = _ |- _ => apply ret_Ok in Hif; destruct Hif as [-> ->]
    end.
    auto.
Qed.

Lemma Course_get_or_create_Ok (key : string) (defaults : Course.fields)
    (c1 c2 : Catalog Media) (found : Course.t) (created : bool) :
  Course_get_or_create partner key defaults c1 = (c2, Ok (found, created)) ->
  (created = true
   /\ filter (course_matches key) (courses c1) = []
   /\ found = {| Course.pk := next_pk (map Course.pk (courses c1));
                 Course.partner := partner; Course.attrs := defaults |}
   /\ c2 = with_courses (courses c1 ++ [found]) c1)
  \/ (created = false /\ filter (course_matches key) (courses c1) = [found] /\ c2 = c1).
Proof.
  unfold Course_get_or_create. fold (CourseSteps.course_matches partner key).
  destruct (filter (course_matches key) (courses c1)) as [|r [|r' rest]];
    intros H; inversion H; subst; auto.
Qed.

(** What [defaults] holds of the node. *)
Lemma course_defaults_Ok (key : string) (data : json) (c c1 : Catalog Media)
    (defaults : Course.fields) :
  course_defaults key data c = (c1, Ok defaults) ->
  Course.key defaults = key
  /\ getitem data "field_course_code" = Ok (Course.number defaults)
  /\ get_description clean_html data = Ok (Course.full_description defaults)
  /\ (exists title_field title_value,
        getitem data "field_course_course_title" = Ok title_field
        /\ getitem title_field "value" = Ok title_value
        /\ clean_html title_value = Ok (Course.title defaults))
  /\ courses c1 = courses c.
Proof.
  intros H.
  pose proof (course_defaults_keeps clean_html get_or_create_video
                (courses_beside_writes Media) key data c) as Hk.
  rewrite H in Hk. cbn [fst] in Hk.
  unfold CourseMarketingSiteDataLoader.course_defaults in H.
  do 12 inv_bind H. apply ret_Ok in H. destruct H as [-> _]. cbn.
  repeat split; try assumption. eauto.
Qed.

Lemma next_pk_fresh (pks : list nat) : ~ In (next_pk pks) pks.
Proof.
  assert (H : forall n, In n pks -> (n <= fold_right Nat.max O pks)%nat).
  { induction pks as [|p pks IH]; intros n [].
    - subst. simpl. lia.
    - simpl. specialize (IH n H). lia. }
  intros Hin. apply H in Hin. unfold next_pk in Hin. lia.
Qed.

Lemma filter_singleton_In {A} (f : A -> bool) (l : list A) (x : A) :
  filter f l = [x] -> In x l /\ f x = true.
Proof.
  intros H. apply filter_In. rewrite H. left. reflexivity.
Qed.

Lemma In_map_replace (rows : list Course.t) (old new : Course.t) :
  In old rows -> Course.pk new = Course.pk old ->
  In new (map (fun r => if Nat.eqb (Course.pk r) (Course.pk new) then new else r) rows).
Proof.
  intros Hin Hpk. apply in_map_iff. exists old. rewrite Hpk, Nat.eqb_refl. auto.
Qed.

(** X11.  The course [process_node] returns is a row of the course table
    afterwards; it belongs to the loader's partner, and its key is the
    course key of the node up to case. *)
Theorem returned_course_is_persisted (data : json) (c c' : Catalog Media)
    (course : Course.t) :
  process_node data c = (c', Ok course) ->
  In course (courses c')
  /\ Course.partner course = partner
  /\ exists key, course_key_of data = Ok key
                 /\ PyStr.iexact (Course.key (Course.attrs course)) key = true.
Proof.
  intros H. apply process_node_Ok in H.
  destruct H as (key & tf & tv & title & tf' & data' & c1 & defaults & c2 & found
                 & created & status & Hkey & _ & _ & _ & _ & _ & Hd & Hgoc & _ & Hrest).
  apply course_defaults_Ok in Hd. destruct Hd as (Hdk & _ & _ & _ & Hc1).
  apply Course_get_or_create_Ok in Hgoc.
  destruct Hgoc as [(-> & _ & Hfound & ->)|(-> & Hfilter & ->)].
  - cbn [negb andb] in Hrest. destruct Hrest as [-> Hfin].
    apply finish_courses in Hfin. cbn [courses with_courses] in Hfin.
    rewrite Hfin. split; [apply in_or_app; right; left; reflexivity|].
    rewrite Hfound. cbn. split; [reflexivity|].
    exists key. rewrite Hdk. split; [exact Hkey|apply iexact_refl].
  - apply filter_singleton_In in Hfilter. destruct Hfilter as [Hin Hmatch].
    unfold CourseSteps.course_matches in Hmatch. apply andb_true_iff in Hmatch.
    destruct Hmatch as [Hiexact Hpartner]. apply Nat.eqb_eq in Hpartner.
    cbn [negb andb] in Hrest. destruct status.
    + destruct Hrest as (-> & c3 & Hsave & Hfin).
      unfold Course_save in Hsave. inversion Hsave; subst c3; clear Hsave.
      apply finish_courses in Hfin. cbn [courses with_courses Course.pk] in Hfin.
      rewrite Hfin. split.
      * apply in_map_iff. exists found. rewrite Nat.eqb_refl. auto.
      * cbn. split; [exact Hpartner|].
        exists key. rewrite Hdk. split; [exact Hkey|apply iexact_refl].
    + destruct Hrest as [-> Hfin].
      apply finish_courses in Hfin. rewrite Hfin.
      split; [exact Hin|]. split; [exact Hpartner|]. eauto.
Qed.

(** X12.  A node whose course key matches no course of the partner
    adds one row to the course table, the returned course under a
    primary key no course had, whatever the status of the node. *)
Theorem new_course_is_created_whatever_the_status (data : json) (c c' : Catalog Media)
    (course : Course.t) (key : string) :
  process_node data c = (c', Ok course) ->
  course_key_of data = Ok key ->
  filter (course_matches key) (courses c) = [] ->
  courses c' = courses c ++ [course]
  /\ Course.pk course = next_pk (map Course.pk (courses c))
  /\ ~ In (Course.pk course) (map Course.pk (courses c))
  /\ Course.key (Course.attrs course) = key.
Proof.
  intros H Hkey Hnone. apply process_node_Ok in H.
  destruct H as (key' & tf & tv & title & tf' & data' & c1 & defaults & c2 & found
                 & created & status & Hkey' & _ & _ & _ & _ & _ & Hd & Hgoc & _ & Hrest).
  rewrite Hkey in Hkey'. inversion Hkey'; subst key'; clear Hkey'.
  apply course_defaults_Ok in Hd. destruct Hd as (Hdk & _ & _ & _ & Hc1).
  apply Course_get_or_create_Ok in Hgoc. rewrite Hc1 in Hgoc.
  destruct Hgoc as [(-> & _ & Hfound & ->)|(_ & Hfilter & _)].
  - cbn [negb andb] in Hrest. destruct Hrest as [-> Hfin].
    apply finish_courses in Hfin. cbn [courses with_courses] in Hfin.
    rewrite Hfin, Hfound. cbn [Course.pk Course.attrs].
    repeat split; try assumption. apply next_pk_fresh.
  - rewrite Hnone in Hfilter. discriminate Hfilter.
Qed.

(** X13.  A Published node whose course key matches exactly one course of
    the partner overwrites that row in place: the row keeps its primary
    key and its partner and takes the node's attributes, the title
    passed through [clean_html] twice; the other rows stay as they
    were. *)
Theorem published_node_overwrites_the_course (data : json) (c c' : Catalog Media)
    (course old : Course.t) (key : string) :
  process_node data c = (c', Ok course) ->
  course_key_of data = Ok key ->
  filter (course_matches key) (courses c) = [old] ->
  get_course_run_status data = Ok Published ->
  courses c' = map (fun r => if Nat.eqb (Course.pk r) (Course.pk old) then course else r)
                   (courses c)
  /\ Course.pk course = Course.pk old
  /\ Course.partner course = Course.partner old
  /\ Course.key (Course.attrs course) = key
  /\ getitem data "field_course_code" = Ok (Course.number (Course.attrs course))
  /\ exists title_field title_value title,
       getitem data "field_course_course_title" = Ok title_field
       /\ getitem title_field "value" = Ok title_value
       /\ clean_html title_value = Ok title
       /\ clean_html (JStr title) = Ok (Course.title (Course.attrs course)).
Proof.
  intros H Hkey Hone Hstatus. apply process_node_Ok in H.
  destruct H as (key' & tf & tv & title & tf' & data' & c1 & defaults & c2 & found
                 & created & status & Hkey' & Htf & Htv & Htitle & Htf' & Hdata'
                 & Hd & Hgoc & Hst & Hrest).
  rewrite Hkey in Hkey'. inversion Hkey'; subst key'; clear Hkey'.
  rewrite Hstatus in Hst. inversion Hst; subst status; clear Hst.
  apply course_defaults_Ok in Hd.
  destruct Hd as (Hdk & Hnumber & _ & (tf2 & tv2 & Htf2 & Htv2 & Htitle2) & Hc1).
  apply Course_get_or_create_Ok in Hgoc. rewrite Hc1 in Hgoc.
  destruct Hgoc as [(_ & Hnone & _)|(-> & Hfilter & ->)].
  - rewrite Hone in Hnone. discriminate Hnone.
  - rewrite Hone in Hfilter. inversion Hfilter; subst found; clear Hfilter.
    cbn [negb andb] in Hrest. destruct Hrest as (-> & c3 & Hsave & Hfin).
    unfold Course_save in Hsave. inversion Hsave; subst c3; clear Hsave.
    apply finish_courses in Hfin. cbn [courses with_courses Course.pk] in Hfin.
    rewrite Hfin, Hc1. cbn [Course.pk Course.partner Course.attrs].
    split; [reflexivity|]. repeat split; try assumption.
    + replace (getitem data "field_course_code")
        with (getitem data' "field_course_code"); [exact Hnumber|].
      eapply getitem_setitem_other; [exact Hdata'|discriminate].
    + apply getitem_setitem_same in Hdata'. rewrite Hdata' in Htf2.
      inversion Htf2; subst tf2; clear Htf2.
      apply getitem_setitem_same in Htf'. rewrite Htf' in Htv2.
      inversion Htv2; subst tv2; clear Htv2.
      exists tf, tv, title. auto.
Qed.

(** A successful [create_course_run]: the run it returns is stored with
    the attributes computed from the node. *)
Lemma create_course_run_Ok (course : Course.t) (data : json) (c c' : Catalog Media)
    (r : option CourseRun.t) :
  create_course_run course data c = (c', Ok r) ->
  exists defaults run,
    course_run_defaults clean_html (language_tags c) course data = Ok defaults
    /\ r = Some run
    /\ CourseRun.attrs run = defaults
    /\ In run (course_runs c').
Proof.
  unfold CourseMarketingSiteDataLoader.create_course_run.
  destruct (course_run_defaults _ _ _ _) as [defaults|e]; [|discriminate].
  unfold CourseRun_update_or_create.
  destruct (filter _ (course_runs c)) as [|old [|another rest]] eqn:Hfilter;
    [| |discriminate].
  - intros H.
    match type of H with
    | bind (set_course_run_staff ?run _) _ ?c1 = _ =>
        pose proof (@after_update_or_create_keeps_runs Media run data
                      (CourseRun.uuid defaults) c1) as Hk
    end.
    rewrite H in Hk. cbn [fst course_runs with_course_runs] in Hk.
    do 3 inv_bind H. apply ret_Ok in H. destruct H as [-> _].
    do 2 eexists. split; [reflexivity|]. split; [reflexivity|]. split; [reflexivity|].
    rewrite Hk. apply in_or_app. right. left. reflexivity.
  - intros H.
    match type of H with
    | bind (set_course_run_staff ?run _) _ ?c1 = _ =>
        pose proof (@after_update_or_create_keeps_runs Media run data
                      (CourseRun.uuid defaults) c1) as Hk
    end.
    rewrite H in Hk. cbn [fst course_runs with_course_runs] in Hk.
    do 3 inv_bind H. apply ret_Ok in H. destruct H as [-> _].
    do 2 eexists. split; [reflexivity|]. split; [reflexivity|]. split; [reflexivity|].
    rewrite Hk. apply in_map_iff. exists old. cbn [CourseRun.pk].
    rewrite Nat.eqb_refl. split; [reflexivity|].
    apply filter_singleton_In in Hfilter. apply Hfilter.
Qed.

(** A successful [finish]: the run of the node is stored. *)
Lemma finish_Ok (course course' : Course.t) (data : json) (key : string)
    (c c' : Catalog Media) :
  finish course data key c = (c', Ok course') ->
  exists (c1 : Catalog Media) defaults run,
    course_run_defaults clean_html (language_tags c1) course data = Ok defaults
    /\ CourseRun.attrs run = defaults
    /\ In run (course_runs c').
Proof.
  unfold CourseSteps.finish. intros H.
  do 3 inv_bind H.
  match goal with
  | Hc : create_course_run _ _ _ = _ |- _ =>
      apply create_course_run_Ok in Hc;
      destruct Hc as (defaults & run & Hd & _ & Hattrs & Hin)
  end.
  inv_bind H. apply ret_Ok in H. destruct H as [_ ->].
  do 3 eexists. split; [exact Hd|split; [exact Hattrs|exact Hin]].
Qed.

(** X24.  After a successful [process_node] the run of the node is
    stored and belongs to the course that is returned: the run table has
    a row under the node's [field_course_id] whose course is the
    returned course and whose status is the status of the node. *)
Theorem processed_run_belongs_to_the_returned_course (data : json) (c c' : Catalog Media)
    (course : Course.t) :
  process_node data c = (c', Ok course) ->
  exists run,
    In run (course_runs c')
    /\ CourseRun.course (CourseRun.attrs run) = Course.pk course
    /\ getitem data "field_course_id" = Ok (JStr (CourseRun.key (CourseRun.attrs run)))
    /\ get_course_run_status data = Ok (CourseRun.status (CourseRun.attrs run)).
Proof.
  intros H. apply process_node_Ok in H.
  destruct H as (key & tf & tv & title & tf' & data' & c1 & defaults & c2 & found
                 & created & status & _ & _ & _ & _ & _ & Hdata' & _ & _ & _ & Hrest).
  assert (Hfin : exists c3, finish course data' key c3 = (c', Ok course)).
  { destruct (negb created && _).
    - destruct Hrest as (-> & c3 & _ & Hfin). eauto.
    - destruct Hrest as (-> & Hfin). eauto. }
  destruct Hfin as [c3 Hfin]. apply finish_Ok in Hfin.
  destruct Hfin as (c4 & run_defaults & run & Hd & Hattrs & Hin).
  exists run. split; [exact Hin|]. rewrite Hattrs.
  destruct (course_run_defaults_language _ _ _ _ Hd)
    as (lang_field & raw & names & _ & _ & _ & _ & Hcourse).
  apply course_run_defaults_inv in Hd.
  destruct Hd as (vs & ve & w & start & end_ & _ & _ & _ & _ & _ & _ & _ & Hst & Hid & _).
  split; [exact Hcourse|]. split.
  - rewrite <- Hid. symmetry. eapply getitem_setitem_other; [exact Hdata'|discriminate].
  - rewrite <- Hst. symmetry. apply (@get_course_run_status_setitem _ _ _ Hdata').
Qed.

(** [course_defaults] writes level types and media, nothing else. *)
Lemma course_defaults_writes (X : Type) (proj : Catalog Media -> X) (key : string)
    (data : json) :
  (forall x c, proj (with_level_types x c) = proj c) ->
  (forall x c, proj (with_media x c) = proj c) ->
  keeps proj (course_defaults key data).
Proof.
  intros Hl Hm.
  assert (Hmedia : forall f : Media -> Media * result (option nat), keeps proj (lift_media f)).
  { intros f c. unfold lift_media. destruct (f (media c)). apply Hm. }
  assert (Hlevel : forall name, keeps proj (@LevelType_get_or_create Media name)).
  { intros name c. unfold LevelType_get_or_create.
    destruct (existsb _ _); [reflexivity|apply Hl]. }
  unfold CourseMarketingSiteDataLoader.course_defaults, get_video, get_level_type.
  frame. destruct (truthy _); frame.
Qed.

(** X25.  Several courses of the partner under the node's course key
    (equal up to case): the node is given up before anything is written
    to courses, course runs or relation sets.  [process_node] raises,
    whatever the status of the node, and no course run of the node is
    stored. *)
Theorem duplicate_courses_abort_the_node (data : json) (c : Catalog Media) (key : string)
    (r1 r2 : Course.t) (rest : list Course.t) :
  course_key_of data = Ok key ->
  filter (course_matches key) (courses c) = r1 :: r2 :: rest ->
  (exists e, snd (process_node data c) = Raise e)
  /\ courses (fst (process_node data c)) = courses c
  /\ course_runs (fst (process_node data c)) = course_runs c
  /\ course_subjects (fst (process_node data c)) = course_subjects c
  /\ course_authoring_organizations (fst (process_node data c))
     = course_authoring_organizations c
  /\ course_run_staff (fst (process_node data c)) = course_run_staff c
  /\ course_run_transcript_languages (fst (process_node data c))
     = course_run_transcript_languages c.
Proof.
  intros Hkey Hmany.
  unfold CourseSteps.course_key_of in Hkey.
  destruct (getitem data "field_course_id") as [id|] eqn:Hid; [|discriminate Hkey].
  cbn [rbind] in Hkey.
  destruct (CourseKey_from_string id) as [run_key|] eqn:Hrk; [|discriminate Hkey].
  cbn [rbind] in Hkey.
  remember (process_node data c) as out eqn:Eout.
  unfold CourseMarketingSiteDataLoader.process_node in Eout.
  unfold bind at 1 in Eout. cbn [lift] in Eout. rewrite Hid in Eout.
  unfold bind at 1 in Eout. cbn [lift] in Eout. rewrite Hrk in Eout.
  unfold bind at 1 in Eout. cbn [lift] in Eout. rewrite Hkey in Eout.
  do 5 (unfold bind at 1 in Eout; cbn [lift] in Eout;
        match type of Eout with
        | context [match ?r with Ok _ => _ | Raise _ => _ end] =>
            destruct r eqn:?; [|subst out; cbn [fst snd]; repeat split; eauto]
        end).
  unfold bind at 1 in Eout.
  match type of Eout with
  | context [CourseMarketingSiteDataLoader.course_defaults ?a ?b ?k ?d c] =>
      pose proof (fun X proj Hl Hm => @course_defaults_writes X proj k d Hl Hm c) as Hw;
      destruct (CourseMarketingSiteDataLoader.course_defaults a b k d c)
        as [c1 [defaults|e]]; cbn [fst] in Hw
  end.
  - unfold bind at 1 in Eout. unfold Course_get_or_create at 1 in Eout.
    rewrite (Hw _ (@courses Media)) in Eout by reflexivity.
    fold (CourseSteps.course_matches partner key) in Eout. rewrite Hmany in Eout.
    subst out. cbn [fst snd].
    split; [eauto|]. repeat split; apply Hw; reflexivity.
  - subst out. cbn [fst snd].
    split; [eauto|]. repeat split; apply Hw; reflexivity.
Qed.

End CourseExtras.

(** ** The XSeries loader: programs are updated, never created *)

Section XSeriesExtras.
Import AbstractMarketingSiteDataLoader XSeriesMarketingSiteDataLoader XSeriesSteps.

Variable Media : Type.
Variable clean_html : json -> result string.
Variable get_or_create_video : json -> json -> Media -> Media * result (option nat).
Variable partner : nat.

Local Abbreviation process_node := (process_node clean_html get_or_create_video partner).
Local Abbreviation overview_of := (overview_of clean_html).

Lemma marketing_slug_of_Ok (data : json) (slug : string) :
  marketing_slug_of data = Ok slug ->
  exists url, getitem data "url" = Ok url /\ last_path_segment url = Ok slug.
Proof.
  unfold marketing_slug_of. destruct (getitem data "url") as [url|e]; [|discriminate].
  cbn [rbind]. eauto.
Qed.

Lemma process_node_without_program (data : json) (slug : string)
    (c : Catalog Media) :
  marketing_slug_of data = Ok slug ->
  filter (program_matches partner slug) (programs c) = [] ->
  process_node data c = (with_log (log c ++ [missing_program slug]) c, Ok None).
Proof.
  intros Hslug Hnone. apply marketing_slug_of_Ok in Hslug. destruct Hslug as (url & Hurl & Hseg).
  unfold XSeriesMarketingSiteDataLoader.process_node.
  unfold bind at 1. cbn [lift]. rewrite Hurl.
  unfold bind at 1. cbn [lift]. rewrite Hseg.
  unfold Program_get. unfold program_matches in Hnone. rewrite Hnone.
  reflexivity.
Qed.

(** X14.  A node whose slug no program of the partner carries is not an
    error of the page: [process_node] writes one entry to the log and
    returns [None], without reading the rest of the node and without
    touching any table. *)
Theorem missing_program_is_reported_not_raised (data : json) (slug : string)
    (c : Catalog Media) :
  marketing_slug_of data = Ok slug ->
  filter (program_matches partner slug) (programs c) = [] ->
  process_node data c = (with_log (log c ++ [missing_program slug]) c, Ok None).
Proof. apply process_node_without_program. Qed.

(** X15.  Several programs of the partner under the node's slug: the
    [get] raises [MultipleObjectsReturned], which is not the
    [DoesNotExist] the method catches; [process_node] raises it, with
    nothing written and nothing logged. *)
Theorem ambiguous_program_escapes (data : json) (slug : string) (c : Catalog Media)
    (p1 p2 : Program.t) (rest : list Program.t) :
  marketing_slug_of data = Ok slug ->
  filter (program_matches partner slug) (programs c) = p1 :: p2 :: rest ->
  process_node data c = (c, Raise MultipleObjectsReturned).
Proof.
  intros Hslug Hmany. apply marketing_slug_of_Ok in Hslug. destruct Hslug as (url & Hurl & Hseg).
  unfold XSeriesMarketingSiteDataLoader.process_node.
  unfold bind at 1. cbn [lift]. rewrite Hurl.
  unfold bind at 1. cbn [lift]. rewrite Hseg.
  unfold Program_get. unfold program_matches in Hmany. rewrite Hmany.
  reflexivity.
Qed.


Lemma identity_replace (rows : list Program.t) (old p : Program.t) :
  Program.pk p = Program.pk old ->
  map Program.pk (map (fun r => if Nat.eqb (Program.pk r) (Program.pk p) then p else r) rows)
  = map Program.pk rows.
Proof.
  intros _. rewrite map_map. apply map_ext. intros r.
  destruct (Nat.eqb_spec (Program.pk r) (Program.pk p)) as [E|_]; [symmetry; exact E|reflexivity].
Qed.

(** What [process_node] does once the slug is read: every outcome, with
    what it leaves in the catalog. *)
Lemma process_node_outcomes (data : json) (slug : string) (c : Catalog Media) :
  marketing_slug_of data = Ok slug ->
  let c' := fst (process_node data c) in
  match snd (process_node data c) with
  | Raise _ => programs c' = programs c /\ log c' = log c
  | Ok None => filter (program_matches partner slug) (programs c) = []
  | Ok (Some p) =>
      exists old overview,
        filter (program_matches partner slug) (programs c) = [old]
        /\ identity p = identity old
        /\ overview_of data = Ok overview
        /\ Program.overview (Program.attrs p) = overview
        /\ get data "field_xseries_subtitle_short" = Ok (Program.subtitle (Program.attrs p))
        /\ get data "field_cards_section_description"
           = Ok (Program.credit_redemption_overview (Program.attrs p))
        /\ (exists field, get data "field_card_image" = Ok field
                          /\ _get_nested_url field
                             = Ok (Program.card_image_url (Program.attrs p)))
        /\ programs c'
           = map (fun r => if Nat.eqb (Program.pk r) (Program.pk p) then p else r) (programs c)
  end
  /\ courses c' = courses c /\ course_runs c' = course_runs c.
Proof.
  intros Hslug. apply marketing_slug_of_Ok in Hslug. destruct Hslug as (url & Hurl & Hseg).
  cbv zeta. remember (process_node data c) as out eqn:Eout.
  unfold XSeriesMarketingSiteDataLoader.process_node in Eout.
  unfold bind at 1 in Eout. cbn [lift] in Eout. rewrite Hurl in Eout.
  unfold bind at 1 in Eout. cbn [lift] in Eout. rewrite Hseg in Eout.
  unfold Program_get in Eout. fold (program_matches partner slug) in Eout.
  destruct (filter (program_matches partner slug) (programs c)) as [|old [|another rest]];
    [subst out; cbn; auto| |subst out; cbn; auto].
  unfold bind, lift, lift_media, Program_save, logger, ret in Eout.
  repeat match type of Eout with
         | context [get_or_create_video ?a ?b ?m] =>
             destruct (get_or_create_video a b m) as [? ?] eqn:?
         | context [match ?r with Ok _ => _ | Raise _ => _ end] => destruct r eqn:?
         end;
    subst out;
    cbn [fst snd programs courses course_runs log with_media with_programs with_log];
    auto.
  split; [|auto]. do 2 eexists. split; [reflexivity|]. cbn.
  repeat split; eauto.
Qed.


(** X17.  The loader never creates and never deletes a program: whatever
    [process_node] returns or raises on a node with a readable slug, the
    primary keys of the program table are the same, in the same order,
    and courses and course runs are as they were.  When it raises, the
    program table has not been written at all. *)
Theorem xseries_never_creates_programs (data : json) (slug : string) (c : Catalog Media) :
  marketing_slug_of data = Ok slug ->
  map Program.pk (programs (fst (process_node data c))) = map Program.pk (programs c)
  /\ courses (fst (process_node data c)) = courses c
  /\ course_runs (fst (process_node data c)) = course_runs c
  /\ (forall e, snd (process_node data c) = Raise e ->
        programs (fst (process_node data c)) = programs c).
Proof.
  intros Hslug.
  pose proof (process_node_outcomes data c Hslug) as Hout. cbn zeta in Hout.
  destruct Hout as (Hout & Hcourses & Hruns).
  split; [|split; [exact Hcourses|split; [exact Hruns|]]].
  - destruct (snd (process_node data c)) as [[p|]|e] eqn:Eout.
    + destruct Hout as (old & overview & _ & Hid & _ & _ & _ & _ & _ & Hprograms).
      rewrite Hprograms. apply identity_replace with (old := old).
      unfold identity in Hid. congruence.
    + pose proof (process_node_without_program data c Hslug Hout) as Hmiss.
      rewrite Hmiss. reflexivity.
    + destruct Hout as [-> _]. reflexivity.
  - intros e He. rewrite He in Hout. apply Hout.
Qed.

End XSeriesExtras.

(** ** The Course loader: relation sets *)

Section RelationsOfOthers.
Context {B : Type}.
Variable eqb : B -> B -> bool.

Lemma m2m_members_app (owner : nat) (t t' : list (nat * B)) :
  m2m_members owner (t ++ t') = m2m_members owner t ++ m2m_members owner t'.
Proof. unfold m2m_members. rewrite filter_app, map_app. reflexivity. Qed.

Lemma m2m_members_clear_other (owner other : nat) (t : list (nat * B)) :
  other <> owner -> m2m_members other (m2m_clear owner t) = m2m_members other t.
Proof.
  intros Hne. unfold m2m_members, m2m_clear. f_equal.
  induction t as [|[o x] t IH]; simpl; [reflexivity|].
  destruct (Nat.eqb_spec o owner) as [->|Ho]; simpl.
  - destruct (Nat.eqb_spec owner other) as [E|_]; [symmetry in E; contradiction|exact IH].
  - destruct (Nat.eqb o other); [f_equal|]; exact IH.
Qed.

Lemma m2m_members_add_other (owner other : nat) (xs : list B) : forall t : list (nat * B),
  other <> owner -> m2m_members other (m2m_add eqb owner xs t) = m2m_members other t.
Proof.
  induction xs as [|x xs IH]; intros t Hne; simpl; [reflexivity|].
  rewrite IH by exact Hne.
  destruct (existsb _ t); [reflexivity|].
  rewrite m2m_members_app. unfold m2m_members at 2. simpl.
  destruct (Nat.eqb_spec owner other) as [E|_]; [symmetry in E; contradiction|].
  simpl. apply app_nil_r.
Qed.

(** [clear()] and [add] on the relation set of [owner] leave the
    relation set of any other owner as it was. *)
Lemma m2m_replace_other (owner other : nat) (xs : list B) (t : list (nat * B)) :
  other <> owner ->
  m2m_members other (m2m_add eqb owner xs (m2m_clear owner t)) = m2m_members other t.
Proof.
  intros Hne. rewrite m2m_members_add_other by exact Hne.
  apply m2m_members_clear_other. exact Hne.
Qed.

End RelationsOfOthers.

Section RelationExtras.
Import CourseMarketingSiteDataLoader.

Variable Media : Type.

Local Abbreviation set_subjects := (@set_subjects Media).
Local Abbreviation set_authoring_organizations := (@set_authoring_organizations Media).
Local Abbreviation set_course_run_staff := (@set_course_run_staff Media).
Local Abbreviation set_course_run_transcript_languages :=
  (@set_course_run_transcript_languages Media).


(** X21.  Each of the four setters rewrites the relation set of the
    course (or run) it is given and of no other: whatever it returns or
    raises, the relation set of any other course (or run) holds the same
    rows in the same order. *)
Theorem relation_sets_of_others_are_untouched (course : Course.t) (course_run : CourseRun.t)
    (data : json) (c : Catalog Media) (other : nat) :
  (other <> Course.pk course ->
   m2m_members other (course_subjects (fst (set_subjects course data c)))
   = m2m_members other (course_subjects c)
   /\ m2m_members other
        (course_authoring_organizations (fst (set_authoring_organizations course data c)))
      = m2m_members other (course_authoring_organizations c))
  /\ (other <> CourseRun.pk course_run ->
      m2m_members other (course_run_staff (fst (set_course_run_staff course_run data c)))
      = m2m_members other (course_run_staff c)
      /\ m2m_members other
           (course_run_transcript_languages
              (fst (set_course_run_transcript_languages course_run data c)))
         = m2m_members other (course_run_transcript_languages c)).
Proof.
  split; intros Hne; split.
  - unfold CourseMarketingSiteDataLoader.set_subjects, _get_objects_by_uuid, bind, lift.
    repeat match goal with
           | |- context [match ?r with Ok _ => _ | Raise _ => _ end] =>
               destruct r; [|reflexivity]
           end.
    cbn [fst course_subjects with_course_subjects]. apply m2m_replace_other. exact Hne.
  - unfold CourseMarketingSiteDataLoader.set_authoring_organizations, _get_objects_by_uuid,
      bind, lift.
    repeat match goal with
           | |- context [match ?r with Ok _ => _ | Raise _ => _ end] =>
               destruct r; [|reflexivity]
           end.
    cbn [fst course_authoring_organizations with_course_authoring_organizations].
    apply m2m_replace_other. exact Hne.
  - unfold CourseMarketingSiteDataLoader.set_course_run_staff, _get_objects_by_uuid,
      bind, lift.
    repeat match goal with
           | |- context [match ?r with Ok _ => _ | Raise _ => _ end] =>
               destruct r; [|reflexivity]
           end.
    cbn [fst course_run_staff with_course_run_staff]. apply m2m_replace_other. exact Hne.
  - unfold CourseMarketingSiteDataLoader.set_course_run_transcript_languages,
      _extract_language_tags, bind, lift.
    repeat match goal with
           | |- context [match ?r with Ok _ => _ | Raise _ => _ end] =>
               destruct r; [|reflexivity]
           end.
    cbn [fst course_run_transcript_languages with_course_run_transcript_languages].
    apply m2m_replace_other. exact Hne.
Qed.

End RelationExtras.

(** ** The Course loader never deletes *)

Section GrowthFacts.
Import Growth.
Context {Media : Type}.
Implicit Type c : Catalog Media.
Local Abbreviation steps := (@Growth.steps Media _).

Lemma extends_refl {A} (l : list A) : extends l l.
Proof. exists []. symmetry. apply app_nil_r. Qed.

Lemma extends_trans {A} (l1 l2 l3 : list A) : extends l1 l2 -> extends l2 l3 -> extends l1 l3.
Proof.
  intros [e1 ->] [e2 ->]. exists (e1 ++ e2). symmetry. apply app_assoc.
Qed.

Lemma extends_app {A} (l extra : list A) : extends l (l ++ extra).
Proof. exists extra. reflexivity. Qed.

Lemma grows_refl c : grows c c.
Proof. constructor; try reflexivity; apply extends_refl. Qed.

Lemma grows_trans c1 c2 c3 : grows c1 c2 -> grows c2 c3 -> grows c1 c3.
Proof.
  intros [] []. constructor; try (eapply extends_trans; eassumption); congruence.
Qed.

Lemma steps_ret {A} (a : A) : steps (ret a).
Proof. intros c. apply grows_refl. Qed.

Lemma steps_raise {A} (e : exn) : steps (@raise Media A e).
Proof. intros c. apply grows_refl. Qed.

Lemma steps_lift {A} (r : result A) : steps (lift r).
Proof. intros c. apply grows_refl. Qed.

Lemma steps_bind {A B} (m : M A) (k : A -> M B) :
  steps m -> (forall a, steps (k a)) -> steps (bind m k).
Proof.
  intros Hm Hk c. unfold bind. specialize (Hm c).
  destruct (m c) as [c1 [a|e]]; [|exact Hm].
  eapply grows_trans; [exact Hm|apply Hk].
Qed.

Lemma steps_try_except {A} (m : M A) (handler : exn -> M A) :
  steps m -> (forall e, steps (handler e)) -> steps (try_except m handler).
Proof.
  intros Hm Hh c. unfold try_except. specialize (Hm c).
  destruct (m c) as [c1 [a|e]]; [exact Hm|].
  eapply grows_trans; [exact Hm|apply Hh].
Qed.

Lemma steps_logger (lvl : LogLevel) (fmt : string) (args : list json) :
  steps (logger lvl fmt args).
Proof.
  intros c. constructor; try reflexivity; try apply extends_refl. apply extends_app.
Qed.

Lemma steps_lift_media {A} (f : Media -> Media * result A) : steps (lift_media f).
Proof.
  intros c. unfold lift_media. destruct (f (media c)) as [m r].
  constructor; try reflexivity; apply extends_refl.
Qed.

End GrowthFacts.

Ltac step :=
  repeat first
    [ assumption
    | match goal with H : _ |- Growth.steps _ => solve [apply H] end
    | apply steps_ret | apply steps_raise | apply steps_lift
    | apply steps_logger | apply steps_lift_media
    | apply steps_bind; [|intros ?]
    | apply steps_try_except; [|intros ?]
    | solve [intros ?; apply grows_refl] ].

Section CourseGrowth.
Import AbstractMarketingSiteDataLoader CourseMarketingSiteDataLoader Growth.

Variable Media : Type.
Variable clean_html : json -> result string.
Variable get_or_create_video : json -> json -> Media -> Media * result (option nat).
Variable CourseKey : Type.
Variable CourseKey_from_string : json -> result CourseKey.
Variable get_course_key_from_course_run_key : CourseKey -> result string.
Variable partner : nat.

Local Abbreviation steps := (@Growth.steps Media _).
Local Abbreviation process_node :=
  (process_node clean_html get_or_create_video CourseKey_from_string
     get_course_key_from_course_run_key partner).
Local Abbreviation course_loader :=
  (course_loader clean_html get_or_create_video CourseKey_from_string
     get_course_key_from_course_run_key partner).

Lemma steps_LevelType_get_or_create (name : json) :
  steps (@LevelType_get_or_create Media name).
Proof.
  intros c. unfold LevelType_get_or_create.
  destruct (existsb _ _); [apply grows_refl|].
  constructor; try reflexivity; try apply extends_refl. apply extends_app.
Qed.

Lemma steps_course_defaults (key : string) (data : json) :
  steps (course_defaults clean_html get_or_create_video key data).
Proof.
  unfold course_defaults, get_video, get_level_type.
  pose proof steps_LevelType_get_or_create.
  step. destruct (truthy _); step.
Qed.

Lemma steps_Course_get_or_create (key : string) (defaults : Course.fields) :
  steps (@Course_get_or_create Media partner key defaults).
Proof.
  intros c. unfold Course_get_or_create.
  destruct (filter _ (courses c)) as [|course [|another rest]]; try apply grows_refl.
  constructor; try reflexivity; try apply extends_refl.
  cbn [fst courses with_courses]. rewrite map_app. apply extends_app.
Qed.

Lemma steps_Course_save (course : Course.t) : steps (@Course_save Media course).
Proof.
  intros c. unfold Course_save.
  constructor; try reflexivity; try apply extends_refl.
  cbn [fst courses with_courses]. rewrite map_map.
  replace (map (fun r => Course.pk (if Nat.eqb (Course.pk r) (Course.pk course)
                                    then course else r)) (courses c))
    with (map Course.pk (courses c)); [apply extends_refl|].
  apply map_ext. intros r.
  destruct (Nat.eqb_spec (Course.pk r) (Course.pk course)) as [E|_]; [exact E|reflexivity].
Qed.

Lemma steps_CourseRun_update_or_create (key : string) (defaults : CourseRun.fields) :
  steps (@CourseRun_update_or_create Media key defaults).
Proof.
  intros c. unfold CourseRun_update_or_create.
  destruct (filter _ (course_runs c)) as [|old [|another rest]]; try apply grows_refl.
  - constructor; try reflexivity; try apply extends_refl.
    cbn [fst course_runs with_course_runs]. rewrite map_app. apply extends_app.
  - constructor; try reflexivity; try apply extends_refl.
    cbn [fst course_runs with_course_runs CourseRun.pk]. rewrite map_map.
    replace (map (fun r => CourseRun.pk
                             (if Nat.eqb (CourseRun.pk r) (CourseRun.pk old)
                              then {| CourseRun.pk := CourseRun.pk old;
                                      CourseRun.attrs := defaults |}
                              else r)) (course_runs c))
      with (map CourseRun.pk (course_runs c)); [apply extends_refl|].
    apply map_ext. intros r.
    destruct (Nat.eqb_spec (CourseRun.pk r) (CourseRun.pk old)) as [E|_];
      [exact E|reflexivity].
Qed.

Lemma steps__get_objects_by_uuid (table : Catalog Media -> list Entity) (raw : json) :
  steps (_get_objects_by_uuid table raw).
Proof. unfold _get_objects_by_uuid. step. Qed.

Lemma steps__extract_language_tags (raw : json) :
  steps (@_extract_language_tags Media raw).
Proof. unfold _extract_language_tags. step. Qed.

Lemma steps_set_subjects (course : Course.t) (data : json) :
  steps (@set_subjects Media course data).
Proof.
  unfold set_subjects. pose proof steps__get_objects_by_uuid. step.
  intros c. constructor; try reflexivity; apply extends_refl.
Qed.

Lemma steps_set_authoring_organizations (course : Course.t) (data : json) :
  steps (@set_authoring_organizations Media course data).
Proof.
  unfold set_authoring_organizations. pose proof steps__get_objects_by_uuid. step.
  intros c. constructor; try reflexivity; apply extends_refl.
Qed.

Lemma steps_set_course_run_staff (course_run : CourseRun.t) (data : json) :
  steps (@set_course_run_staff Media course_run data).
Proof.
  unfold set_course_run_staff. pose proof steps__get_objects_by_uuid. step.
  intros c. constructor; try reflexivity; apply extends_refl.
Qed.

Lemma steps_set_course_run_transcript_languages (course_run : CourseRun.t) (data : json) :
  steps (@set_course_run_transcript_languages Media course_run data).
Proof.
  unfold set_course_run_transcript_languages. pose proof steps__extract_language_tags. step.
  intros c. constructor; try reflexivity; apply extends_refl.
Qed.

Lemma steps_create_course_run (course : Course.t) (data : json) :
  steps (create_course_run clean_html course data).
Proof.
  intros c. unfold create_course_run.
  destruct (course_run_defaults _ _ _ _) as [defaults|e]; [|apply grows_refl].
  pose proof (steps_CourseRun_update_or_create (CourseRun.key defaults) defaults c) as Hk.
  destruct (CourseRun_update_or_create _ _ c) as [c' [[course_run created]|e]];
    cbn [fst] in Hk.
  - eapply grows_trans; [exact Hk|].
    pose proof steps_set_course_run_staff. pose proof steps_set_course_run_transcript_languages.
    assert (Hrest : steps
              (set_course_run_staff course_run data ;;
               set_course_run_transcript_languages course_run data ;;
               logger LInfo "Processed course run with UUID [%s]." [CourseRun.uuid defaults] ;;
               ret (Some course_run))%loader) by step.
    apply Hrest.
  - destruct e; try exact Hk.
    eapply grows_trans; [exact Hk|].
    assert (Hrest : steps
              (logger LError
                 "Multiple course runs are identified by the key [%s] or UUID [%s]."
                 [JStr (CourseRun.key defaults); CourseRun.uuid defaults] ;;
               ret (@None CourseRun.t))%loader) by step.
    apply Hrest.
Qed.

Lemma steps_process_node (data : json) : steps (process_node data).
Proof.
  unfold CourseMarketingSiteDataLoader.process_node.
  pose proof steps_course_defaults. pose proof steps_Course_get_or_create.
  pose proof steps_Course_save. pose proof steps_set_subjects.
  pose proof steps_set_authoring_organizations. pose proof steps_create_course_run.
  do 10 (apply steps_bind; [solve [step]|intros ?]).
  match goal with created_course : (Course.t * bool)%type |- _ =>
    destruct created_course as [course created] end.
  step. destruct (negb created && _); step.
Qed.

(** X22.  The Course loader never deletes: whatever [process_node]
    returns or raises, every course and every course run is still in its
    table under its primary key, in the same order, with rows added only
    at the end; level types and log entries are only added; and the
    tables of programs, organizations, subjects, people and language
    tags are as they were. *)
Theorem course_node_never_deletes (data : json) (c : Catalog Media) :
  grows c (fst (process_node data c)).
Proof. apply steps_process_node. Qed.

End CourseGrowth.

Section PageGrowth.
Import AbstractMarketingSiteDataLoader Growth.

Variable Media : Type.
Variable clean_strings : json -> result json.
Variable api_client_get : Z -> result Response.
Variable is_threadsafe : bool.
Variable process_node : json -> M (Media := Media) unit.
Hypothesis process_node_steps : forall node, steps (process_node node).

Local Abbreviation steps := (@Growth.steps Media _).
Local Abbreviation pager_steps := (@Growth.pager_steps Media _).

Lemma pager_steps_ret {A} (a : A) : pager_steps (pager_ret a).
Proof. intros c. apply grows_refl. Qed.

Lemma pager_steps_quiet {A} (m : M (Media := Media) A) : steps m -> pager_steps (quiet m).
Proof. intros Hm c. apply Hm. Qed.

Lemma pager_steps_bind {A B} (m : Pager Media A) (k : A -> Pager Media B) :
  pager_steps m -> (forall a, pager_steps (k a)) -> pager_steps (pager_bind m k).
Proof.
  intros Hm Hk c. unfold pager_bind. specialize (Hm c).
  destruct (m c) as [pages [c1 [a|e]]]; [|exact Hm].
  specialize (Hk a c1). destruct (k a c1) as [pages' out].
  eapply grows_trans; [exact Hm|exact Hk].
Qed.

Lemma pager_steps_submit {A} (call : Pager Media A) :
  pager_steps call -> pager_steps (submit call).
Proof.
  intros Hcall c. unfold submit. specialize (Hcall c).
  destruct (call c) as [pages [c1 r]]. exact Hcall.
Qed.

Lemma pager_steps__request (page : Z) : pager_steps (_request api_client_get page).
Proof. intros c. apply grows_refl. Qed.

Lemma steps_process_nodes (nodes : list json) : forall url,
  steps (process_nodes clean_strings process_node url nodes).
Proof.
  induction nodes as [|node nodes IH]; intros url; cbn [process_nodes]; [step|].
  destruct (getitem node "url") as [u|e].
  - step.
  - destruct url as [u|]; step.
Qed.

Lemma steps__process_response (response : Response) :
  steps (_process_response clean_strings process_node response).
Proof.
  unfold _process_response, _check_status_code. pose proof steps_process_nodes.
  destruct (status_code response =? 200); step.
Qed.

Lemma steps_process_futures (futures : list (result Response)) :
  steps (process_futures clean_strings process_node futures).
Proof.
  pose proof steps__process_response.
  induction futures as [|future futures IH]; cbn [process_futures]; step.
Qed.

Lemma pager_steps_submit_requests (pages : list Z) :
  pager_steps (submit_requests api_client_get pages).
Proof.
  induction pages as [|page pages IH]; cbn [submit_requests]; [apply pager_steps_ret|].
  apply pager_steps_bind; [apply pager_steps_submit, pager_steps__request|intros future].
  apply pager_steps_bind; [exact IH|intros futures]. apply pager_steps_ret.
Qed.

Lemma pager_steps__load_data (page : Z) :
  pager_steps (_load_data clean_strings api_client_get process_node page).
Proof.
  unfold _load_data. apply pager_steps_bind; [apply pager_steps__request|intros response].
  apply pager_steps_quiet, steps__process_response.
Qed.

Lemma pager_steps_submit_load_data (pages : list Z) :
  pager_steps (submit_load_data clean_strings api_client_get process_node pages).
Proof.
  induction pages as [|page pages IH]; cbn [submit_load_data]; [apply pager_steps_ret|].
  apply pager_steps_bind; [apply pager_steps_submit, pager_steps__load_data|intros _].
  exact IH.
Qed.

Lemma pager_steps_ingest :
  pager_steps (ingest clean_strings api_client_get is_threadsafe process_node).
Proof.
  unfold ingest.
  apply pager_steps_bind; [apply pager_steps__request|intros response].
  apply pager_steps_bind; [apply pager_steps_quiet, steps__process_response|intros _].
  apply pager_steps_bind; [apply pager_steps_quiet; step|intros data].
  destruct data; try (apply pager_steps_quiet; step).
  destruct (assoc "next" d); [|apply pager_steps_ret].
  apply pager_steps_bind; [apply pager_steps_quiet; step|intros pages].
  destruct is_threadsafe; [apply pager_steps_submit_load_data|].
  apply pager_steps_bind; [apply pager_steps_submit_requests|intros futures].
  apply pager_steps_quiet, steps_process_futures.
Qed.

End PageGrowth.

Section CourseIngest.
Import AbstractMarketingSiteDataLoader Growth.

Variable Media : Type.
Variable clean_html : json -> result string.
Variable get_or_create_video : json -> json -> Media -> Media * result (option nat).
Variable CourseKey : Type.
Variable CourseKey_from_string : json -> result CourseKey.
Variable get_course_key_from_course_run_key : CourseKey -> result string.
Variable partner : nat.
Variable clean_strings : json -> result json.
Variable api_client_get : Z -> result Response.
Variable is_threadsafe : bool.

Local Abbreviation course_loader :=
  (course_loader clean_html get_or_create_video CourseKey_from_string
     get_course_key_from_course_run_key partner).

Lemma steps_course_loader (node : json) : steps (course_loader node).
Proof.
  unfold Growth.course_loader. apply steps_bind; [|intros; apply steps_ret].
  apply steps_process_node.
Qed.

(** X23.  A whole run of the Course loader never deletes: whatever the
    marketing site answers, however many pages and nodes there are and
    however many of them fail, and whether [ingest] returns or raises,
    every course and every course run the catalog had is still in its
    table under its primary key; programs, organizations, subjects,
    people and language tags are untouched; the log is only added to. *)
Theorem course_ingest_never_deletes (c : Catalog Media) :
  grows c (fst (snd (ingest clean_strings api_client_get is_threadsafe course_loader c))).
Proof.
  apply pager_steps_ingest. exact steps_course_loader.
Qed.

End CourseIngest.

(** ** The Person loader: the position of a person *)

Section PersonExtras.
Import PersonMarketingSiteDataLoader.

Variable partner : nat.

Lemma Position_update_or_create_stores (person : nat) (title : json)
    (organization : option nat) (override : json) (rows rows' : list Position) :
  Position_update_or_create person title organization override rows = Ok rows' ->
  exists p,
    In p rows'
    /\ position_person p = person
    /\ position_title p = title
    /\ position_organization p = organization
    /\ position_organization_override p = override
    /\ map position_pk rows' = map position_pk rows ++
                               (if existsb (fun q => Nat.eqb (position_person q) person) rows
                                then [] else [position_pk p]).
Proof.
  unfold Position_update_or_create.
  destruct (filter _ rows) as [|old [|another rest]] eqn:Hfilter; [| |discriminate].
  - intros H. inversion H; subst rows'; clear H.
    eexists. split; [apply in_or_app; right; left; reflexivity|].
    cbn. repeat split.
    rewrite map_app. f_equal.
    destruct (existsb _ rows) eqn:Ex; [|reflexivity].
    apply existsb_exists in Ex. destruct Ex as [q [Hq Hp]].
    assert (Hin : In q (filter (fun p => Nat.eqb (position_person p) person) rows))
      by (apply filter_In; auto).
    rewrite Hfilter in Hin. contradiction Hin.
  - intros H. inversion H; subst rows'; clear H.
    destruct (filter_singleton_In _ _ Hfilter) as [Hin Hperson]. cbn beta in Hperson.
    eexists. split.
    { apply in_map_iff. exists old. rewrite Nat.eqb_refl. split; [reflexivity|exact Hin]. }
    cbn. repeat split.
    assert (Ex : existsb (fun q => Nat.eqb (position_person q) person) rows = true)
      by (apply existsb_exists; eauto).
    rewrite Ex, app_nil_r, map_map. apply map_ext. intros q.
    destruct (Nat.eqb_spec (position_pk q) (position_pk old)) as [E|_];
      [symmetry; exact E|reflexivity].
Qed.

(** What [position_of] comes to on a node whose first position has a
    title and names an organization. *)
Lemma position_of_named (person : nat) (data first title link : json) (more titles : list json)
    (n : string) (t : Tables) :
  get_default data "field_person_positions" (JList []) = Ok (JList (first :: more)) ->
  getitem first "field_person_position_tiltes" = Ok (JList (title :: titles)) ->
  get_default first "field_person_position_org_link" (JDict []) = Ok link ->
  get (if truthy link then link else JDict []) "title" = Ok (JStr n) ->
  n <> "" ->
  position_of partner person data t
  = match hd_error (filter (organization_matches partner n) (organizations t)) with
    | Some o =>
        Position_update_or_create person title (Some (organization_pk o)) JNull (positions t)
    | None => Position_update_or_create person title None (JStr n) (positions t)
    end.
Proof.
  intros Hpositions Htitles Hlink Hname Hn.
  unfold position_of. rewrite Hpositions. cbn [rbind truthy first_item].
  rewrite Htitles. cbn [rbind truthy first_item].
  rewrite Hlink. cbn [rbind]. rewrite Hname. cbn [rbind truthy].
  destruct (String.eqb_spec n "") as [E|_]; [contradiction|].
  cbn [negb find_organization rbind]. reflexivity.
Qed.

(** X26.  The position of a person whose node names an organization:
    [set_position] returns without logging, and the person's one
    position carries the first title of the node's first position; it is
    linked to the first organization the lookup finds, with no override,
    or, when the lookup finds none, it is linked to no organization and
    carries the name as override.  No position row is removed, and at
    most one is added. *)
Theorem position_is_linked_to_the_first_match (person : nat) (data uuid first title link : json)
    (more titles : list json) (n : string) (t : Tables) :
  getitem data "uuid" = Ok uuid ->
  get_default data "field_person_positions" (JList []) = Ok (JList (first :: more)) ->
  getitem first "field_person_position_tiltes" = Ok (JList (title :: titles)) ->
  get_default first "field_person_position_org_link" (JDict []) = Ok link ->
  get (if truthy link then link else JDict []) "title" = Ok (JStr n) ->
  n <> "" ->
  (List.length (filter (fun p => Nat.eqb (position_person p) person) (positions t)) <= 1)%nat ->
  let t' := fst (set_position partner person data t) in
  snd (set_position partner person data t) = Ok tt
  /\ log t' = log t
  /\ organizations t' = organizations t
  /\ exists p,
       In p (positions t')
       /\ position_person p = person
       /\ position_title p = title
       /\ match hd_error (filter (organization_matches partner n) (organizations t)) with
          | Some o => position_organization p = Some (organization_pk o)
                      /\ position_organization_override p = JNull
          | None => position_organization p = None
                    /\ position_organization_override p = JStr n
          end
       /\ map position_pk (positions t')
          = map position_pk (positions t)
            ++ (if existsb (fun q => Nat.eqb (position_person q) person) (positions t)
                then [] else [position_pk p]).
Proof.
  intros Huuid Hpositions Htitles Hlink Hname Hn Hone. cbv zeta.
  unfold set_position. rewrite Huuid.
  rewrite position_of_named
    with (first := first) (more := more) (title := title) (titles := titles)
         (link := link) (n := n) by assumption.
  assert (Hsome : forall organization override,
             exists rows,
               Position_update_or_create person title organization override (positions t)
               = Ok rows).
  { intros organization override. unfold Position_update_or_create.
    destruct (filter _ (positions t)) as [|old [|another rest]]; eauto.
    cbn [List.length] in Hone. lia. }
  destruct (hd_error (filter (organization_matches partner n) (organizations t))) as [o|].
  - destruct (Hsome (Some (organization_pk o)) JNull) as [rows Hrows]. rewrite Hrows.
    cbn [fst snd log organizations positions]. repeat (split; [reflexivity|]).
    apply Position_update_or_create_stores in Hrows.
    destruct Hrows as (p & Hin & Hp & Ht & Ho & Hov & Hpks).
    exists p. auto 10.
  - destruct (Hsome None (JStr n)) as [rows Hrows]. rewrite Hrows.
    cbn [fst snd log organizations positions]. repeat (split; [reflexivity|]).
    apply Position_update_or_create_stores in Hrows.
    destruct Hrows as (p & Hin & Hp & Ht & Ho & Hov & Hpks).
    exists p. auto 10.
Qed.

Lemma first_match (n : string) (before after : list Organization) (o : Organization) :
  (forall b, In b before -> organization_matches partner n b = false) ->
  organization_matches partner n o = true ->
  hd_error (filter (organization_matches partner n) (before ++ o :: after)) = Some o.
Proof.
  intros Hbefore Ho. induction before as [|b before IH]; simpl.
  - rewrite Ho. reflexivity.
  - rewrite (Hbefore b) by (left; reflexivity). apply IH.
    intros b' Hb'. apply Hbefore. right. exact Hb'.
Qed.

(** X27.  The lookup of the organization reads
    [name OR (key AND partner)]: an organization whose name is the
    name in the node (up to case) is linked to the person whatever
    partner it belongs to, while an organization of another partner that
    has the name as its key only is not linked: the person then has no
    organization, and the name is kept as override. *)
Theorem organization_is_matched_by_name_across_partners (person : nat)
    (data uuid first title link : json) (more titles : list json) (n : string)
    (t : Tables) (before after : list Organization) (o : Organization) :
  getitem data "uuid" = Ok uuid ->
  get_default data "field_person_positions" (JList []) = Ok (JList (first :: more)) ->
  getitem first "field_person_position_tiltes" = Ok (JList (title :: titles)) ->
  get_default first "field_person_position_org_link" (JDict []) = Ok link ->
  get (if truthy link then link else JDict []) "title" = Ok (JStr n) ->
  n <> "" ->
  filter (fun p => Nat.eqb (position_person p) person) (positions t) = [] ->
  organizations t = before ++ o :: after ->
  (forall b, In b before \/ In b after -> organization_matches partner n b = false) ->
  organization_partner o <> partner ->
  let stored := positions (fst (set_position partner person data t)) in
  (PyStr.iexact (organization_name o) n = true ->
   exists pk, stored = positions t ++ [{| position_pk := pk; position_person := person;
                                          position_title := title;
                                          position_organization := Some (organization_pk o);
                                          position_organization_override := JNull |}])
  /\ (PyStr.iexact (organization_name o) n = false ->
      exists pk, stored = positions t ++ [{| position_pk := pk; position_person := person;
                                             position_title := title;
                                             position_organization := None;
                                             position_organization_override := JStr n |}]).
Proof.
  intros Huuid Hpositions Htitles Hlink Hname Hn Hnone Horgs Hothers Hpartner. cbv zeta.
  unfold set_position. rewrite Huuid.
  rewrite position_of_named
    with (first := first) (more := more) (title := title) (titles := titles)
         (link := link) (n := n) by assumption.
  rewrite Horgs. split; intros Hmatch.
  - rewrite first_match;
      [|intros b Hb; apply Hothers; auto
       |unfold organization_matches; rewrite Hmatch; reflexivity].
    unfold Position_update_or_create. rewrite Hnone. cbn [fst positions]. eauto.
  - assert (Hno : filter (organization_matches partner n) (before ++ o :: after) = []).
    { rewrite filter_app. cbn [filter].
      assert (Ho : organization_matches partner n o = false).
      { unfold organization_matches. rewrite Hmatch. cbn [orb].
        destruct (Nat.eqb_spec (organization_partner o) partner) as [E|_];
          [contradiction|apply andb_false_r]. }
      rewrite Ho.
      assert (Hf : forall l, (forall b, In b l -> organization_matches partner n b = false) ->
                             filter (organization_matches partner n) l = []).
      { induction l as [|b l IH]; intros Hl; simpl; [reflexivity|].
        rewrite (Hl b) by (left; reflexivity). apply IH. intros b' Hb'. apply Hl. right. exact Hb'. }
      rewrite !Hf by (intros b Hb; apply Hothers; auto). reflexivity. }
    rewrite Hno. cbn [hd_error].
    unfold Position_update_or_create. rewrite Hnone. cbn [fst positions]. eauto.
Qed.

End PersonExtras.

(** ** The Subject and the School loader: running a node again *)

Section UpdateOrCreateFacts.

Variables Row Fields : Type.
Variable row_pk : Row -> nat.
Variable lookup : Row -> bool.
Variable create : nat -> Fields -> Row.
Variable update : Row -> Fields -> Row.

Hypothesis create_pk : forall n d, row_pk (create n d) = n.
Hypothesis update_pk : forall r d, row_pk (update r d) = row_pk r.
Hypothesis create_lookup : forall n d, lookup (create n d) = true.
Hypothesis update_lookup : forall r d, lookup (update r d) = lookup r.
Hypothesis update_create : forall n d, update (create n d) d = create n d.
Hypothesis update_update : forall r d, update (update r d) d = update r d.

Local Abbreviation update_or_create := (Orm.update_or_create row_pk lookup create update).

Lemma map_replace_same (rows : list Row) (row : Row) :
  (forall r, In r rows -> row_pk r = row_pk row -> r = row) ->
  map (fun r => if Nat.eqb (row_pk r) (row_pk row) then row else r) rows = rows.
Proof.
  intros H. induction rows as [|r rows IH]; simpl; [reflexivity|].
  rewrite IH by (intros r' Hr'; apply H; right; exact Hr').
  destruct (Nat.eqb_spec (row_pk r) (row_pk row)) as [E|_]; [|reflexivity].
  rewrite (H r) by (auto; left; reflexivity). reflexivity.
Qed.

(** What a successful [update_or_create] leaves. *)
Lemma update_or_create_Ok (defaults : Fields) (rows rows' : list Row) (row : Row) :
  update_or_create defaults rows = Ok (rows', row) ->
  In row rows' /\ lookup row = true
  /\ ((filter lookup rows = []
       /\ row = create (next_pk (map row_pk rows)) defaults /\ rows' = rows ++ [row])
      \/ (exists old, filter lookup rows = [old] /\ row = update old defaults
                      /\ rows' = map (fun r => if Nat.eqb (row_pk r) (row_pk row)
                                               then row else r) rows)).
Proof.
  unfold Orm.update_or_create.
  destruct (filter lookup rows) as [|old [|another rest]] eqn:Hfilter; [| |discriminate].
  - intros H. inversion H; subst. split; [apply in_or_app; right; left; reflexivity|].
    split; [apply create_lookup|]. left. auto.
  - intros H. inversion H; subst.
    destruct (filter_singleton_In _ _ Hfilter) as [Hin Hold].
    split.
    { apply in_map_iff. exists old. rewrite update_pk, Nat.eqb_refl. auto. }
    split; [rewrite update_lookup; exact Hold|]. right. exists old. auto.
Qed.

(** Run again with the same [defaults], [update_or_create] writes
    nothing new. *)
Lemma update_or_create_again (defaults : Fields) (rows rows1 : list Row) (row1 : Row) :
  update_or_create defaults rows = Ok (rows1, row1) ->
  match update_or_create defaults rows1 with
  | Ok (rows2, row2) => rows2 = rows1 /\ row2 = row1
  | Raise _ => True
  end.
Proof.
  intros H. apply update_or_create_Ok in H.
  destruct H as (_ & _ & [(Hnone & Hrow & ->)|(old & Hone & Hrow & ->)]).
  - unfold Orm.update_or_create. rewrite filter_app, Hnone. cbn [filter app].
    rewrite Hrow, create_lookup, <- Hrow. cbn zeta.
    assert (Hup : update row1 defaults = row1) by (rewrite Hrow; apply update_create).
    rewrite Hup. split; [|reflexivity].
    apply map_replace_same. intros r Hr Hpk. apply in_app_or in Hr.
    destruct Hr as [Hr|[<-|[]]]; [|reflexivity].
    exfalso. apply (@next_pk_fresh (map row_pk rows)).
    rewrite Hrow, create_pk in Hpk. rewrite <- Hpk. apply in_map. exact Hr.
  - destruct (filter_singleton_In _ _ Hone) as [Hin Hold].
    assert (Hpk1 : row_pk row1 = row_pk old) by (rewrite Hrow; apply update_pk).
    assert (Hup : update row1 defaults = row1) by (rewrite Hrow; apply update_update).
    unfold Orm.update_or_create.
    destruct (filter lookup (map _ rows)) as [|x [|another rest]] eqn:Hfilter; [| |exact I].
    + exfalso.
      assert (Hx : In row1 (filter lookup
                              (map (fun r => if Nat.eqb (row_pk r) (row_pk row1)
                                             then row1 else r) rows))).
      { apply filter_In. split.
        - apply in_map_iff. exists old. rewrite Hpk1, Nat.eqb_refl. auto.
        - rewrite Hrow, update_lookup. exact Hold. }
      rewrite Hfilter in Hx. contradiction Hx.
    + destruct (filter_singleton_In _ _ Hfilter) as [Hx Hlx]. cbn zeta.
      apply in_map_iff in Hx. destruct Hx as [r [Hr Hrin]].
      assert (Ex : x = row1).
      { destruct (Nat.eqb_spec (row_pk r) (row_pk row1)) as [E|Hne]; [symmetry; exact Hr|].
        subst x. exfalso. apply Hne.
        assert (Hrold : In r (filter lookup rows)) by (apply filter_In; auto).
        rewrite Hone in Hrold. destruct Hrold as [<-|[]]. symmetry. exact Hpk1. }
      rewrite Ex, Hup. split; [|reflexivity].
      apply map_replace_same. intros r' Hr' Hpk.
      apply in_map_iff in Hr'. destruct Hr' as [r0 [Hr0 _]].
      destruct (Nat.eqb_spec (row_pk r0) (row_pk row1)) as [_|Hne]; [symmetry; exact Hr0|].
      subst r'. contradiction.
Qed.

End UpdateOrCreateFacts.

Section TagsAgain.

Lemma m2m_clear_add (owner : nat) (xs : list string) : forall t : list (nat * string),
  m2m_clear owner (m2m_add String.eqb owner xs t) = m2m_clear owner t.
Proof.
  induction xs as [|x xs IH]; intros t; simpl; [reflexivity|].
  rewrite IH. destruct (existsb _ t); [reflexivity|].
  unfold m2m_clear. rewrite filter_app. simpl. rewrite Nat.eqb_refl. simpl.
  apply app_nil_r.
Qed.

Lemma m2m_clear_clear (owner : nat) (t : list (nat * string)) :
  m2m_clear owner (m2m_clear owner t) = m2m_clear owner t.
Proof.
  unfold m2m_clear. induction t as [|[o x] t IH]; simpl; [reflexivity|].
  destruct (Nat.eqb o owner) eqn:E; simpl; [exact IH|]. rewrite E. simpl. f_equal. exact IH.
Qed.

(** Setting the same tags again changes nothing. *)
Lemma m2m_replace_again (owner : nat) (xs : list string) (t : list (nat * string)) :
  m2m_add String.eqb owner xs
    (m2m_clear owner (m2m_add String.eqb owner xs (m2m_clear owner t)))
  = m2m_add String.eqb owner xs (m2m_clear owner t).
Proof. rewrite m2m_clear_add, m2m_clear_clear. reflexivity. Qed.

End TagsAgain.

(** The laws of a model's rows: what [create] and [update] do to the
    primary key and to the lookup. *)
Ltac row_laws :=
  intros;
  first [ reflexivity
        | apply andb_true_iff; split; [apply String.eqb_refl|apply Nat.eqb_refl] ].

Section SchoolExtras.
Import SchoolMarketingSiteDataLoader.

Variable clean_html : json -> result string.
Variable partner_ : nat.

Local Abbreviation process_node := (process_node clean_html partner_).
Local Abbreviation defaults_of := (defaults_of clean_html).
Local Abbreviation Organization_update_or_create := (Organization_update_or_create partner_).

Lemma Organization_update_or_create_again (key_ : json) (defaults : fields)
    (rows rows1 : list Organization) (row1 : Organization) :
  Organization_update_or_create key_ defaults rows = Ok (rows1, row1) ->
  match Organization_update_or_create key_ defaults rows1 with
  | Ok (rows2, row2) => rows2 = rows1 /\ row2 = row1
  | Raise _ => True
  end.
Proof.
  unfold SchoolMarketingSiteDataLoader.Organization_update_or_create.
  destruct key_; try discriminate.
  apply update_or_create_again; row_laws.
Qed.

Lemma Organization_update_or_create_Ok (key_ : json) (defaults : fields)
    (rows rows' : list Organization) (row : Organization) :
  Organization_update_or_create key_ defaults rows = Ok (rows', row) ->
  In row rows' /\ key_ = JStr (key row) /\ partner row = partner_ /\ attrs row = defaults.
Proof.
  unfold SchoolMarketingSiteDataLoader.Organization_update_or_create.
  destruct key_; try discriminate. intros H.
  apply update_or_create_Ok in H; try solve [row_laws].
  destruct H as (Hin & Hlookup & Hrow).
  apply andb_true_iff in Hlookup. destruct Hlookup as [Hkey Hpartner].
  apply String.eqb_eq in Hkey. apply Nat.eqb_eq in Hpartner.
  split; [exact Hin|]. split; [f_equal; symmetry; exact Hkey|]. split; [exact Hpartner|].
  destruct Hrow as [(_ & -> & _)|(old & _ & -> & _)]; reflexivity.
Qed.

Lemma In_tags_of (data : json) (m : list (string * string)) : forall tags_ tag,
  tags_of m data = Ok tags_ ->
  (In tag tags_
   <-> exists field flag, In (field, tag) m
                          /\ get_default data field (JBool false) = Ok flag
                          /\ truthy flag = true).
Proof.
  induction m as [|[field0 tag0] m IH]; intros tags_ tag H; cbn [tags_of] in H.
  - inversion H. split; [intros []|intros (f & fl & [] & _)].
  - destruct (get_default data field0 (JBool false)) as [flag|] eqn:Hflag; [|discriminate H].
    cbn [rbind] in H.
    destruct (tags_of m data) as [rest|] eqn:Hrest; [|discriminate H].
    cbn [rbind] in H. inversion H; subst tags_; clear H.
    specialize (IH rest tag eq_refl).
    destruct (truthy flag) eqn:Htruthy.
    + split.
      * intros [<-|Hin]; [exists field0, flag; split; [left; reflexivity|auto]|].
        apply IH in Hin. destruct Hin as (f & fl & Hin & Hrest').
        exists f, fl. split; [right; exact Hin|exact Hrest'].
      * intros (f & fl & [E|Hin] & Hf & Ht).
        -- inversion E; subst. left. reflexivity.
        -- right. apply IH. eauto.
    + rewrite IH. split.
      * intros (f & fl & Hin & Hrest'). exists f, fl. split; [right; exact Hin|exact Hrest'].
      * intros (f & fl & [E|Hin] & Hf & Ht).
        -- inversion E; subst. rewrite Hflag in Hf. inversion Hf; subst.
           rewrite Htruthy in Ht. discriminate Ht.
        -- eauto.
Qed.

(** X28.  Running the School loader on a node it has just processed
    changes neither the organizations nor their tags: whatever the node
    and the tables are, and whatever the first run returned or raised,
    the second run leaves both tables as the first run left them. *)
Theorem school_node_again_changes_nothing (data : json) (t : Tables) :
  organizations (fst (process_node data (fst (process_node data t))))
  = organizations (fst (process_node data t))
  /\ tags (fst (process_node data (fst (process_node data t))))
     = tags (fst (process_node data t)).
Proof.
  unfold SchoolMarketingSiteDataLoader.process_node.
  destruct (getitem data "title") as [key_|e]; cbn [rbind fst]; [|split; reflexivity].
  destruct (defaults_of data) as [defaults|e]; cbn [rbind fst]; [|split; reflexivity].
  destruct (Organization_update_or_create key_ defaults (organizations t))
    as [[rows1 school]|e] eqn:Hfirst; cbn [rbind fst].
  - pose proof (Organization_update_or_create_again _ _ _ Hfirst) as Hagain.
    unfold set_tags.
    destruct (tags_of mapping data) as [tags_|e]; cbn [rbind fst organizations tags log].
    + destruct (Organization_update_or_create key_ defaults rows1) as [[rows2 school2]|e2];
        cbn [rbind fst organizations tags log]; [|split; reflexivity].
      destruct Hagain as [-> ->]. split; [reflexivity|]. apply m2m_replace_again.
    + destruct (Organization_update_or_create key_ defaults rows1) as [[rows2 school2]|e2];
        cbn [rbind fst organizations tags log]; [|split; reflexivity].
      destruct Hagain as [-> ->]. split; reflexivity.
  - rewrite Hfirst. cbn [rbind fst]. split; reflexivity.
Qed.

(** X29.  The school [process_node] returns is a row of the table under
    the node's title and the loader's partner, with the attributes read
    from the node; its tags are exactly the tags of [mapping] whose
    field the node sets to a true value, whatever tags it had before;
    and the tags of every other organization are as they were. *)
Theorem school_is_stored_with_its_tags (data : json) (t t' : Tables) (school : Organization) :
  process_node data t = (t', Ok school) ->
  In school (organizations t')
  /\ getitem data "title" = Ok (JStr (key school))
  /\ partner school = partner_
  /\ defaults_of data = Ok (attrs school)
  /\ (forall tag,
        In tag (m2m_members (pk school) (tags t'))
        <-> exists field flag, In (field, tag) mapping
                               /\ get_default data field (JBool false) = Ok flag
                               /\ truthy flag = true)
  /\ (forall other, other <> pk school ->
        m2m_members other (tags t') = m2m_members other (tags t)).
Proof.
  unfold SchoolMarketingSiteDataLoader.process_node.
  destruct (getitem data "title") as [key_|e]; cbn [rbind]; [|discriminate].
  destruct (defaults_of data) as [defaults|e]; cbn [rbind]; [|discriminate].
  destruct (Organization_update_or_create key_ defaults (organizations t))
    as [[rows1 school1]|e] eqn:Hup; cbn [rbind]; [|discriminate].
  unfold set_tags.
  destruct (tags_of mapping data) as [tags_|e] eqn:Htags; cbn [rbind]; [|discriminate].
  intros H. inversion H; subst t' school1; clear H.
  cbn [organizations tags log].
  apply Organization_update_or_create_Ok in Hup.
  destruct Hup as (Hin & -> & Hpartner & Hattrs).
  split; [exact Hin|]. split; [reflexivity|]. split; [exact Hpartner|].
  split; [rewrite Hattrs; reflexivity|]. split.
  - intros tag. rewrite (@m2m_replace_members string String.eqb String.eqb_eq).
    apply In_tags_of. exact Htags.
  - intros other Hne. apply m2m_replace_other. exact Hne.
Qed.

End SchoolExtras.

Section SubjectExtras.
Import SubjectMarketingSiteDataLoader.

Variable clean_html : json -> result string.
Variable partner_ : nat.

Local Abbreviation process_node := (process_node clean_html partner_).
Local Abbreviation defaults_of := (defaults_of clean_html).
Local Abbreviation Subject_update_or_create := (Subject_update_or_create partner_).

(** X30.  The Subject loader is an upsert by slug and partner: the
    subject [process_node] returns is a row of the table under the
    node's slug and the loader's partner with the attributes read from
    the node, and running the loader on the node again leaves the table
    as the first run left it, whatever the first run returned or
    raised. *)
Theorem subject_node_is_upserted (data : json) (t : Tables) :
  subjects (fst (process_node data (fst (process_node data t))))
  = subjects (fst (process_node data t))
  /\ forall t' subject,
       process_node data t = (t', Ok subject) ->
       In subject (subjects t')
       /\ getitem data "field_subject_url_slug" = Ok (JStr (slug subject))
       /\ partner subject = partner_
       /\ defaults_of data = Ok (attrs subject).
Proof.
  unfold SubjectMarketingSiteDataLoader.process_node.
  destruct (getitem data "field_subject_url_slug") as [slug_|e]; cbn [rbind fst];
    [|split; [reflexivity|discriminate]].
  destruct (defaults_of data) as [defaults|e]; cbn [rbind fst];
    [|split; [reflexivity|discriminate]].
  destruct (Subject_update_or_create slug_ defaults (subjects t))
    as [[rows1 subject1]|e] eqn:Hfirst; cbn [rbind fst subjects].
  - unfold SubjectMarketingSiteDataLoader.Subject_update_or_create in *.
    destruct slug_; try discriminate Hfirst.
    split.
    + pose proof Hfirst as Hagain.
      apply update_or_create_again in Hagain; try solve [row_laws].
      destruct (Orm.update_or_create _ _ _ _ defaults rows1) as [[rows2 subject2]|e];
        cbn [rbind fst subjects]; [|reflexivity].
      destruct Hagain as [-> _]. reflexivity.
    + intros t' subject H. inversion H; subst t' subject1; clear H.
      cbn [subjects].
      apply update_or_create_Ok in Hfirst; try solve [row_laws].
      destruct Hfirst as (Hin & Hlookup & Hrow).
      apply andb_true_iff in Hlookup. destruct Hlookup as [Hslug Hpartner].
      apply String.eqb_eq in Hslug. apply Nat.eqb_eq in Hpartner.
      split; [exact Hin|]. split; [rewrite Hslug; reflexivity|]. split; [exact Hpartner|].
      destruct Hrow as [(_ & -> & _)|(old & _ & -> & _)]; reflexivity.
  - rewrite Hfirst. cbn [rbind fst]. split; [reflexivity|discriminate].
Qed.

End SubjectExtras.


(** ** The further properties on concrete pages and nodes *)

(** The site is down: one request, one error in the log, and the
    exception. *)
Lemma first_page_failure_aborts_ingest_witness :
  AbstractMarketingSiteDataLoader.ingest Fixture.clean_strings Sample.site_down false
    Fixture.process Fixture.empty
  = ([0],
     (with_log [{| log_level := LError;
                   log_format := status_message (Sample.unavailable "0");
                   log_args := [] |}] Fixture.empty,
      Raise (PyException (status_message (Sample.unavailable "0"))))).
Proof.
  refine (@first_page_failure_aborts_ingest
            Fixture.Media Fixture.clean_strings Sample.site_down false Fixture.process
            (Sample.unavailable "0") Fixture.empty _ _);
    vm_compute; [reflexivity|intros H; discriminate H].
Defined.

(** The third of four pages is down: all four are requested, and the
    run raises. *)
Lemma later_page_failure_aborts_ingest_witness :
  requested_pages
    (AbstractMarketingSiteDataLoader.ingest Fixture.clean_strings Sample.third_page_down
       false Fixture.process Fixture.empty)
  = [0; 1; 2; 3]
  /\ exists e,
       snd (snd (AbstractMarketingSiteDataLoader.ingest Fixture.clean_strings
                   Sample.third_page_down false Fixture.process Fixture.empty))
       = Raise e.
Proof.
  refine (@later_page_failure_aborts_ingest
            Fixture.Media Fixture.clean_strings Sample.third_page_down false Fixture.process
            Fixture.empty Fixture.empty (Fixture.page "0" [] Fixture.paging_links)
            (("list", JList []) :: Fixture.paging_links)
            (JStr (Fixture.page_url "1")) [1; 2; 3] 2 _ _ _ _ _ _ _ _);
    try (vm_compute; reflexivity).
  - right. left. reflexivity.
  - vm_compute. intros H. discriminate H.
Defined.

(** The same site read by the thread-safe loader: the run returns. *)
Lemma threadsafe_ingest_drops_page_failures_witness :
  snd (snd (AbstractMarketingSiteDataLoader.ingest Fixture.clean_strings
              Sample.third_page_down true Fixture.process Fixture.empty))
  = Ok tt.
Proof.
  refine (@threadsafe_ingest_drops_page_failures
            Fixture.Media Fixture.clean_strings Sample.third_page_down true Fixture.process
            Fixture.empty Fixture.empty (Fixture.page "0" [] Fixture.paging_links)
            (("list", JList []) :: Fixture.paging_links)
            (JStr (Fixture.page_url "1")) [1; 2; 3] _ _ _ _ _ _);
    vm_compute; reflexivity.
Defined.

Lemma ingest_without_next_is_one_page_witness :
  AbstractMarketingSiteDataLoader.ingest Fixture.clean_strings Sample.single_page false
    Fixture.process Fixture.empty
  = ([0], Fixture.process_response (Fixture.page "0" [Fixture.a_node] []) Fixture.empty).
Proof.
  refine (@ingest_without_next_is_one_page
            Fixture.Media Fixture.clean_strings Sample.single_page false Fixture.process
            Fixture.empty (Fixture.page "0" [Fixture.a_node] [])
            [("list", JList [Fixture.a_node])] _ _ _);
    vm_compute; reflexivity.
Defined.


(** A page with a node that loads and a node that does not. *)
Lemma page_of_nodes_with_url_never_raises_witness :
  snd (Fixture.process_response
         (Fixture.page "0" [Fixture.a_node; Fixture.malformed_node] []) Fixture.empty)
  = Ok tt.
Proof.
  refine (@page_of_nodes_with_url_never_raises
            Fixture.Media Fixture.clean_strings Fixture.process
            (Fixture.page "0" [Fixture.a_node; Fixture.malformed_node] [])
            (JDict [("list", JList [Fixture.a_node; Fixture.malformed_node])])
            (JList [Fixture.a_node; Fixture.malformed_node])
            [Fixture.a_node; Fixture.malformed_node] Fixture.empty _ _ _ _ _);
    try (vm_compute; reflexivity).
  repeat constructor; eexists; vm_compute; reflexivity.
Defined.

(** Drupal's empty array, an object with a URL, and a string. *)
Lemma _get_nested_url_cases_witness :
  AbstractMarketingSiteDataLoader._get_nested_url (JList []) = Ok JNull
  /\ AbstractMarketingSiteDataLoader._get_nested_url
       (JDict [("url", JStr "https://www.edx.org/image.png")])
     = Ok (JStr "https://www.edx.org/image.png")
  /\ AbstractMarketingSiteDataLoader._get_nested_url (JStr "image.png")
     = Raise AttributeError.
Proof.
  split; [|split].
  - exact (proj1 (_get_nested_url_cases (JList [])) eq_refl).
  - exact (proj1 (proj2 (_get_nested_url_cases
                           (JDict [("url", JStr "https://www.edx.org/image.png")])))
             _ eq_refl).
  - refine (proj2 (proj2 (_get_nested_url_cases (JStr "image.png"))) eq_refl _).
    intros d H. discriminate H.
Defined.

(** The Course loader asks for page 3 of the demo site. *)
Lemma requested_page_is_read_back_witness :
  AbstractMarketingSiteDataLoader._extract_page
    (JStr (Urlencode.request_url Sample.api_url
             (Urlencode.course_get_query_kwargs "course") 3))
  = Ok 3.
Proof.
  refine (@requested_page_is_read_back Sample.api_url
            (Urlencode.course_get_query_kwargs "course") 3 _ _).
  - vm_compute. reflexivity.
  - repeat constructor; intros H; discriminate H.
Defined.

Lemma loader_queries_are_read_back_witness :
  Url.parse_qsl (Url.query (Urlencode.request_url Sample.api_url
                              (Urlencode.course_get_query_kwargs "course") 3))
  = [ ("page", "3"); ("type", "course"); ("max-depth", "2");
      ("load-entity-refs", "file,taxonomy_term") ].
Proof.
  refine (proj2 (proj2 (@loader_queries_are_read_back
                          Sample.api_url "course" 3 _ _))).
  - vm_compute. reflexivity.
  - intros H. discriminate H.
Defined.

(** The first sighting of the demo course creates it. *)
Lemma returned_course_is_persisted_witness :
  Fixture.course_process_node Fixture.a_node Fixture.empty
  = (Sample.first_catalog, Ok Sample.first_course)
  /\ In Sample.first_course (courses Sample.first_catalog)
  /\ Course.partner Sample.first_course = Fixture.partner.
Proof.
  split; [vm_compute; reflexivity|].
  refine (let H := @returned_course_is_persisted
                     Fixture.Media Fixture.clean_html Fixture.get_or_create_video
                     Fixture.CourseKey Fixture.CourseKey_from_string
                     Fixture.get_course_key_from_course_run_key Fixture.partner
                     Fixture.a_node Fixture.empty Sample.first_catalog Sample.first_course _
          in conj (proj1 H) (proj1 (proj2 H))).
  vm_compute. reflexivity.
Defined.

Lemma new_course_is_created_whatever_the_status_witness :
  courses Sample.first_catalog = [Sample.first_course]
  /\ Course.pk Sample.first_course = 1%nat
  /\ Course.key (Course.attrs Sample.first_course) = "edX+DemoX".
Proof.
  refine (let H := @new_course_is_created_whatever_the_status
                     Fixture.Media Fixture.clean_html Fixture.get_or_create_video
                     Fixture.CourseKey Fixture.CourseKey_from_string
                     Fixture.get_course_key_from_course_run_key Fixture.partner
                     Fixture.a_node Fixture.empty Sample.first_catalog Sample.first_course
                     "edX+DemoX" _ _ _
          in conj (proj1 H) (conj (proj1 (proj2 H)) (proj2 (proj2 (proj2 H)))));
    vm_compute; reflexivity.
Defined.

(** The Published second sighting overwrites the one course in place. *)
Lemma published_node_overwrites_the_course_witness :
  courses Sample.second_catalog = [Sample.second_course]
  /\ Course.pk Sample.second_course = Course.pk Fixture.a_course
  /\ Course.partner Sample.second_course = Course.partner Fixture.a_course
  /\ Course.key (Course.attrs Sample.second_course) = "edX+DemoX".
Proof.
  refine (let H := @published_node_overwrites_the_course
                     Fixture.Media Fixture.clean_html Fixture.get_or_create_video
                     Fixture.CourseKey Fixture.CourseKey_from_string
                     Fixture.get_course_key_from_course_run_key Fixture.partner
                     Fixture.retitled_node Fixture.seen_once Sample.second_catalog
                     Sample.second_course Fixture.a_course "edX+DemoX" _ _ _ _
          in conj (proj1 H) (conj (proj1 (proj2 H))
               (conj (proj1 (proj2 (proj2 H))) (proj1 (proj2 (proj2 (proj2 H)))))));
    vm_compute; reflexivity.
Defined.

(** The page of a program the catalog does not have. *)
Lemma missing_program_is_reported_not_raised_witness :
  Fixture.xseries_process_node Sample.program_node Fixture.empty
  = (with_log [XSeriesSteps.missing_program "data-science"] Fixture.empty, Ok None).
Proof.
  refine (@missing_program_is_reported_not_raised
            Fixture.Media Fixture.clean_html Fixture.get_or_create_video Fixture.partner
            Sample.program_node "data-science" Fixture.empty _ _);
    vm_compute; reflexivity.
Defined.

Lemma ambiguous_program_escapes_witness :
  Fixture.xseries_process_node Sample.program_node Sample.with_duplicate_programs
  = (Sample.with_duplicate_programs, Raise MultipleObjectsReturned).
Proof.
  refine (@ambiguous_program_escapes
            Fixture.Media Fixture.clean_html Fixture.get_or_create_video Fixture.partner
            Sample.program_node "data-science" Sample.with_duplicate_programs
            Fixture.a_program Sample.a_duplicate_program [] _ _);
    vm_compute; reflexivity.
Defined.


Lemma xseries_never_creates_programs_witness :
  map Program.pk (programs (fst (Fixture.xseries_process_node Sample.program_node
                                   Sample.with_program)))
  = [1%nat].
Proof.
  refine (proj1 (@xseries_never_creates_programs
                   Fixture.Media Fixture.clean_html Fixture.get_or_create_video
                   Fixture.partner Sample.program_node "data-science"
                   Sample.with_program _)).
  vm_compute. reflexivity.
Defined.


Lemma weeks_without_a_span_witness :
  CourseRun.weeks_to_complete (Sample.defaults_of Sample.backwards_node) = Some 0.
Proof.
  refine (proj2 (@weeks_without_a_span
                   Fixture.clean_html (language_tags Fixture.empty) Fixture.a_course
                   Sample.backwards_node (Sample.defaults_of Sample.backwards_node)
                   JNull (JStr "1454284800") (JStr "1451865600") _ _ _ _ _)
            1454284800 1451865600 _ _ _ _ _);
    vm_compute; reflexivity.
Defined.


(** The subjects of the demo course are reset; the second course keeps
    its own. *)
Lemma relation_sets_of_others_are_untouched_witness :
  m2m_members 2%nat
    (course_subjects
       (fst (CourseMarketingSiteDataLoader.set_subjects Fixture.a_course Fixture.a_node
               Sample.with_two_subjects)))
  = m2m_members 2%nat (course_subjects Sample.with_two_subjects).
Proof.
  refine (proj1 (proj1 (@relation_sets_of_others_are_untouched
                          Fixture.Media Fixture.a_course Fixture.a_run Fixture.a_node
                          Sample.with_two_subjects 2%nat) _)).
  vm_compute. intros H. discriminate H.
Defined.

Lemma processed_run_belongs_to_the_returned_course_witness :
  exists run,
    In run (course_runs Sample.first_catalog)
    /\ CourseRun.course (CourseRun.attrs run) = Course.pk Sample.first_course.
Proof.
  destruct (@processed_run_belongs_to_the_returned_course
              Fixture.Media Fixture.clean_html Fixture.get_or_create_video
              Fixture.CourseKey Fixture.CourseKey_from_string
              Fixture.get_course_key_from_course_run_key Fixture.partner
              Fixture.a_node Fixture.empty Sample.first_catalog Sample.first_course)
    as (run & H1 & H2 & _).
  - vm_compute. reflexivity.
  - exists run. auto.
Defined.

Lemma duplicate_courses_abort_the_node_witness :
  exists e,
    snd (Fixture.course_process_node Fixture.a_node Sample.with_duplicate_courses) = Raise e.
Proof.
  refine (proj1 (@duplicate_courses_abort_the_node
                   Fixture.Media Fixture.clean_html Fixture.get_or_create_video
                   Fixture.CourseKey Fixture.CourseKey_from_string
                   Fixture.get_course_key_from_course_run_key Fixture.partner
                   Fixture.a_node Sample.with_duplicate_courses "edX+DemoX"
                   Fixture.a_course Sample.a_duplicate_course [] _ _));
    vm_compute; reflexivity.
Defined.

(** The person of the demo node becomes a professor. *)
Lemma position_is_linked_to_the_first_match_witness :
  snd (PersonMarketingSiteDataLoader.set_position Fixture.partner 5%nat Sample.person_node
         Sample.person_tables) = Ok tt.
Proof.
  refine (proj1 (@position_is_linked_to_the_first_match
                   Fixture.partner 5%nat Sample.person_node
                   (JStr "2f6c3b1e-8a6d-4b0e-9c59-0d6a4d9c1f42") Sample.first_position
                   (JStr "Professor") (JDict [("title", JStr "MITx")]) [] [] "MITx"
                   Sample.person_tables _ _ _ _ _ _ _));
    try (vm_compute; reflexivity).
  - intros H. discriminate H.
  - vm_compute. lia.
Defined.

(** The loader of the first partner links the person to the MITx of
    the second partner. *)
Lemma organization_is_matched_by_name_across_partners_witness :
  exists pk,
    PersonMarketingSiteDataLoader.positions
      (fst (PersonMarketingSiteDataLoader.set_position Fixture.partner 5%nat
              Sample.person_node Sample.person_tables))
    = [] ++ [{| PersonMarketingSiteDataLoader.position_pk := pk;
                PersonMarketingSiteDataLoader.position_person := 5%nat;
                PersonMarketingSiteDataLoader.position_title := JStr "Professor";
                PersonMarketingSiteDataLoader.position_organization := Some 1%nat;
                PersonMarketingSiteDataLoader.position_organization_override := JNull |}].
Proof.
  refine (proj1 (@organization_is_matched_by_name_across_partners
                   Fixture.partner 5%nat Sample.person_node
                   (JStr "2f6c3b1e-8a6d-4b0e-9c59-0d6a4d9c1f42") Sample.first_position
                   (JStr "Professor") (JDict [("title", JStr "MITx")]) [] [] "MITx"
                   Sample.person_tables [] [] Sample.mitx_of_another_partner
                   _ _ _ _ _ _ _ _ _ _) _);
    try (vm_compute; reflexivity).
  - intros H. discriminate H.
  - intros b [[]|[]].
  - vm_compute. intros H. discriminate H.
Defined.

(** MITx is created, as a founder; the tag of the other organization
    stays. *)
Lemma school_is_stored_with_its_tags_witness :
  In Sample.a_school (SchoolMarketingSiteDataLoader.organizations (fst Sample.school_sighting))
  /\ SchoolMarketingSiteDataLoader.key Sample.a_school = "MITx"
  /\ m2m_members (SchoolMarketingSiteDataLoader.pk Sample.a_school)
       (SchoolMarketingSiteDataLoader.tags (fst Sample.school_sighting)) = ["founder"]
  /\ m2m_members 9%nat (SchoolMarketingSiteDataLoader.tags (fst Sample.school_sighting))
     = ["partner"].
Proof.
  split; [|repeat split; vm_compute; reflexivity].
  refine (proj1 (@school_is_stored_with_its_tags
                   Fixture.clean_html Fixture.partner Sample.school_node Sample.no_schools
                   (fst Sample.school_sighting) Sample.a_school _)).
  vm_compute. reflexivity.
Defined.

Lemma subject_node_is_upserted_witness :
  In Sample.a_subject (SubjectMarketingSiteDataLoader.subjects (fst Sample.subject_sighting))
  /\ SubjectMarketingSiteDataLoader.partner Sample.a_subject = Fixture.partner.
Proof.
  refine (let H := proj2 (@subject_node_is_upserted
                            Fixture.clean_html Fixture.partner Sample.subject_node
                            Sample.no_subjects)
                     (fst Sample.subject_sighting) Sample.a_subject _
          in conj (proj1 H) (proj1 (proj2 (proj2 H)))).
  vm_compute. reflexivity.
Defined.
